(** * Cortex patch orchestration: policy, refresh gate, planner, executor, scheduler

    A shallow embedding of [cortex/autonomous_patcher.py] and
    [cortex/security_scheduler.py].

    - Python [str] values are Rocq strings (characters with code point
      below 256).
    - A Python [dict] is an insertion-ordered association list with unique
      keys ([dict_set] overwrites in place or appends), because the
      executor and the planner iterate over [.items()].
    - A Python [set] of package names is a [gset string].
    - A naive [datetime] is an integer count of microseconds on the local
      time line, a [timedelta] a difference of such counts; the system
      clock cannot come near the bounds of Python's [datetime] range.
    - Everything the program does to the outside (clock reads, subprocesses,
      the scanner, the installation history, the schedule file) goes
      through an oracle [Env] whose answers may depend on the whole log of
      effects so far.  The log is part of the state, newest event first.
    - Exceptions are modelled by their message [str(e)]; a computation is a
      state transformer returning [Ok] or [Raise], and state changes made
      before a raise stay visible, as in Python. *)

From Stdlib Require Import ZArith Lia Ascii String DecimalString.
From stdpp Require Import gmap strings list.

Local Open Scope string_scope.
Local Open Scope list_scope.
Local Open Scope Z_scope.

(** ** Python strings *)

Module PyStr.

Definition newline : ascii := Ascii.ascii_of_nat 10.
Definition colon : ascii := Ascii.ascii_of_nat 58.

(** [s.split(sep)] for a one-character separator: never returns an empty
    list, keeps empty pieces. *)
Fixpoint split (sep : ascii) (s : string) : list string :=
  match s with
  | EmptyString => [EmptyString]
  | String c s' =>
      if Ascii.eqb c sep then EmptyString :: split sep s'
      else match split sep s' with
           | h :: t => String c h :: t
           | [] => [String c EmptyString]
           end
  end.

(** [needle in hay] *)
Fixpoint contains (needle hay : string) : bool :=
  String.prefix needle hay ||
  match hay with
  | EmptyString => false
  | String _ hay' => contains needle hay'
  end.

(** [c.isspace()] on code points below 256. *)
Definition isspace (c : ascii) : bool :=
  let n := Ascii.nat_of_ascii c in
  ((9 <=? n)%nat && (n <=? 13)%nat) || ((28 <=? n)%nat && (n <=? 32)%nat)
  || (n =? 133)%nat || (n =? 160)%nat.

Fixpoint lstrip (s : string) : string :=
  match s with
  | EmptyString => EmptyString
  | String c s' => if isspace c then lstrip s' else s
  end.

Fixpoint rev_append (s acc : string) : string :=
  match s with
  | EmptyString => acc
  | String c s' => rev_append s' (String c acc)
  end.

Definition rev (s : string) : string := rev_append s EmptyString.

(** [s.strip()] *)
Definition strip (s : string) : string := rev (lstrip (rev (lstrip s))).

(** [sep.join(l)] *)
Fixpoint join (sep : string) (l : list string) : string :=
  match l with
  | [] => EmptyString
  | [x] => x
  | x :: l' => x +:+ sep +:+ join sep l'
  end.

(** [s.lower()] on ASCII letters. *)
Definition lower_char (c : ascii) : ascii :=
  let n := Ascii.nat_of_ascii c in
  if ((65 <=? n)%nat && (n <=? 90)%nat) then Ascii.ascii_of_nat (n + 32) else c.

Fixpoint lower (s : string) : string :=
  match s with
  | EmptyString => EmptyString
  | String c s' => String (lower_char c) (lower s')
  end.

(** [str(n)] for an integer. *)
Definition of_int (n : Z) : string := NilZero.string_of_int (Z.to_int n).

(** truthiness of a string *)
Definition truthy (s : string) : bool := negb (String.eqb s EmptyString).

End PyStr.

(** ** Insertion-ordered dictionaries *)

Section Dict.
Context {V : Type}.

Definition dict : Type := list (string * V).

Fixpoint dict_get (d : dict) (k : string) : option V :=
  match d with
  | [] => None
  | (k', v) :: d' => if String.eqb k' k then Some v else dict_get d' k
  end.

(** [k in d] *)
Definition dict_contains (d : dict) (k : string) : bool :=
  match dict_get d k with Some _ => true | None => false end.

(** [d[k] = v]: an existing key keeps its position, a new one goes last. *)
Fixpoint dict_set (d : dict) (k : string) (v : V) : dict :=
  match d with
  | [] => [(k, v)]
  | (k', v') :: d' =>
      if String.eqb k' k then (k', v) :: d' else (k', v') :: dict_set d' k v
  end.

Definition dict_items (d : dict) : list (string * V) := d.
Definition dict_keys (d : dict) : list string := map fst d.
Definition dict_values (d : dict) : list V := map snd d.

(** truthiness of a dict *)
Definition dict_truthy (d : dict) : bool :=
  match d with [] => false | _ :: _ => true end.
End Dict.

Arguments dict V : clear implicits.

(** ** Data model *)

(** Modelled from the spec: the [Severity] enumeration is declared in
    [cortex/vulnerability_scanner.py], which is not among the sources; the
    five members are those of [severity_order] in [_should_patch], their
    values the lower-case names used by the scheduler and the CLI. *)
Inductive Severity := CRITICAL | HIGH | MEDIUM | LOW | UNKNOWN.

Definition Severity_value (s : Severity) : string :=
  match s with
  | CRITICAL => "critical" | HIGH => "high" | MEDIUM => "medium"
  | LOW => "low" | UNKNOWN => "unknown"
  end.

(** [Severity(value)]: lookup by value, [None] standing for [ValueError]. *)
Definition Severity_of_value (s : string) : option Severity :=
  find (fun x => String.eqb (Severity_value x) s) [CRITICAL; HIGH; MEDIUM; LOW; UNKNOWN].

Definition Severity_eqb (a b : Severity) : bool :=
  match a, b with
  | CRITICAL, CRITICAL | HIGH, HIGH | MEDIUM, MEDIUM | LOW, LOW | UNKNOWN, UNKNOWN => true
  | _, _ => false
  end.

(** Modelled from the spec: [Vulnerability] is declared in
    [cortex/vulnerability_scanner.py]; the patcher reads only these two
    attributes. *)
Record Vulnerability := {
  package_name : string;
  severity : Severity;
}.

Inductive PatchStrategy := AUTOMATIC | CRITICAL_ONLY | HIGH_AND_ABOVE | MANUAL.

Definition PatchStrategy_value (s : PatchStrategy) : string :=
  match s with
  | AUTOMATIC => "automatic" | CRITICAL_ONLY => "critical_only"
  | HIGH_AND_ABOVE => "high_and_above" | MANUAL => "manual"
  end.

(** microseconds on the local time line *)
Definition datetime : Type := Z.

Record PatchPlan := {
  vulnerabilities : list Vulnerability;
  packages_to_update : dict string;          (* package -> target_version *)
  estimated_duration_minutes : Z;            (* a whole number of minutes *)
  requires_reboot : bool;
  rollback_available : bool;
}.

Record PatchResult := {
  patch_id : string;
  timestamp : string;
  vulnerabilities_patched : nat;
  packages_updated : list string;
  success : bool;
  errors : list string;
  rollback_id : option string;
  duration_seconds : option Z;               (* in microseconds *)
}.

Record AutonomousPatcher := {
  strategy : PatchStrategy;
  dry_run : bool;
  auto_approve : bool;
  whitelist : gset string;
  blacklist : gset string;
  min_severity : Severity;
}.

(** ** PolicyEngine: [_should_patch] *)

Definition severity_order (s : Severity) : Z :=
  match s with
  | CRITICAL => 4 | HIGH => 3 | MEDIUM => 2 | LOW => 1 | UNKNOWN => 0
  end.

Definition _should_patch (self : AutonomousPatcher) (vulnerability : Vulnerability) : bool :=
  if bool_decide (package_name vulnerability ∈ blacklist self) then false
  else if bool_decide (package_name vulnerability ∈ whitelist self) then true
  else if severity_order (severity vulnerability) <? severity_order (min_severity self)
  then false
  else match strategy self with
       | CRITICAL_ONLY => Severity_eqb (severity vulnerability) CRITICAL
       | HIGH_AND_ABOVE =>
           existsb (Severity_eqb (severity vulnerability)) [CRITICAL; HIGH]
       | AUTOMATIC => true
       | MANUAL => false
       end.

(** ** Effects: results, exceptions, state *)

Inductive Result (A : Type) := Ok (a : A) | Raise (e : string).
Arguments Ok {A} a.
Arguments Raise {A} e.

(** A computation over a state [S]: it returns or raises, and hands on the
    state as it was at that moment. *)
Definition M (S A : Type) : Type := S -> Result A * S.

Definition ret {S A} (a : A) : M S A := fun s => (Ok a, s).

Definition raise {S A} (e : string) : M S A := fun s => (Raise e, s).

Definition bind {S A B} (m : M S A) (k : A -> M S B) : M S B :=
  fun s =>
    match m s with
    | (Ok a, s') => k a s'
    | (Raise e, s') => (Raise e, s')
    end.

(** [try: body except Exception as e: handler] *)
Definition try_except {S A} (body : M S A) (handler : string -> M S A) : M S A :=
  fun s =>
    match body s with
    | (Ok a, s') => (Ok a, s')
    | (Raise e, s') => handler e s'
    end.

Declare Scope py_scope.
Delimit Scope py_scope with py.
Notation "x <- m ;; k" := (bind m (fun x => k))
  (at level 100, m at next level, right associativity) : py_scope.
Notation "m ;; k" := (bind m (fun _ => k))
  (at level 100, right associativity) : py_scope.
Local Open Scope py_scope.

(** Local variables of a function body (a frame [L]) next to the state. *)
Definition lift {L S A} (m : M S A) : M (L * S) A :=
  fun ls => match m (snd ls) with (r, s') => (r, (fst ls, s')) end.

Definition get_frame {L S} : M (L * S) L := fun ls => (Ok (fst ls), ls).

Definition modify_frame {L S} (f : L -> L) : M (L * S) unit :=
  fun ls => (Ok tt, (f (fst ls), snd ls)).

(** Run a body with a fresh frame and drop the frame at the end. *)
Definition with_frame {L S A} (l0 : L) (m : M (L * S) A) : M S A :=
  fun s => match m (l0, s) with (r, ls) => (r, snd ls) end.

(** [for x in l: body x] *)
Fixpoint for_each {S A} (l : list A) (body : A -> M S unit) : M S unit :=
  match l with
  | [] => ret tt
  | x :: l' => body x ;; for_each l' body
  end.

(** ** The outside world *)

(** What [subprocess.run(cmd, capture_output=True, text=True, timeout=300)]
    can do. *)
Inductive ProcOutcome :=
| Exited (returncode : Z) (stdout stderr : string)
| TimeoutExpired
| SpawnError (e : string).

(** Modelled from the spec: [InstallationType] and [InstallationStatus] are
    declared in [cortex/installation_history.py], which is not among the
    sources; only the members the patcher uses are listed. *)
Inductive InstallationType := UPGRADE.
Inductive InstallationStatus := SUCCESS | FAILED.

(** Modelled from the spec: the scan result of
    [VulnerabilityScanner.scan_all_packages], declared in
    [cortex/vulnerability_scanner.py]; the attributes are those the patcher
    and the scheduler read. *)
Module ScanResult.
Record t := {
  vulnerabilities_found : Z;
  critical_count : Z;
  high_count : Z;
  medium_count : Z;
  low_count : Z;
  vulnerabilities : list Vulnerability;
}.
End ScanResult.

(** The state of [~/.cortex/patcher_config.json] as [_load_config] meets it. *)
Inductive ConfigFile :=
| ConfigMissing
| ConfigUnreadable (e : string)
| ConfigJson (whitelist blacklist : option (list string)) (min_severity : option string).

(** One record of the schedule document written by [_save_schedules]. *)
Module ScheduleJson.
Record t := {
  schedule_id : string;
  frequency : string;
  scan_enabled : bool;
  patch_enabled : bool;
  patch_strategy : string;
  dry_run : bool;
  last_run : option string;
  next_run : option string;
  custom_cron : option string;
}.
End ScheduleJson.

(** The log of effects. *)
Inductive Event :=
| EvTime                                   (* int(time.time()) *)
| EvNow                                    (* datetime.now() *)
| EvRun (cmd : list string)                (* subprocess.run(cmd, ...) *)
| EvSetAptLastUpdated (t : datetime)       (* _apt_last_updated = t *)
| EvScan                                   (* VulnerabilityScanner().scan_all_packages() *)
| EvNewPatcher                             (* collaborators and config file of a new patcher *)
| EvRecordInstallation (ty : InstallationType) (packages commands : list string)
                       (start : datetime)
| EvUpdateInstallation (install_id : string) (st : InstallationStatus)
                       (error_message : option string)
| EvMkdir                                  (* config_path.parent.mkdir(...) *)
| EvWriteSchedules (doc : list ScheduleJson.t).

(** The environment answers each effect from the log of what happened
    before it. *)
Record Env := {
  env_time : list Event -> Z;
  env_now : list Event -> datetime;
  env_isoformat : datetime -> string;
  env_subprocess : list Event -> list string -> ProcOutcome;
  env_scan : list Event -> Result ScanResult.t;
  env_new_patcher : list Event -> Result ConfigFile;
  env_record_installation :
    list Event -> InstallationType -> list string -> list string -> datetime -> Result string;
  env_update_installation :
    list Event -> string -> InstallationStatus -> option string -> Result unit;
  env_mkdir : list Event -> Result unit;
  env_write_schedules : list Event -> list ScheduleJson.t -> Result unit;
}.

(** Process state: the effect log (newest first) and the module-level
    [_apt_last_updated]. *)
Record World := {
  log : list Event;
  _apt_last_updated : option datetime;
}.

Definition _APT_UPDATE_INTERVAL_SECONDS : Z := 300.

(** [delta.total_seconds() < seconds] for a difference in microseconds. *)
Definition total_seconds_lt (delta seconds : Z) : bool := delta <? seconds * 1000000.

(** The events of [l] in the order they happened. *)
Definition chronological (l : list Event) : list Event := rev l.

Definition is_run (ev : Event) : option (list string) :=
  match ev with EvRun cmd => Some cmd | _ => None end.

(** The commands run, oldest first. *)
Definition commands_run (l : list Event) : list (list string) :=
  omap is_run (chronological l).

(** Clock reads and the write of the module-level timestamp stay inside
    the process; every other event is a call to the outside. *)
Definition is_external (ev : Event) : bool :=
  match ev with
  | EvTime | EvNow | EvSetAptLastUpdated _ => false
  | _ => true
  end.

Definition external_calls (l : list Event) : list Event :=
  List.filter is_external (chronological l).

(** ** The patcher: [AutonomousPatcher] *)

Section Patcher.
Variable env : Env.

(** Perform one effect: log it and take the environment's answer. *)
Definition perform {A} (ev : Event) (answer : list Event -> Result A) : M World A :=
  fun w =>
    (answer (log w), {| log := ev :: log w; _apt_last_updated := _apt_last_updated w |}).

Definition time_time : M World Z := perform EvTime (fun l => Ok (env_time env l)).

Definition datetime_now : M World datetime := perform EvNow (fun l => Ok (env_now env l)).

Definition get_apt_last_updated : M World (option datetime) :=
  fun w => (Ok (_apt_last_updated w), w).

Definition set_apt_last_updated (t : datetime) : M World unit :=
  fun w => (Ok tt, {| log := EvSetAptLastUpdated t :: log w; _apt_last_updated := Some t |}).

(** The three handlers of [_run_command]. *)
Definition command_result (o : ProcOutcome) : bool * string * string :=
  match o with
  | Exited returncode stdout stderr => (returncode =? 0, stdout, stderr)
  | TimeoutExpired => (false, "", "Command timed out")
  | SpawnError e => (false, "", e)
  end.

Definition _run_command (cmd : list string) : M World (bool * string * string) :=
  perform (EvRun cmd) (fun l => Ok (command_result (env_subprocess env l cmd))).

Definition apt_get_update : list string := ["apt-get"; "update"; "-qq"].

(** The test that lets [ensure_apt_updated] return early. *)
Definition cache_fresh (force : bool) (last : option datetime) (now : datetime) : bool :=
  negb force &&
  match last with
  | Some t => total_seconds_lt (now - t) _APT_UPDATE_INTERVAL_SECONDS
  | None => false
  end.

(** The lock only matters to concurrent callers; calls here are
    sequential. *)
Definition ensure_apt_updated (force : bool) : M World bool :=
  now <- datetime_now ;;
  last <- get_apt_last_updated ;;
  if cache_fresh force last now then ret true
  else
    r <- _run_command apt_get_update ;;
    let '(success, stdout, stderr) := r in
    if success then set_apt_last_updated now ;; ret true
    else set_apt_last_updated now ;; ret false.

(** The loop over the lines of [apt-cache policy]. *)
Fixpoint find_candidate (lines : list string) : option string :=
  match lines with
  | [] => None
  | line :: rest =>
      if PyStr.contains "Candidate:" line then
        match PyStr.split PyStr.colon line with
        | _ :: part1 :: _ =>
            let version := PyStr.strip part1 in
            if PyStr.truthy version && negb (String.eqb version "(none)")
            then Some version
            else find_candidate rest
        | _ => find_candidate rest
        end
      else find_candidate rest
  end.

Definition _check_package_update_available (package_name : string)
  : M World (option string) :=
  r <- _run_command ["apt-cache"; "policy"; package_name] ;;
  let '(success, stdout, _) := r in
  if success then ret (find_candidate (PyStr.split PyStr.newline stdout))
  else ret None.

Definition scan_all_packages : M World ScanResult.t := perform EvScan (env_scan env).

(** Grouping by package: the first loop of [create_patch_plan]. *)
Definition group_step (package_vulns : dict (list Vulnerability)) (vuln : Vulnerability)
  : dict (list Vulnerability) :=
  let package_vulns :=
    if negb (dict_contains package_vulns (package_name vuln))
    then dict_set package_vulns (package_name vuln) []
    else package_vulns in
  match dict_get package_vulns (package_name vuln) with
  | Some vulns => dict_set package_vulns (package_name vuln) (vulns ++ [vuln])
  | None => package_vulns
  end.

Definition group_by_package (to_patch : list Vulnerability) : dict (list Vulnerability) :=
  fold_left group_step to_patch [].

(** The second loop of [create_patch_plan]; the pair is
    ([packages_to_update], [requires_reboot]). *)
Fixpoint check_updates (items : list (string * list Vulnerability))
    (acc : dict string * bool) : M World (dict string * bool) :=
  match items with
  | [] => ret acc
  | (package_name, vulns) :: rest =>
      update_version <- _check_package_update_available package_name ;;
      match update_version with
      | Some v =>
          if PyStr.truthy v then
            let packages_to_update := dict_set (fst acc) package_name v in
            let requires_reboot :=
              if PyStr.contains "linux-image" package_name
                 || PyStr.contains "linux-headers" package_name
              then true else snd acc in
            check_updates rest (packages_to_update, requires_reboot)
          else check_updates rest acc
      | None => check_updates rest acc
      end
  end.

Definition empty_plan : PatchPlan :=
  {| vulnerabilities := [];
     packages_to_update := [];
     estimated_duration_minutes := 0;
     requires_reboot := false;
     rollback_available := true |}.

Definition create_patch_plan (self : AutonomousPatcher)
    (vulnerabilities : option (list Vulnerability)) : M World PatchPlan :=
  vulnerabilities <-
    match vulnerabilities with
    | None => scan_result <- scan_all_packages ;;
              ret (ScanResult.vulnerabilities scan_result)
    | Some l => ret l
    end ;;
  let to_patch := List.filter (_should_patch self) vulnerabilities in
  match to_patch with
  | [] => ret empty_plan
  | _ :: _ =>
      let package_vulns := group_by_package to_patch in
      _ <- ensure_apt_updated false ;;
      acc <- check_updates (dict_items package_vulns) ([], false) ;;
      let packages_to_update := fst acc in
      let estimated_duration := Z.of_nat (length packages_to_update) * 1 in
      ret {| vulnerabilities := to_patch;
             packages_to_update := packages_to_update;
             estimated_duration_minutes := estimated_duration;
             requires_reboot := snd acc;
             rollback_available := true |}
  end.

(** *** The executor: [apply_patch_plan] *)

Definition record_installation (ty : InstallationType) (packages commands : list string)
    (start : datetime) : M World string :=
  perform (EvRecordInstallation ty packages commands start)
          (fun l => env_record_installation env l ty packages commands start).

Definition update_installation (install_id : string) (st : InstallationStatus)
    (error_message : option string) : M World unit :=
  perform (EvUpdateInstallation install_id st error_message)
          (fun l => env_update_installation env l install_id st error_message).

(** The two lists the real execution fills in. *)
Record Frame := {
  f_errors : list string;
  f_updated_packages : list string;
}.

Definition errors_append (msg : string) : M (Frame * World) unit :=
  modify_frame (fun f => {| f_errors := f_errors f ++ [msg];
                            f_updated_packages := f_updated_packages f |}).

Definition updated_packages_append (p : string) : M (Frame * World) unit :=
  modify_frame (fun f => {| f_errors := f_errors f;
                            f_updated_packages := f_updated_packages f ++ [p] |}).

Definition install_cmd (package_name target_version : string) : list string :=
  if PyStr.truthy target_version
  then ["apt-get"; "install"; "-y"; package_name +:+ "=" +:+ target_version]
  else ["apt-get"; "install"; "-y"; package_name].

(** The body of the install loop. *)
Definition install_one (item : string * string) : M (Frame * World) unit :=
  r <- lift (_run_command (install_cmd (fst item) (snd item))) ;;
  let '(success, stdout, stderr) := r in
  if success then updated_packages_append (fst item)
  else errors_append ("Failed to update " +:+ fst item +:+ ": " +:+ stderr).

Definition newline_str : string := String PyStr.newline EmptyString.

(** The [try] block of the real execution. *)
Definition apply_try (patch_id : string) (start_time : datetime) (plan : PatchPlan)
    (install_id : string) : M (Frame * World) PatchResult :=
  r <- lift (_run_command apt_get_update) ;;
  let '(success, stdout, stderr) := r in
  (if negb success then errors_append ("Failed to update package list: " +:+ stderr)
   else ret tt) ;;
  for_each (dict_items (packages_to_update plan)) install_one ;;
  f <- get_frame ;;
  success <-
    match f_errors f with
    | _ :: _ =>
        lift (update_installation install_id FAILED
                (Some (PyStr.join newline_str (f_errors f)))) ;;
        ret false
    | [] =>
        lift (update_installation install_id SUCCESS None) ;;
        ret true
    end ;;
  end_time <- lift datetime_now ;;
  let duration := end_time - start_time in
  ret {| patch_id := patch_id;
         timestamp := env_isoformat env start_time;
         vulnerabilities_patched := length (vulnerabilities plan);
         packages_updated := f_updated_packages f;
         success := success;
         errors := f_errors f;
         rollback_id := Some install_id;
         duration_seconds := Some duration |}.

(** The [except Exception as e] block. *)
Definition apply_except (patch_id : string) (start_time : datetime) (install_id : string)
    (e : string) : M (Frame * World) PatchResult :=
  let error_msg := "Patch operation failed: " +:+ e in
  errors_append error_msg ;;
  lift (update_installation install_id FAILED (Some error_msg)) ;;
  f <- get_frame ;;
  ret {| patch_id := patch_id;
         timestamp := env_isoformat env start_time;
         vulnerabilities_patched := 0;
         packages_updated := [];
         success := false;
         errors := f_errors f;
         rollback_id := Some install_id;
         duration_seconds := None |}.

Definition apply_patch_plan (self : AutonomousPatcher) (plan : PatchPlan)
  : M World PatchResult :=
  t <- time_time ;;
  let patch_id := "patch_" +:+ PyStr.of_int t in
  start_time <- datetime_now ;;
  if negb (dict_truthy (packages_to_update plan)) then
    ret {| patch_id := patch_id;
           timestamp := env_isoformat env start_time;
           vulnerabilities_patched := 0;
           packages_updated := [];
           success := true;
           errors := [];
           rollback_id := None;
           duration_seconds := None |}
  else if dry_run self then
    ret {| patch_id := patch_id;
           timestamp := env_isoformat env start_time;
           vulnerabilities_patched := length (vulnerabilities plan);
           packages_updated := dict_keys (packages_to_update plan);
           success := true;
           errors := [];
           rollback_id := None;
           duration_seconds := None |}
  else
    let packages_list := dict_keys (packages_to_update plan) in
    let commands :=
      ["apt-get update";
       "apt-get install -y " +:+ PyStr.join " " packages_list] in
    install_id <- record_installation UPGRADE packages_list commands start_time ;;
    with_frame {| f_errors := []; f_updated_packages := [] |}
      (try_except (apply_try patch_id start_time plan install_id)
                  (apply_except patch_id start_time install_id)).

Definition patch_vulnerabilities (self : AutonomousPatcher)
    (vulnerabilities : option (list Vulnerability)) : M World PatchResult :=
  plan <- create_patch_plan self vulnerabilities ;;
  if negb (dict_truthy (packages_to_update plan)) then
    t <- time_time ;;
    now <- datetime_now ;;
    ret {| patch_id := "patch_" +:+ PyStr.of_int t;
           timestamp := env_isoformat env now;
           vulnerabilities_patched := 0;
           packages_updated := [];
           success := true;
           errors := [];
           rollback_id := None;
           duration_seconds := None |}
  else apply_patch_plan self plan.

(** *** Construction: [__init__] and [_load_config] *)

Definition get_default {A} (o : option A) (d : A) : A :=
  match o with Some a => a | None => d end.

(** [_load_config] on what it finds: a missing or unreadable file changes
    nothing; an invalid [min_severity] raises after the two sets are
    assigned, and the handler keeps them. *)
Definition _load_config (self : AutonomousPatcher) (file : ConfigFile) : AutonomousPatcher :=
  match file with
  | ConfigMissing => self
  | ConfigUnreadable _ => self
  | ConfigJson wl bl ms =>
      let whitelist' : gset string := list_to_set (get_default wl []) in
      let blacklist' : gset string := list_to_set (get_default bl []) in
      let min_sev := get_default ms "medium" in
      {| strategy := strategy self;
         dry_run := dry_run self;
         auto_approve := auto_approve self;
         whitelist := whitelist';
         blacklist := blacklist';
         min_severity :=
           match Severity_of_value (PyStr.lower min_sev) with
           | Some s => s
           | None => min_severity self
           end |}
  end.

(** [AutonomousPatcher(strategy, dry_run, auto_approve)] *)
Definition AutonomousPatcher_init (strategy : PatchStrategy) (dry_run auto_approve : bool)
  : M World AutonomousPatcher :=
  file <- perform EvNewPatcher (env_new_patcher env) ;;
  ret (_load_config
         {| strategy := strategy;
            dry_run := dry_run;
            auto_approve := auto_approve;
            whitelist := ∅;
            blacklist := ∅;
            min_severity := MEDIUM |}
         file).

End Patcher.

(** ** The scheduler: [SecurityScheduler] *)

Inductive ScheduleFrequency := DAILY | WEEKLY | MONTHLY | CUSTOM.

Definition ScheduleFrequency_value (f : ScheduleFrequency) : string :=
  match f with
  | DAILY => "daily" | WEEKLY => "weekly" | MONTHLY => "monthly" | CUSTOM => "custom"
  end.

Module SecuritySchedule.
Record t := {
  schedule_id : string;
  frequency : ScheduleFrequency;
  scan_enabled : bool;
  patch_enabled : bool;
  patch_strategy : PatchStrategy;
  dry_run : bool;
  last_run : option string;
  next_run : option string;
  custom_cron : option string;
}.

(** [schedule.last_run = v] *)
Definition set_last_run (v : option string) (s : t) : t :=
  {| schedule_id := schedule_id s; frequency := frequency s;
     scan_enabled := scan_enabled s; patch_enabled := patch_enabled s;
     patch_strategy := patch_strategy s; dry_run := dry_run s;
     last_run := v; next_run := next_run s; custom_cron := custom_cron s |}.

(** [schedule.next_run = v] *)
Definition set_next_run (v : option string) (s : t) : t :=
  {| schedule_id := schedule_id s; frequency := frequency s;
     scan_enabled := scan_enabled s; patch_enabled := patch_enabled s;
     patch_strategy := patch_strategy s; dry_run := dry_run s;
     last_run := last_run s; next_run := v; custom_cron := custom_cron s |}.

(** The record [_save_schedules] writes for a schedule. *)
Definition to_json (s : t) : ScheduleJson.t :=
  {| ScheduleJson.schedule_id := schedule_id s;
     ScheduleJson.frequency := ScheduleFrequency_value (frequency s);
     ScheduleJson.scan_enabled := scan_enabled s;
     ScheduleJson.patch_enabled := patch_enabled s;
     ScheduleJson.patch_strategy := PatchStrategy_value (patch_strategy s);
     ScheduleJson.dry_run := dry_run s;
     ScheduleJson.last_run := last_run s;
     ScheduleJson.next_run := next_run s;
     ScheduleJson.custom_cron := custom_cron s |}.
End SecuritySchedule.

(** The [scan_result] entry of the run summary. *)
Module ScanSummary.
Record t := {
  vulnerabilities_found : Z;
  critical_count : Z;
  high_count : Z;
  medium_count : Z;
  low_count : Z;
}.
End ScanSummary.

(** The [patch_result] entry of the run summary. *)
Module PatchSummary.
Record t := {
  packages_updated : nat;
  vulnerabilities_patched : nat;
  success : bool;
  errors : list string;
}.
End PatchSummary.

(** The dictionary [run_schedule] returns. *)
Module RunResults.
Record t := {
  schedule_id : string;
  timestamp : string;
  scan_result : option ScanSummary.t;
  patch_result : option PatchSummary.t;
  success : bool;
  errors : list string;
}.

Definition set_scan_result (v : option ScanSummary.t) (r : t) : t :=
  {| schedule_id := schedule_id r; timestamp := timestamp r; scan_result := v;
     patch_result := patch_result r; success := success r; errors := errors r |}.

Definition set_patch_result (v : option PatchSummary.t) (r : t) : t :=
  {| schedule_id := schedule_id r; timestamp := timestamp r;
     scan_result := scan_result r; patch_result := v;
     success := success r; errors := errors r |}.

Definition set_success (v : bool) (r : t) : t :=
  {| schedule_id := schedule_id r; timestamp := timestamp r;
     scan_result := scan_result r; patch_result := patch_result r;
     success := v; errors := errors r |}.

(** [results["errors"].extend(l)]; [append] is [extend] with one element. *)
Definition errors_extend (l : list string) (r : t) : t :=
  {| schedule_id := schedule_id r; timestamp := timestamp r;
     scan_result := scan_result r; patch_result := patch_result r;
     success := success r; errors := errors r ++ l |}.
End RunResults.

(** The mutable part of a scheduler object. *)
Record SecurityScheduler := {
  schedules : dict SecuritySchedule.t;
}.

(** [timedelta(days=d, weeks=w)] in microseconds. *)
Definition timedelta (days weeks : Z) : Z := (days + 7 * weeks) * 86400 * 1000000.

Section Scheduler.
Variable env : Env.

Definition _calculate_next_run (frequency : ScheduleFrequency) (custom_cron : option string)
  : M World (option datetime) :=
  now <- datetime_now env ;;
  match frequency with
  | DAILY => ret (Some (now + timedelta 1 0))
  | WEEKLY => ret (Some (now + timedelta 0 1))
  | MONTHLY => ret (Some (now + timedelta 30 0))
  | CUSTOM => ret None
  end.

(** State of a method of the scheduler: [self] next to the world. *)
Definition SelfWorld : Type := SecurityScheduler * World.

(** [mkdir] is outside the [try]; a failed write is logged and dropped. *)
Definition _save_schedules : M SelfWorld unit :=
  lift (perform EvMkdir (env_mkdir env)) ;;
  self <- get_frame ;;
  let data := map SecuritySchedule.to_json (dict_values (schedules self)) in
  try_except
    (lift (perform (EvWriteSchedules data) (fun l => env_write_schedules env l data)))
    (fun e => ret tt).

(** An attribute assignment on the schedule object stored under
    [schedule_id]: the object is shared with [self.schedules]. *)
Definition schedule_assign (schedule_id : string)
    (f : SecuritySchedule.t -> SecuritySchedule.t) : M SelfWorld unit :=
  modify_frame (fun self =>
    match dict_get (schedules self) schedule_id with
    | Some s => {| schedules := dict_set (schedules self) schedule_id (f s) |}
    | None => self
    end).

(** State inside [run_schedule]: the [results] dictionary, [self], the
    world. *)
Definition RunState : Type := RunResults.t * SelfWorld.

Definition in_world {A} (m : M World A) : M RunState A := lift (lift m).

(** The filter of the scheduled patch run. *)
Definition critical_or_high (v : Vulnerability) : bool :=
  existsb (String.eqb (Severity_value (severity v))) ["critical"; "high"].

Definition scan_summary (r : ScanResult.t) : ScanSummary.t :=
  {| ScanSummary.vulnerabilities_found := ScanResult.vulnerabilities_found r;
     ScanSummary.critical_count := ScanResult.critical_count r;
     ScanSummary.high_count := ScanResult.high_count r;
     ScanSummary.medium_count := ScanResult.medium_count r;
     ScanSummary.low_count := ScanResult.low_count r |}.

Definition patch_summary (r : PatchResult) : PatchSummary.t :=
  {| PatchSummary.packages_updated := length (packages_updated r);
     PatchSummary.vulnerabilities_patched := vulnerabilities_patched r;
     PatchSummary.success := success r;
     PatchSummary.errors := errors r |}.

(** What follows the call of [patch_vulnerabilities]. *)
Definition record_patch_result (patch_result : PatchResult) : M RunState unit :=
  modify_frame (RunResults.set_patch_result (Some (patch_summary patch_result))) ;;
  if negb (success patch_result) then
    modify_frame (RunResults.set_success false) ;;
    modify_frame (RunResults.errors_extend (errors patch_result))
  else ret tt.

(** The patch part of the [try] block, entered when patching is enabled
    and the scan reported vulnerabilities. *)
Definition patch_block (schedule : SecuritySchedule.t) (scan_result : ScanResult.t)
  : M RunState unit :=
  patcher <- in_world (AutonomousPatcher_init env
                         (SecuritySchedule.patch_strategy schedule)
                         (SecuritySchedule.dry_run schedule) false) ;;
  let to_patch := List.filter critical_or_high (ScanResult.vulnerabilities scan_result) in
  patch_result <- in_world (patch_vulnerabilities env patcher (Some to_patch)) ;;
  record_patch_result patch_result.

(** The scan and patch part of the [try] block. *)
Definition scan_patch_block (schedule : SecuritySchedule.t) : M RunState unit :=
  if SecuritySchedule.scan_enabled schedule then
    scan_result <- in_world (scan_all_packages env) ;;
    modify_frame (RunResults.set_scan_result (Some (scan_summary scan_result))) ;;
    if SecuritySchedule.patch_enabled schedule
       && (0 <? ScanResult.vulnerabilities_found scan_result)
    then patch_block schedule scan_result
    else ret tt
  else ret tt.

(** The update step that ends the [try] block.  The conditional
    expression calls [_calculate_next_run] for its test and again for its
    value. *)
Definition update_schedule (schedule_id : string) (schedule : SecuritySchedule.t)
  : M RunState unit :=
  now <- in_world (datetime_now env) ;;
  lift (schedule_assign schedule_id
          (SecuritySchedule.set_last_run (Some (env_isoformat env now)))) ;;
  test <- in_world (_calculate_next_run (SecuritySchedule.frequency schedule)
                                        (SecuritySchedule.custom_cron schedule)) ;;
  next_run <-
    match test with
    | Some _ =>
        value <- in_world (_calculate_next_run (SecuritySchedule.frequency schedule)
                                               (SecuritySchedule.custom_cron schedule)) ;;
        match value with
        | Some d => ret (Some (env_isoformat env d))
        | None => raise "'NoneType' object has no attribute 'isoformat'"
        end
    | None => ret None
    end ;;
  lift (schedule_assign schedule_id (SecuritySchedule.set_next_run next_run)) ;;
  lift _save_schedules.

(** The [except Exception as e] block of [run_schedule]. *)
Definition run_except (e : string) : M RunState unit :=
  let error_msg := "Schedule execution failed: " +:+ e in
  modify_frame (RunResults.set_success false) ;;
  modify_frame (RunResults.errors_extend [error_msg]).

Definition run_schedule (schedule_id : string) : M SelfWorld RunResults.t :=
  self <- get_frame ;;
  match dict_get (schedules self) schedule_id with
  | None => raise ("Schedule " +:+ schedule_id +:+ " not found")
  | Some schedule =>
      now <- lift (datetime_now env) ;;
      with_frame
        {| RunResults.schedule_id := schedule_id;
           RunResults.timestamp := env_isoformat env now;
           RunResults.scan_result := None;
           RunResults.patch_result := None;
           RunResults.success := true;
           RunResults.errors := [] |}
        (try_except
           (scan_patch_block schedule ;; update_schedule schedule_id schedule)
           run_except ;;
         get_frame)
  end.

End Scheduler.

(** ** Vocabulary of the statements *)

Definition microseconds_per_day : Z := 86400000000.

(** The command [cmd], run when the log is [l], reports success. *)
Definition run_ok (env : Env) (l : list Event) (cmd : list string) : Prop :=
  (command_result (env_subprocess env l cmd)).1.1 = true.

(** The command [cmd], run when the log is [l], reports failure. *)
Definition run_fails (env : Env) (l : list Event) (cmd : list string) : Prop :=
  (command_result (env_subprocess env l cmd)).1.1 = false.

(** What the command [cmd], run when the log is [l], leaves on stderr. *)
Definition run_stderr (env : Env) (l : list Event) (cmd : list string) : string :=
  (command_result (env_subprocess env l cmd)).2.

Definition install_event (item : string * string) : Event :=
  EvRun (install_cmd item.1 item.2).

(** The log entries of installing [items] one after the other (newest
    first, as in the log). *)
Definition install_events (items : list (string * string)) : list Event :=
  rev (map install_event items).

(** Every install of [items], attempted in order from the log [l0], reports
    success at the moment it is attempted. *)
Definition installs_all_ok (env : Env) (l0 : list Event) (items : list (string * string))
  : Prop :=
  forall pre item post,
    items = pre ++ item :: post ->
    run_ok env (install_events pre ++ l0) (install_cmd item.1 item.2).

(** The commands a real execution announces to the installation history. *)
Definition announced_commands (packages_list : list string) : list string :=
  ["apt-get update"; "apt-get install -y " +:+ PyStr.join " " packages_list].

(** The log entry of the history record a real execution of [plan] opens
    at [start]. *)
Definition record_event (plan : PatchPlan) (start : datetime) : Event :=
  EvRecordInstallation UPGRADE (dict_keys (packages_to_update plan))
    (announced_commands (dict_keys (packages_to_update plan))) start.

(** The history store accepts the record a real execution of [plan] opens
    from the world [w], and names it [install_id]. *)
Definition history_opens (env : Env) (plan : PatchPlan) (w : World) (install_id : string)
  : Prop :=
  env_record_installation env (EvNow :: EvTime :: log w) UPGRADE
    (dict_keys (packages_to_update plan))
    (announced_commands (dict_keys (packages_to_update plan)))
    (env_now env (EvTime :: log w)) = Ok install_id.

(** The log when the real execution of [plan], started in [w], is about
    to refresh the index. *)
Definition log_at_refresh (env : Env) (plan : PatchPlan) (w : World) : list Event :=
  record_event plan (env_now env (EvTime :: log w)) :: EvNow :: EvTime :: log w.

(** The log when the real execution is about to run its first install. *)
Definition log_at_installs (env : Env) (plan : PatchPlan) (w : World) : list Event :=
  EvRun apt_get_update :: log_at_refresh env plan w.

Definition is_refresh (ev : Event) : bool :=
  match ev with
  | EvRun cmd => bool_decide (cmd = apt_get_update)
  | _ => false
  end.

(** How often the index refresh was invoked in a log. *)
Definition refresh_count (l : list Event) : nat := length (List.filter is_refresh l).



(** The offsets of the next-run rule, in days: Daily 1, Weekly 7, Monthly
    30, Custom none. *)
Definition frequency_days (f : ScheduleFrequency) : option Z :=
  match f with
  | DAILY => Some 1 | WEEKLY => Some 7 | MONTHLY => Some 30 | CUSTOM => None
  end.

(** The results dictionary at the start of the [try] block of a run
    started in the world [w]. *)
Definition initial_results (env : Env) (schedule_id : string) (w : World) : RunResults.t :=
  {| RunResults.schedule_id := schedule_id;
     RunResults.timestamp := env_isoformat env (env_now env (log w));
     RunResults.scan_result := None;
     RunResults.patch_result := None;
     RunResults.success := true;
     RunResults.errors := [] |}.

(** The world in which the [try] block of a run started in [w] begins. *)
Definition world_at_try (w : World) : World :=
  {| log := EvNow :: log w; _apt_last_updated := _apt_last_updated w |}.

(** The schedule [s] after an update step entered with the log [l1]: its
    [last_run] is the first clock reading of the step, its [next_run] the
    third one plus the offset of its frequency. *)
Definition advanced (env : Env) (s : SecuritySchedule.t) (l1 : list Event)
  : SecuritySchedule.t :=
  SecuritySchedule.set_next_run
    (match frequency_days (SecuritySchedule.frequency s) with
     | Some d =>
         Some (env_isoformat env
                 (env_now env (EvNow :: EvNow :: l1) + d * microseconds_per_day))
     | None => None
     end)
    (SecuritySchedule.set_last_run (Some (env_isoformat env (env_now env l1))) s).

(** The log when the update step entered with the log [l1] calls
    [_save_schedules]. *)
Definition log_at_save (s : SecuritySchedule.t) (l1 : list Event) : list Event :=
  match frequency_days (SecuritySchedule.frequency s) with
  | Some _ => EvNow :: EvNow :: EvNow :: l1
  | None => EvNow :: EvNow :: l1
  end.

(** The run summary marked failed with one more error. *)
Definition failed_with (e : string) (r : RunResults.t) : RunResults.t :=
  RunResults.errors_extend ["Schedule execution failed: " +:+ e]
    (RunResults.set_success false r).

(** The documents that reached the schedule file in the log [l], newest
    first: the writes that the environment answered without raising. *)
Fixpoint saved_documents (env : Env) (l : list Event) : list (list ScheduleJson.t) :=
  match l with
  | [] => []
  | EvWriteSchedules doc :: l' =>
      match env_write_schedules env l' doc with
      | Ok _ => doc :: saved_documents env l'
      | Raise _ => saved_documents env l'
      end
  | _ :: l' => saved_documents env l'
  end.

(** The rank test of the policy engine: severity [s] is not below the
    floor. *)
Definition passes_floor (floor s : Severity) : bool :=
  negb (severity_order s <? severity_order floor).

(** The cutoff of scheduled runs on a bare severity. *)
Definition passes_cutoff (s : Severity) : bool :=
  critical_or_high {| package_name := ""; severity := s |}.

(** ** Sample inputs *)

(** An environment in which the package [b] cannot be installed at version
    [2], every other command exits with 0, and [apt-cache policy] offers
    version [2] of any package.  The clock advances by one second per
    logged event. *)
Definition sample_env (refresh_ok : bool) (scan : Result ScanResult.t)
    (config : ConfigFile) : Env :=
  {| env_time := fun _ => 1700000000;
     env_now := fun l => 1000000 * Z.of_nat (length l);
     env_isoformat := PyStr.of_int;
     env_subprocess := fun _ cmd =>
       match cmd with
       | [_; "install"; _; "b=2"] => Exited 100 "" "E: broken"
       | [_; "policy"; _] => Exited 0 "  Candidate: 2" ""
       | [_; "update"; _] => if refresh_ok then Exited 0 "" "" else Exited 100 "" "E: offline"
       | _ => Exited 0 "" ""
       end;
     env_scan := fun _ => scan;
     env_new_patcher := fun _ => Ok config;
     env_record_installation := fun _ _ _ _ _ => Ok "inst-1";
     env_update_installation := fun _ _ _ _ => Ok tt;
     env_mkdir := fun _ => Ok tt;
     env_write_schedules := fun _ _ => Ok tt |}.

Definition sample_patcher (dr : bool) : AutonomousPatcher :=
  {| strategy := AUTOMATIC; dry_run := dr; auto_approve := false;
     whitelist := ∅; blacklist := ∅; min_severity := MEDIUM |}.

Definition sample_plan (items : dict string) : PatchPlan :=
  {| vulnerabilities := [{| package_name := "a"; severity := HIGH |}];
     packages_to_update := items;
     estimated_duration_minutes := 2;
     requires_reboot := false;
     rollback_available := true |}.

Definition sample_world : World := {| log := []; _apt_last_updated := None |}.

Definition sample_scan (l : list Vulnerability) : ScanResult.t :=
  {| ScanResult.vulnerabilities_found := Z.of_nat (length l);
     ScanResult.critical_count := 0;
     ScanResult.high_count := 0;
     ScanResult.medium_count := 0;
     ScanResult.low_count := 0;
     ScanResult.vulnerabilities := l |}.

Definition sample_schedule (dr : bool) : SecuritySchedule.t :=
  {| SecuritySchedule.schedule_id := "nightly";
     SecuritySchedule.frequency := DAILY;
     SecuritySchedule.scan_enabled := true;
     SecuritySchedule.patch_enabled := true;
     SecuritySchedule.patch_strategy := AUTOMATIC;
     SecuritySchedule.dry_run := dr;
     SecuritySchedule.last_run := None;
     SecuritySchedule.next_run := None;
     SecuritySchedule.custom_cron := None |}.

Definition sample_scheduler (dr : bool) : SecurityScheduler :=
  {| schedules := [("nightly", sample_schedule dr)] |}.

(** [sample_env] with a scanner that finds nothing, on a file system on
    which [mkdir] answers [mkdir_answer] and the write of the schedule
    file answers [write_answer]. *)
Definition sample_env_storage (mkdir_answer write_answer : Result unit) : Env :=
  let base := sample_env true (Ok (sample_scan [])) ConfigMissing in
  {| env_time := env_time base;
     env_now := env_now base;
     env_isoformat := env_isoformat base;
     env_subprocess := env_subprocess base;
     env_scan := env_scan base;
     env_new_patcher := env_new_patcher base;
     env_record_installation := env_record_installation base;
     env_update_installation := env_update_installation base;
     env_mkdir := fun _ => mkdir_answer;
     env_write_schedules := fun _ _ => write_answer |}.

(** * Further operations of the two modules *)

(** [del d[k]] for a key that is present; an absent key leaves the
    dictionary as it is (the callers test membership first). *)
Fixpoint dict_del {V : Type} (d : dict V) (k : string) : dict V :=
  match d with
  | [] => []
  | (k', v) :: d' => if String.eqb k' k then d' else (k', v) :: dict_del d' k
  end.

(** ** Saving the patcher configuration *)

(** What the file system does during one call of [_save_config]: the
    [mkdir] of the directory, the [open] and [json.dump] of the file, and
    what a failed write leaves in the file. *)
Record ConfigIO := {
  cfg_mkdir : Result unit;
  cfg_write : Result unit;
  cfg_after_failed_write : ConfigFile;
}.

(** A patcher object next to the configuration file. *)
Definition PatcherDisk : Type := AutonomousPatcher * ConfigFile.

(** The dictionary [_save_config] dumps, as [_load_config] will read it
    back ([list] of a set enumerates its elements). *)
Definition config_document (self : AutonomousPatcher) : ConfigFile :=
  ConfigJson (Some (elements (whitelist self)))
             (Some (elements (blacklist self)))
             (Some (Severity_value (min_severity self))).

(** [mkdir] is outside the [try]; a failed write is logged and dropped. *)
Definition _save_config (io : ConfigIO) : M PatcherDisk unit :=
  lift (fun disk => (cfg_mkdir io, disk)) ;;
  try_except
    (self <- get_frame ;;
     lift (fun disk : ConfigFile =>
             match cfg_write io with
             | Ok _ => (Ok tt, config_document self)
             | Raise e => (Raise e, cfg_after_failed_write io)
             end))
    (fun e => ret tt).

Definition set_whitelist (v : gset string) (self : AutonomousPatcher) : AutonomousPatcher :=
  {| strategy := strategy self; dry_run := dry_run self; auto_approve := auto_approve self;
     whitelist := v; blacklist := blacklist self; min_severity := min_severity self |}.

Definition set_blacklist (v : gset string) (self : AutonomousPatcher) : AutonomousPatcher :=
  {| strategy := strategy self; dry_run := dry_run self; auto_approve := auto_approve self;
     whitelist := whitelist self; blacklist := v; min_severity := min_severity self |}.

Definition set_floor (v : Severity) (self : AutonomousPatcher) : AutonomousPatcher :=
  {| strategy := strategy self; dry_run := dry_run self; auto_approve := auto_approve self;
     whitelist := whitelist self; blacklist := blacklist self; min_severity := v |}.

Definition add_to_whitelist (io : ConfigIO) (package_name : string) : M PatcherDisk unit :=
  modify_frame (fun self => set_whitelist (whitelist self ∪ {[package_name]}) self) ;;
  _save_config io.

Definition add_to_blacklist (io : ConfigIO) (package_name : string) : M PatcherDisk unit :=
  modify_frame (fun self => set_blacklist (blacklist self ∪ {[package_name]}) self) ;;
  _save_config io.

Definition set_min_severity (io : ConfigIO) (severity : Severity) : M PatcherDisk unit :=
  modify_frame (set_floor severity) ;;
  _save_config io.

(** ** Creating, listing, deleting and loading schedules *)

Section SchedulerStore.
Variable env : Env.

Definition create_schedule (schedule_id : string) (frequency : ScheduleFrequency)
    (scan_enabled patch_enabled : bool) (patch_strategy : PatchStrategy) (dry_run : bool)
    (custom_cron : option string) : M SelfWorld SecuritySchedule.t :=
  next_run <- lift (_calculate_next_run env frequency custom_cron) ;;
  let schedule :=
    {| SecuritySchedule.schedule_id := schedule_id;
       SecuritySchedule.frequency := frequency;
       SecuritySchedule.scan_enabled := scan_enabled;
       SecuritySchedule.patch_enabled := patch_enabled;
       SecuritySchedule.patch_strategy := patch_strategy;
       SecuritySchedule.dry_run := dry_run;
       SecuritySchedule.last_run := None;
       SecuritySchedule.next_run :=
         match next_run with Some d => Some (env_isoformat env d) | None => None end;
       SecuritySchedule.custom_cron := custom_cron |} in
  modify_frame (fun self => {| schedules := dict_set (schedules self) schedule_id schedule |}) ;;
  _save_schedules env ;;
  ret schedule.

Definition list_schedules : M SelfWorld (list SecuritySchedule.t) :=
  self <- get_frame ;;
  ret (dict_values (schedules self)).

Definition get_schedule (schedule_id : string) : M SelfWorld (option SecuritySchedule.t) :=
  self <- get_frame ;;
  ret (dict_get (schedules self) schedule_id).

Definition delete_schedule (schedule_id : string) : M SelfWorld bool :=
  self <- get_frame ;;
  if dict_contains (schedules self) schedule_id then
    modify_frame (fun self => {| schedules := dict_del (schedules self) schedule_id |}) ;;
    _save_schedules env ;;
    ret true
  else ret false.

End SchedulerStore.

(** [ScheduleFrequency(value)] and [PatchStrategy(value)]: lookup by value,
    [None] standing for [ValueError]. *)
Definition ScheduleFrequency_of_value (s : string) : option ScheduleFrequency :=
  find (fun x => String.eqb (ScheduleFrequency_value x) s) [DAILY; WEEKLY; MONTHLY; CUSTOM].

Definition PatchStrategy_of_value (s : string) : option PatchStrategy :=
  find (fun x => String.eqb (PatchStrategy_value x) s)
       [AUTOMATIC; CRITICAL_ONLY; HIGH_AND_ABOVE; MANUAL].

(** One record of the schedule document as [_load_schedules] meets it:
    any key may be missing. *)
Module ScheduleData.
Record t := {
  schedule_id : option string;
  frequency : option string;
  scan_enabled : option bool;
  patch_enabled : option bool;
  patch_strategy : option string;
  dry_run : option bool;
  last_run : option string;
  next_run : option string;
  custom_cron : option string;
}.

(** What [json.load] returns for a record [json.dump] wrote. *)
Definition of_json (j : ScheduleJson.t) : t :=
  {| schedule_id := Some (ScheduleJson.schedule_id j);
     frequency := Some (ScheduleJson.frequency j);
     scan_enabled := Some (ScheduleJson.scan_enabled j);
     patch_enabled := Some (ScheduleJson.patch_enabled j);
     patch_strategy := Some (ScheduleJson.patch_strategy j);
     dry_run := Some (ScheduleJson.dry_run j);
     last_run := ScheduleJson.last_run j;
     next_run := ScheduleJson.next_run j;
     custom_cron := ScheduleJson.custom_cron j |}.
End ScheduleData.

(** The state of [~/.cortex/security_schedule.json] as [_load_schedules]
    meets it. *)
Inductive ScheduleFile :=
| SchedulesMissing
| SchedulesUnreadable (e : string)
| SchedulesJson (schedules : option (list ScheduleData.t)).

(** The construction of one [SecuritySchedule] in the loading loop; [None]
    stands for the [KeyError] of a missing [schedule_id] or [frequency]
    and the [ValueError] of an unknown enumeration value. *)
Definition parse_schedule (schedule_data : ScheduleData.t) : option SecuritySchedule.t :=
  match ScheduleData.schedule_id schedule_data with
  | None => None
  | Some schedule_id =>
      match ScheduleData.frequency schedule_data with
      | None => None
      | Some frequency_value =>
          match ScheduleFrequency_of_value frequency_value with
          | None => None
          | Some frequency =>
              match PatchStrategy_of_value
                      (get_default (ScheduleData.patch_strategy schedule_data)
                                   "critical_only") with
              | None => None
              | Some patch_strategy =>
                  Some {| SecuritySchedule.schedule_id := schedule_id;
                          SecuritySchedule.frequency := frequency;
                          SecuritySchedule.scan_enabled :=
                            get_default (ScheduleData.scan_enabled schedule_data) true;
                          SecuritySchedule.patch_enabled :=
                            get_default (ScheduleData.patch_enabled schedule_data) false;
                          SecuritySchedule.patch_strategy := patch_strategy;
                          SecuritySchedule.dry_run :=
                            get_default (ScheduleData.dry_run schedule_data) true;
                          SecuritySchedule.last_run := ScheduleData.last_run schedule_data;
                          SecuritySchedule.next_run := ScheduleData.next_run schedule_data;
                          SecuritySchedule.custom_cron :=
                            ScheduleData.custom_cron schedule_data |}
              end
          end
      end
  end.

(** The loading loop: the first record that raises ends it, and what was
    stored before stays. *)
Fixpoint load_loop (records : list ScheduleData.t) (schedules : dict SecuritySchedule.t)
  : dict SecuritySchedule.t :=
  match records with
  | [] => schedules
  | schedule_data :: rest =>
      match parse_schedule schedule_data with
      | Some schedule =>
          load_loop rest
            (dict_set schedules (SecuritySchedule.schedule_id schedule) schedule)
      | None => schedules
      end
  end.

Definition _load_schedules (self : SecurityScheduler) (file : ScheduleFile)
  : SecurityScheduler :=
  match file with
  | SchedulesMissing => self
  | SchedulesUnreadable _ => self
  | SchedulesJson records =>
      {| schedules := load_loop (get_default records []) (schedules self) |}
  end.

(** [SecurityScheduler()] *)
Definition SecurityScheduler_init (file : ScheduleFile) : SecurityScheduler :=
  _load_schedules {| schedules := [] |} file.

(** The file as a later [_load_schedules] meets it after [_save_schedules]
    wrote [doc]. *)
Definition written_schedules (doc : list ScheduleJson.t) : ScheduleFile :=
  SchedulesJson (Some (map ScheduleData.of_json doc)).

(** ** Installing a systemd timer *)

(** The effects of [install_systemd_timer]. *)
Inductive TimerEvent :=
| TvGetEuid                                 (* os.geteuid() *)
| TvRun (cmd : list string)                 (* subprocess.run(cmd, ...) *)
| TvWrite (path content : string).          (* open(path, "w") and f.write(content) *)

(** The host answers each effect from the log of the effects before it. *)
Record TimerEnv := {
  tenv_geteuid : list TimerEvent -> Z;
  tenv_subprocess : list TimerEvent -> list string -> ProcOutcome;
  tenv_write : list TimerEvent -> string -> string -> Result unit;
}.

(** Each line followed by a newline. *)
Definition unlines (lines : list string) : string :=
  fold_right (fun line rest => line +:+ newline_str +:+ rest) EmptyString lines.

Definition _frequency_to_systemd (frequency : ScheduleFrequency) : string :=
  match frequency with
  | DAILY => "daily"
  | WEEKLY => "weekly"
  | MONTHLY => "monthly"
  | CUSTOM => "monthly"
  end.

Definition service_content (schedule_id : string) : string :=
  unlines ["[Unit]";
           "Description=Cortex Security Scan/Patch - " +:+ schedule_id;
           "After=network.target";
           "";
           "[Service]";
           "Type=oneshot";
           "ExecStart=/usr/bin/cortex security run " +:+ schedule_id;
           "User=root"].

Definition timer_content (schedule_id : string) (frequency : ScheduleFrequency) : string :=
  unlines ["[Unit]";
           "Description=Cortex Security Timer - " +:+ schedule_id;
           "Requires=cortex-security-" +:+ schedule_id +:+ ".service";
           "";
           "[Timer]";
           "OnCalendar=" +:+ _frequency_to_systemd frequency;
           "Persistent=true";
           "";
           "[Install]";
           "WantedBy=timers.target"].

Definition service_path (schedule_id : string) : string :=
  "/etc/systemd/system/cortex-security-" +:+ schedule_id +:+ ".service".

Definition timer_path (schedule_id : string) : string :=
  "/etc/systemd/system/cortex-security-" +:+ schedule_id +:+ ".timer".

Section Timer.
Variable tenv : TimerEnv.

Definition timer_perform {A} (ev : TimerEvent) (answer : list TimerEvent -> Result A)
  : M (list TimerEvent) A :=
  fun l => (answer l, ev :: l).

(** [subprocess.run(["sudo", "-n", "true"], capture_output=True, timeout=2)]
    inside [try]/[except Exception]. *)
Definition sudo_check : M (list TimerEvent) bool :=
  timer_perform (TvRun ["sudo"; "-n"; "true"])
    (fun l => Ok match tenv_subprocess tenv l ["sudo"; "-n"; "true"] with
                 | Exited returncode _ _ => returncode =? 0
                 | TimeoutExpired => false
                 | SpawnError _ => false
                 end).

Definition _has_root_privileges : M (list TimerEvent) bool :=
  euid <- timer_perform TvGetEuid (fun l => Ok (tenv_geteuid tenv l)) ;;
  if euid =? 0 then ret true else sudo_check.

(** [subprocess.run(cmd, check=True)]: any outcome but exit status 0
    raises. *)
Definition run_checked (cmd : list string) : M (list TimerEvent) unit :=
  timer_perform (TvRun cmd)
    (fun l => match tenv_subprocess tenv l cmd with
              | Exited returncode _ _ =>
                  if returncode =? 0 then Ok tt
                  else Raise ("Command returned non-zero exit status "
                              +:+ PyStr.of_int returncode)
              | TimeoutExpired => Raise "Command timed out"
              | SpawnError e => Raise e
              end).

Definition write_file (path content : string) : M (list TimerEvent) unit :=
  timer_perform (TvWrite path content) (fun l => tenv_write tenv l path content).

(** Both handlers of [install_systemd_timer] log and return [False]. *)
Definition install_systemd_timer (self : SecurityScheduler) (schedule_id : string)
  : M (list TimerEvent) bool :=
  match dict_get (schedules self) schedule_id with
  | None => ret false
  | Some schedule =>
      try_except
        (privileged <- _has_root_privileges ;;
         if negb privileged then ret false
         else
           write_file (service_path schedule_id) (service_content schedule_id) ;;
           write_file (timer_path schedule_id)
                      (timer_content schedule_id (SecuritySchedule.frequency schedule)) ;;
           run_checked ["systemctl"; "daemon-reload"] ;;
           run_checked ["systemctl"; "enable";
                        "cortex-security-" +:+ schedule_id +:+ ".timer"] ;;
           run_checked ["systemctl"; "start";
                        "cortex-security-" +:+ schedule_id +:+ ".timer"] ;;
           ret true)
        (fun e => ret false)
  end.

End Timer.

(** ** The version conflict resolver: [cortex/resolver.py] *)

Module Resolver.

(** The two exceptions that matter to [resolve]. *)
Inductive Exn := KeyError (arg : string) | ValueError (msg : string).

Inductive Outcome (A : Type) := Returns (a : A) | Raises (e : Exn).
Arguments Returns {A} a.
Arguments Raises {A} e.

Record Strategy := {
  id : Z;
  type : string;
  action : string;
  risk : string;
}.

(** [conflict_data] with its three keys typed as the docstring says; each
    may be missing, and a package may lack [name] or [requires]. *)
Record Conflict := {
  package_a : option (dict string);
  package_b : option (dict string);
  dependency : option string;
}.

(** [s.lstrip(chars)] *)
Fixpoint lstrip_chars (chars : list ascii) (s : string) : string :=
  match s with
  | EmptyString => EmptyString
  | String c s' => if bool_decide (c ∈ chars) then lstrip_chars chars s' else s
  end.

Definition operator_chars : list ascii := list_ascii_of_string "^~>=<".

(** [d[k]] on a package dictionary *)
Definition getitem (d : dict string) (k : string) : Outcome string :=
  match dict_get d k with
  | Some v => Returns v
  | None => Raises (KeyError k)
  end.

Section Resolve.
(** The library [semantic_version]: its versions, [Version.coerce] (which
    raises [ValueError]), the [major] attribute and [str]. *)
Variable Version : Type.
Variable coerce : string -> Outcome Version.
Variable major : Version -> Z.
Variable Version_str : Version -> string.

Definition error_strategy (e : string) : Strategy :=
  {| id := 0;
     type := "Error";
     action := "Manual resolution required. Invalid SemVer: " +:+ e;
     risk := "High" |}.

(** The part of [resolve] after the validation of the three keys. *)
Definition resolve_packages (pkg_a pkg_b : dict string) (dep : string)
  : Outcome (list Strategy) :=
  match getitem pkg_a "requires" with
  | Raises e => Raises e
  | Returns requires_a =>
  let raw_a := lstrip_chars operator_chars requires_a in
  match getitem pkg_b "requires" with
  | Raises e => Raises e
  | Returns requires_b =>
  let raw_b := lstrip_chars operator_chars requires_b in
  match coerce raw_a with
  | Raises (ValueError e) => Returns [error_strategy e]
  | Raises e => Raises e
  | Returns ver_a =>
  match coerce raw_b with
  | Raises (ValueError e) => Returns [error_strategy e]
  | Raises e => Raises e
  | Returns ver_b =>
  let target_ver := Version_str ver_a in
  let risk_level :=
    if major ver_b <? major ver_a then "Medium (breaking changes detected)"
    else "Low (no breaking changes detected)" in
  match getitem pkg_b "name" with
  | Raises e => Raises e
  | Returns name_b =>
  match getitem pkg_a "name" with
  | Raises e => Raises e
  | Returns name_a =>
      Returns
        [{| id := 1;
            type := "Recommended";
            action := "Update " +:+ name_b +:+ " to " +:+ target_ver
                      +:+ " (compatible with " +:+ dep +:+ ")";
            risk := risk_level |};
         {| id := 2;
            type := "Alternative";
            action := "Keep " +:+ name_b +:+ ", downgrade " +:+ name_a
                      +:+ " to compatible version";
            risk := "Medium (potential feature loss in " +:+ name_a +:+ ")" |}]
  end end end end end end.

Definition resolve (conflict_data : Conflict) : Outcome (list Strategy) :=
  match package_a conflict_data with
  | None => Raises (KeyError "Missing required key: package_a")
  | Some pkg_a =>
  match package_b conflict_data with
  | None => Raises (KeyError "Missing required key: package_b")
  | Some pkg_b =>
  match dependency conflict_data with
  | None => Raises (KeyError "Missing required key: dependency")
  | Some dep => resolve_packages pkg_a pkg_b dep
  end end end.

End Resolve.
End Resolver.

(** ** Vocabulary of the further statements *)

(** The first and the last character of a string, when it has one. *)
Definition first_char (s : string) : option ascii :=
  match s with EmptyString => None | String c _ => Some c end.

Definition last_char (s : string) : option ascii := first_char (PyStr.rev s).

(** The character [c] occurs in [s]. *)
Definition occurs (c : ascii) (s : string) : Prop := In c (list_ascii_of_string s).

(** The command of the candidate-version lookup. *)
Definition policy_cmd (package_name : string) : list string :=
  ["apt-cache"; "policy"; package_name].

(** The test that makes a plan require a reboot. *)
Definition kernel_package (package_name : string) : bool :=
  PyStr.contains "linux-image" package_name || PyStr.contains "linux-headers" package_name.

(** The distinct elements of a list, in the order of their first
    occurrence. *)
Definition distinct_in_order (l : list string) : list string :=
  fold_left (fun seen x => if bool_decide (x ∈ seen) then seen else seen ++ [x]) l [].

(** The installation history never raises. *)
Definition history_answers (env : Env) : Prop :=
  (forall l ty packages commands start,
     exists install_id,
       env_record_installation env l ty packages commands start = Ok install_id) /\
  (forall l install_id st msg, env_update_installation env l install_id st msg = Ok tt).

(** The events that stay inside the process or only read the package
    index: clock reads, the timestamp write, the index refresh and
    candidate lookups. *)
Definition planning_event (ev : Event) : Prop :=
  match ev with
  | EvTime | EvNow | EvSetAptLastUpdated _ => True
  | EvRun cmd => cmd = apt_get_update \/ exists p, cmd = policy_cmd p
  | _ => False
  end.

(** What the candidate lookup for [p] returns when the log is [l]. *)
Definition lookup_result (env : Env) (l : list Event) (p : string) : option string :=
  match env_subprocess env l (policy_cmd p) with
  | Exited returncode stdout _ =>
      if returncode =? 0 then find_candidate (PyStr.split PyStr.newline stdout) else None
  | TimeoutExpired => None
  | SpawnError _ => None
  end.

(** The log entries of looking up the candidates of [packages] one after
    the other (newest first, as in the log). *)
Definition lookup_events (packages : list string) : list Event :=
  rev (map (fun p => EvRun (policy_cmd p)) packages).

(** A version string as the planner accepts it. *)
Definition usable_version (v : string) : Prop :=
  PyStr.truthy v = true /\ v <> "(none)" /\ ~ occurs PyStr.colon v.

(** The reboot flag [flag] agrees with the packages [packages]. *)
Definition reboot_agrees (flag : bool) (packages : list string) : Prop :=
  flag = true <-> exists k, In k packages /\ kernel_package k = true.

(** The events of keeping the schedule file: clock reads, [mkdir] and the
    write of the document. *)
Definition bookkeeping_event (ev : Event) : Prop :=
  match ev with
  | EvNow | EvMkdir | EvWriteSchedules _ => True
  | _ => False
  end.

(** Every schedule is stored under its own [schedule_id], and no id is
    stored twice. *)
Definition well_keyed (schedules : dict SecuritySchedule.t) : Prop :=
  List.NoDup (dict_keys schedules) /\
  List.Forall (fun item => item.1 = SecuritySchedule.schedule_id item.2) schedules.

(** ** Further sample inputs *)

(** A weekly schedule with scanning disabled and patching enabled. *)
Definition sample_schedule_no_scan : SecuritySchedule.t :=
  {| SecuritySchedule.schedule_id := "weekly";
     SecuritySchedule.frequency := WEEKLY;
     SecuritySchedule.scan_enabled := false;
     SecuritySchedule.patch_enabled := true;
     SecuritySchedule.patch_strategy := AUTOMATIC;
     SecuritySchedule.dry_run := false;
     SecuritySchedule.last_run := None;
     SecuritySchedule.next_run := None;
     SecuritySchedule.custom_cron := None |}.

Definition sample_vulnerabilities : list Vulnerability :=
  [{| package_name := "a"; severity := HIGH |};
   {| package_name := "linux-image-generic"; severity := CRITICAL |};
   {| package_name := "a"; severity := CRITICAL |};
   {| package_name := "z"; severity := LOW |}].

(** An environment in which [apt-cache policy] never offers a candidate. *)
Definition sample_env_without_candidates : Env :=
  {| env_time := fun _ => 1700000000;
     env_now := fun l => 1000000 * Z.of_nat (length l);
     env_isoformat := PyStr.of_int;
     env_subprocess := fun _ _ => Exited 0 "  Candidate: (none)" "";
     env_scan := fun _ => Raise "scanner down";
     env_new_patcher := fun _ => Ok ConfigMissing;
     env_record_installation := fun _ _ _ _ _ => Ok "inst-1";
     env_update_installation := fun _ _ _ _ => Ok tt;
     env_mkdir := fun _ => Ok tt;
     env_write_schedules := fun _ _ => Ok tt |}.

(** The five steps of a timer installation after the privilege check, in
    the order in which they are attempted. *)
Definition timer_steps (schedule_id : string) (frequency : ScheduleFrequency)
  : list TimerEvent :=
  [TvWrite (service_path schedule_id) (service_content schedule_id);
   TvWrite (timer_path schedule_id) (timer_content schedule_id frequency);
   TvRun ["systemctl"; "daemon-reload"];
   TvRun ["systemctl"; "enable"; "cortex-security-" +:+ schedule_id +:+ ".timer"];
   TvRun ["systemctl"; "start"; "cortex-security-" +:+ schedule_id +:+ ".timer"]].

(** The step [ev], attempted when the log is [l], succeeds: the write does
    not raise, the command exits with status 0. *)
Definition step_ok (tenv : TimerEnv) (l : list TimerEvent) (ev : TimerEvent) : bool :=
  match ev with
  | TvGetEuid => true
  | TvRun cmd =>
      match tenv_subprocess tenv l cmd with
      | Exited returncode _ _ => returncode =? 0
      | TimeoutExpired => false
      | SpawnError _ => false
      end
  | TvWrite path content =>
      match tenv_write tenv l path content with
      | Ok _ => true
      | Raise _ => false
      end
  end.

(** Attempting [steps] one after the other from the log [l] until one
    fails: whether all succeeded, and the log afterwards. *)
Fixpoint attempt (tenv : TimerEnv) (steps : list TimerEvent) (l : list TimerEvent)
  : bool * list TimerEvent :=
  match steps with
  | [] => (true, l)
  | ev :: rest =>
      if step_ok tenv l ev then attempt tenv rest (ev :: l) else (false, ev :: l)
  end.

(** A host on which nobody is root and [sudo] asks for a password, or on
    which root may do everything. *)
Definition sample_timer_env (root : bool) : TimerEnv :=
  {| tenv_geteuid := fun _ => if root then 0 else 1000;
     tenv_subprocess := fun _ cmd =>
       match cmd with
       | "sudo" :: _ => Exited 1 "" "sudo: a password is required"
       | _ => Exited 0 "" ""
       end;
     tenv_write := fun _ _ _ => Ok tt |}.

(** Every character of [s] is one of [chars]. *)
Definition made_of (chars : list ascii) (s : string) : Prop :=
  List.Forall (fun c => c ∈ chars) (list_ascii_of_string s).

(** [pkg] with its version requirement replaced. *)
Definition with_requires (pkg : dict string) (requires : string) : dict string :=
  dict_set pkg "requires" requires.

(** A stand-in for [semantic_version]: a version is its major number, and
    [coerce] accepts one decimal digit. *)
Definition sample_coerce (s : string) : Resolver.Outcome Z :=
  match s with
  | String c EmptyString =>
      if bool_decide (c ∈ list_ascii_of_string "0123456789")
      then Resolver.Returns (Z.of_nat (nat_of_ascii c) - 48)
      else Resolver.Raises (Resolver.ValueError s)
  | _ => Resolver.Raises (Resolver.ValueError s)
  end.

Definition sample_conflict (requires_a requires_b : string) : Resolver.Conflict :=
  {| Resolver.package_a := Some [("name", "pkg-a"); ("requires", requires_a)];
     Resolver.package_b := Some [("name", "pkg-b"); ("requires", requires_b)];
     Resolver.dependency := Some "lib-x" |}.

(** * Properties *)

(** ** PolicyEngine *)

(** C2: a vulnerability whose package is blacklisted is never patched,
    whatever the strategy, the severity floor and the whitelist (which may
    contain the same package): the blacklist test decides first. *)
Theorem should_patch_blacklist_first
    (st : PatchStrategy) (dr aa : bool) (wl bl : gset string) (floor : Severity)
    (v : Vulnerability) :
  package_name v ∈ bl ->
  _should_patch {| strategy := st; dry_run := dr; auto_approve := aa;
                   whitelist := wl; blacklist := bl; min_severity := floor |} v = false.
Proof.
  intros Hbl. unfold _should_patch. cbn [blacklist].
  rewrite bool_decide_eq_true_2; [reflexivity | exact Hbl].
Qed.

Lemma should_patch_blacklist_first_witness :
  _should_patch {| strategy := AUTOMATIC; dry_run := false; auto_approve := true;
                   whitelist := {["openssl"]}; blacklist := {["openssl"]};
                   min_severity := UNKNOWN |}
                {| package_name := "openssl"; severity := CRITICAL |} = false.
Proof.
  apply (should_patch_blacklist_first AUTOMATIC false true {["openssl"]} {["openssl"]}
           UNKNOWN {| package_name := "openssl"; severity := CRITICAL |}).
  refine (bool_decide_unpack _ _). vm_compute. exact I.
Defined.

(** ** ScheduleManager: next-run computation *)

(** C7: with [now] the clock reading the call makes, Daily gives now plus
    one day, Weekly now plus seven days, Monthly now plus thirty days, and
    Custom gives no value. *)
Theorem calculate_next_run_offsets (env : Env) (cron : option string) (w : World) :
  let now := env_now env (log w) in
  (_calculate_next_run env DAILY cron w).1 = Ok (Some (now + 1 * microseconds_per_day)) /\
  (_calculate_next_run env WEEKLY cron w).1 = Ok (Some (now + 7 * microseconds_per_day)) /\
  (_calculate_next_run env MONTHLY cron w).1 = Ok (Some (now + 30 * microseconds_per_day)) /\
  (_calculate_next_run env CUSTOM cron w).1 = Ok None.
Proof.
  cbv [_calculate_next_run datetime_now perform bind ret timedelta microseconds_per_day].
  cbn. repeat split; f_equal; f_equal; lia.
Qed.

(** ** PatchExecutor: dry run *)

(** C4: a dry run of a plan with packages to update makes no external
    call (the log only gains the two clock reads, no command is run), and
    returns a successful result naming every key of [packages_to_update],
    counting every vulnerability of the plan, with no rollback id and no
    error. *)
Theorem apply_patch_plan_dry_run (env : Env) (self : AutonomousPatcher) (plan : PatchPlan)
    (w : World) :
  dry_run self = true ->
  packages_to_update plan <> [] ->
  exists r w',
    apply_patch_plan env self plan w = (Ok r, w') /\
    log w' = EvNow :: EvTime :: log w /\
    external_calls (log w') = external_calls (log w) /\
    commands_run (log w') = commands_run (log w) /\
    _apt_last_updated w' = _apt_last_updated w /\
    success r = true /\
    errors r = [] /\
    packages_updated r = dict_keys (packages_to_update plan) /\
    vulnerabilities_patched r = length (vulnerabilities plan) /\
    rollback_id r = None.
Proof.
  intros Hdry Hne.
  unfold apply_patch_plan, bind, time_time, datetime_now, perform. cbn.
  destruct (packages_to_update plan) as [|item items] eqn:Hitems; [congruence|].
  cbn. rewrite Hdry. cbn.
  eexists _, _. split; [reflexivity|]. cbn.
  unfold external_calls, commands_run, chronological. cbn.
  rewrite !List.filter_app, !omap_app. cbn. rewrite !app_nil_r.
  repeat split; reflexivity.
Qed.

Lemma apply_patch_plan_dry_run_witness :
  exists r w',
    apply_patch_plan (sample_env true (Raise "no scanner") ConfigMissing)
      (sample_patcher true) (sample_plan [("a", "1"); ("b", "2")]) sample_world = (Ok r, w') /\
    log w' = EvNow :: EvTime :: log sample_world /\
    external_calls (log w') = external_calls (log sample_world) /\
    commands_run (log w') = commands_run (log sample_world) /\
    _apt_last_updated w' = _apt_last_updated sample_world /\
    success r = true /\
    errors r = [] /\
    packages_updated r = dict_keys (packages_to_update (sample_plan [("a", "1"); ("b", "2")])) /\
    vulnerabilities_patched r = length (vulnerabilities (sample_plan [("a", "1"); ("b", "2")])) /\
    rollback_id r = None.
Proof.
  apply (apply_patch_plan_dry_run (sample_env true (Raise "no scanner") ConfigMissing)
           (sample_patcher true) (sample_plan [("a", "1"); ("b", "2")]) sample_world).
  - reflexivity.
  - simpl. discriminate.
Defined.

(** ** PatchPlanner *)

(** C8: when no vulnerability of the list passes the policy (in particular
    when the list is empty), [create_patch_plan] returns the empty plan
    and leaves the world as it was: nothing is logged, no external call is
    made. *)
Theorem create_patch_plan_nothing_to_patch (env : Env) (self : AutonomousPatcher)
    (vulns : list Vulnerability) (w : World) :
  List.filter (_should_patch self) vulns = [] ->
  exists plan,
    create_patch_plan env self (Some vulns) w = (Ok plan, w) /\
    vulnerabilities plan = [] /\
    packages_to_update plan = [] /\
    estimated_duration_minutes plan = 0 /\
    requires_reboot plan = false /\
    rollback_available plan = true.
Proof.
  intros Hnone. exists empty_plan.
  unfold create_patch_plan, bind, ret. rewrite Hnone.
  repeat split; reflexivity.
Qed.

Lemma create_patch_plan_nothing_to_patch_witness :
  (exists plan,
     create_patch_plan (sample_env true (Raise "no scanner") ConfigMissing)
       (sample_patcher false) (Some []) sample_world = (Ok plan, sample_world) /\
     vulnerabilities plan = [] /\ packages_to_update plan = [] /\
     estimated_duration_minutes plan = 0 /\ requires_reboot plan = false /\
     rollback_available plan = true) /\
  (exists plan,
     create_patch_plan (sample_env true (Raise "no scanner") ConfigMissing)
       (sample_patcher false)
       (Some [{| package_name := "a"; severity := LOW |}]) sample_world
     = (Ok plan, sample_world) /\
     vulnerabilities plan = [] /\ packages_to_update plan = [] /\
     estimated_duration_minutes plan = 0 /\ requires_reboot plan = false /\
     rollback_available plan = true).
Proof.
  split.
  - apply (create_patch_plan_nothing_to_patch
             (sample_env true (Raise "no scanner") ConfigMissing) (sample_patcher false) []
             sample_world).
    reflexivity.
  - apply (create_patch_plan_nothing_to_patch
             (sample_env true (Raise "no scanner") ConfigMissing) (sample_patcher false)
             [{| package_name := "a"; severity := LOW |}] sample_world).
    vm_compute. reflexivity.
Defined.

(** ** RefreshGate *)

(** What a call of the gate that does not return early does: one clock
    read, one refresh, one write of the timestamp read on entry; the
    result is the refresh's success. *)
Lemma ensure_apt_updated_refreshes (env : Env) (force : bool) (w : World) :
  cache_fresh force (_apt_last_updated w) (env_now env (log w)) = false ->
  ensure_apt_updated env force w =
    (Ok (command_result (env_subprocess env (EvNow :: log w) apt_get_update)).1.1,
     {| log := EvSetAptLastUpdated (env_now env (log w))
               :: EvRun apt_get_update :: EvNow :: log w;
        _apt_last_updated := Some (env_now env (log w)) |}).
Proof.
  intros Hgate.
  unfold ensure_apt_updated, bind, datetime_now, get_apt_last_updated, _run_command, perform.
  cbn. rewrite Hgate. cbn.
  destruct (command_result _) as [[[] out] err]; reflexivity.
Qed.

(** A call of the gate that finds the cache fresh only reads the clock. *)
Lemma ensure_apt_updated_skips (env : Env) (force : bool) (w : World) :
  cache_fresh force (_apt_last_updated w) (env_now env (log w)) = true ->
  ensure_apt_updated env force w =
    (Ok true, {| log := EvNow :: log w; _apt_last_updated := _apt_last_updated w |}).
Proof.
  intros Hgate.
  unfold ensure_apt_updated, bind, datetime_now, get_apt_last_updated, perform.
  cbn. rewrite Hgate. reflexivity.
Qed.

Lemma refresh_count_app (l1 l2 : list Event) :
  refresh_count (l1 ++ l2) = (refresh_count l1 + refresh_count l2)%nat.
Proof. unfold refresh_count. rewrite List.filter_app, length_app. reflexivity. Qed.



(** ** PatchPlanner: the keys of the plan *)

Lemma dict_set_keys {V : Type} (d : dict V) (k : string) (v : V) :
  incl (dict_keys (dict_set d k v)) (k :: dict_keys d).
Proof.
  induction d as [|[k' v'] d IH]; intros x Hx; cbn in *.
  - exact Hx.
  - destruct (String.eqb k' k); cbn in *.
    + right. exact Hx.
    + destruct Hx as [<- | Hx]; [right; left; reflexivity|].
      destruct (IH x Hx) as [<- | Hin]; [left; reflexivity | right; right; exact Hin].
Qed.

Lemma group_step_keys (d : dict (list Vulnerability)) (v : Vulnerability) :
  incl (dict_keys (group_step d v)) (package_name v :: dict_keys d).
Proof.
  unfold group_step.
  set (d' := if negb (dict_contains d (package_name v)) then _ else _).
  assert (Hd' : incl (dict_keys d') (package_name v :: dict_keys d)).
  { subst d'. destruct (negb _).
    - apply dict_set_keys.
    - apply incl_tl, incl_refl. }
  destruct (dict_get d' (package_name v)) as [vulns|]; [|exact Hd'].
  intros x Hx. apply dict_set_keys in Hx.
  destruct Hx as [<- | Hx]; [left; reflexivity | exact (Hd' x Hx)].
Qed.

Lemma group_by_package_keys_from (vulns : list Vulnerability) :
  forall d : dict (list Vulnerability),
    incl (dict_keys (fold_left group_step vulns d))
         (dict_keys d ++ map package_name vulns).
Proof.
  induction vulns as [|v vulns IH]; intros d; cbn.
  - rewrite app_nil_r. apply incl_refl.
  - intros x Hx. apply IH in Hx. apply in_app_iff in Hx. apply in_app_iff.
    destruct Hx as [Hx | Hx]; [|right; right; exact Hx].
    apply group_step_keys in Hx.
    destruct Hx as [<- | Hx]; [right; left; reflexivity | left; exact Hx].
Qed.

Lemma group_by_package_keys (vulns : list Vulnerability) :
  incl (dict_keys (group_by_package vulns)) (map package_name vulns).
Proof. exact (group_by_package_keys_from vulns []). Qed.

(** The gate always returns. *)
Lemma ensure_apt_updated_returns (env : Env) (force : bool) (w : World) :
  exists b w', ensure_apt_updated env force w = (Ok b, w').
Proof.
  destruct (cache_fresh force (_apt_last_updated w) (env_now env (log w))) eqn:Hgate.
  - rewrite (ensure_apt_updated_skips env force w Hgate). eauto.
  - rewrite (ensure_apt_updated_refreshes env force w Hgate). eauto.
Qed.

(** The candidate lookup always returns. *)
Lemma check_package_update_available_returns (env : Env) (p : string) (w : World) :
  exists o w', _check_package_update_available env p w = (Ok o, w').
Proof.
  unfold _check_package_update_available, bind, _run_command, perform. cbn.
  destruct (command_result _) as [[[] out] err]; cbn; eauto.
Qed.

(** The lookup loop always returns, and only adds keys it iterates over. *)
Lemma check_updates_keys (env : Env) (items : list (string * list Vulnerability)) :
  forall (acc : dict string * bool) (w : World),
  exists acc' w',
    check_updates env items acc w = (Ok acc', w') /\
    incl (dict_keys acc'.1) (dict_keys acc.1 ++ map fst items).
Proof.
  induction items as [|[p vulns] items IH]; intros acc w; cbn.
  - eexists _, _. split; [reflexivity|]. rewrite app_nil_r. apply incl_refl.
  - unfold bind at 1.
    destruct (check_package_update_available_returns env p w) as (o & w1 & ->).
    assert (Hskip : exists acc' w',
               check_updates env items acc w1 = (Ok acc', w') /\
               incl (dict_keys acc'.1) (dict_keys acc.1 ++ p :: map fst items)).
    { destruct (IH acc w1) as (acc' & w' & -> & Hsub).
      eexists _, _. split; [reflexivity|].
      intros x Hx. apply Hsub in Hx. apply in_app_iff in Hx. apply in_app_iff.
      destruct Hx; [left | right; right]; assumption. }
    destruct o as [v|]; [|exact Hskip].
    destruct (PyStr.truthy v); [|exact Hskip].
    match goal with |- context [check_updates env items ?a w1] =>
      destruct (IH a w1) as (acc' & w' & -> & Hsub) end.
    eexists _, _. split; [reflexivity|].
    intros x Hx. apply Hsub in Hx. cbn in Hx. apply in_app_iff in Hx. apply in_app_iff.
    destruct Hx as [Hx | Hx]; [|right; right; exact Hx].
    apply dict_set_keys in Hx.
    destruct Hx as [<- | Hx]; [right; left; reflexivity | left; exact Hx].
Qed.

(** C9: for every vulnerability list, [create_patch_plan] returns a plan,
    and every key of its [packages_to_update] is the package name of one of
    the plan's (filtered) vulnerabilities. *)
Theorem create_patch_plan_keys (env : Env) (self : AutonomousPatcher)
    (vulns : list Vulnerability) (w : World) :
  exists plan w',
    create_patch_plan env self (Some vulns) w = (Ok plan, w') /\
    vulnerabilities plan = List.filter (_should_patch self) vulns /\
    incl (dict_keys (packages_to_update plan)) (map package_name (vulnerabilities plan)).
Proof.
  unfold create_patch_plan. unfold bind at 1, ret at 1.
  destruct (List.filter (_should_patch self) vulns) as [|v to_patch] eqn:Hfilter.
  - eexists _, _. split; [reflexivity|]. split; [reflexivity|]. intros x [].
  - unfold bind at 1.
    destruct (ensure_apt_updated_returns env false w) as (b & w1 & ->).
    unfold bind at 1.
    destruct (check_updates_keys env (dict_items (group_by_package (v :: to_patch)))
                ([], false) w1) as (acc & w2 & -> & Hsub).
    eexists _, _. split; [reflexivity|]. split; [reflexivity|]. cbn [packages_to_update
      vulnerabilities].
    intros x Hx. apply Hsub in Hx. cbn in Hx.
    exact (group_by_package_keys (v :: to_patch) x Hx).
Qed.

(** ** PatchExecutor: real execution *)

Lemma run_command_eq (env : Env) (cmd : list string) (w : World) :
  _run_command env cmd w =
    (Ok (command_result (env_subprocess env (log w) cmd)),
     {| log := EvRun cmd :: log w; _apt_last_updated := _apt_last_updated w |}).
Proof. reflexivity. Qed.

Lemma install_one_ok (env : Env) (item : string * string) (f : Frame) (w : World) :
  run_ok env (log w) (install_cmd item.1 item.2) ->
  install_one env item (f, w) =
    (Ok tt,
     ({| f_errors := f_errors f; f_updated_packages := f_updated_packages f ++ [item.1] |},
      {| log := install_event item :: log w; _apt_last_updated := _apt_last_updated w |})).
Proof.
  unfold run_ok, install_one, bind, lift, _run_command, perform. cbn.
  destruct (command_result _) as [[s out] err]. cbn. intros ->. reflexivity.
Qed.

Lemma install_one_fails (env : Env) (item : string * string) (f : Frame) (w : World) :
  run_fails env (log w) (install_cmd item.1 item.2) ->
  install_one env item (f, w) =
    (Ok tt,
     ({| f_errors :=
           f_errors f ++ ["Failed to update " +:+ item.1 +:+ ": "
                          +:+ run_stderr env (log w) (install_cmd item.1 item.2)];
         f_updated_packages := f_updated_packages f |},
      {| log := install_event item :: log w; _apt_last_updated := _apt_last_updated w |})).
Proof.
  unfold run_fails, run_stderr, install_one, bind, lift, _run_command, perform. cbn.
  destruct (command_result _) as [[s out] err]. cbn. intros ->. reflexivity.
Qed.

Lemma install_events_cons (item : string * string) (items : list (string * string))
    (l : list Event) :
  install_events (item :: items) ++ l = install_events items ++ install_event item :: l.
Proof. unfold install_events. cbn. rewrite <- app_assoc. reflexivity. Qed.

(** The install loop attempts every package in order, whatever the
    outcomes; it only appends to the two lists; when every install
    succeeds it appends every package and no error. *)
Lemma install_loop (env : Env) (items : list (string * string)) :
  forall (f : Frame) (w : World),
  exists errs ups,
    for_each items (install_one env) (f, w) =
      (Ok tt,
       ({| f_errors := f_errors f ++ errs;
           f_updated_packages := f_updated_packages f ++ ups |},
        {| log := install_events items ++ log w;
           _apt_last_updated := _apt_last_updated w |})) /\
    (installs_all_ok env (log w) items -> errs = [] /\ ups = map fst items).
Proof.
  induction items as [|item items IH]; intros f w.
  - exists [], []. cbn. rewrite !app_nil_r. destruct f, w. split; [reflexivity | auto].
  - cbn [for_each]. unfold bind at 1.
    destruct ((command_result (env_subprocess env (log w) (install_cmd item.1 item.2))).1.1)
      eqn:Hrun.
    + rewrite (install_one_ok env item f w Hrun).
      match goal with |- context [for_each items _ (?f1, ?w1)] =>
        destruct (IH f1 w1) as (errs & ups & -> & Hall) end.
      exists errs, (item.1 :: ups).
      cbn [f_errors f_updated_packages log _apt_last_updated].
      rewrite install_events_cons, <- app_assoc.
      split; [reflexivity|].
      intros Hok. destruct Hall as [-> ->]; [|auto].
      intros pre it post ->. specialize (Hok (item :: pre) it post eq_refl).
      rewrite install_events_cons in Hok. exact Hok.
    + rewrite (install_one_fails env item f w Hrun).
      match goal with |- context [for_each items _ (?f1, ?w1)] =>
        destruct (IH f1 w1) as (errs & ups & -> & Hall) end.
      eexists (_ :: errs), ups.
      cbn [f_errors f_updated_packages log _apt_last_updated].
      rewrite install_events_cons, <- app_assoc.
      split; [reflexivity|].
      intros Hok. specialize (Hok [] item items eq_refl). cbn in Hok.
      unfold run_ok in Hok. congruence.
Qed.

(** The start of a real execution: two clock reads and the history
    record, then the guarded block with both lists empty. *)
Lemma apply_patch_plan_real (env : Env) (self : AutonomousPatcher) (plan : PatchPlan)
    (w : World) (install_id : string) :
  dry_run self = false ->
  packages_to_update plan <> [] ->
  history_opens env plan w install_id ->
  apply_patch_plan env self plan w =
    with_frame {| f_errors := []; f_updated_packages := [] |}
      (try_except
         (apply_try env ("patch_" +:+ PyStr.of_int (env_time env (log w)))
            (env_now env (EvTime :: log w)) plan install_id)
         (apply_except env ("patch_" +:+ PyStr.of_int (env_time env (log w)))
            (env_now env (EvTime :: log w)) install_id))
      {| log := log_at_refresh env plan w; _apt_last_updated := _apt_last_updated w |}.
Proof.
  intros Hreal Hne Hopen.
  unfold apply_patch_plan, bind, time_time, datetime_now, record_installation, perform.
  cbn. rewrite Hreal.
  destruct (packages_to_update plan) as [|item items] eqn:Hitems; [congruence|].
  cbn. unfold history_opens, announced_commands in Hopen. rewrite Hitems in Hopen.
  cbn in Hopen. rewrite Hopen.
  unfold log_at_refresh, record_event, announced_commands. rewrite Hitems. reflexivity.
Qed.

(** C10: in a real execution of a plan with packages to update, when the
    initial index refresh fails (and the history store answers), the
    failure is the first error of the result, the result is unsuccessful,
    and the history record is marked failed with the collected errors; when
    moreover every install succeeds, every package is still listed as
    updated and the refresh failure is the only error. *)
Theorem apply_patch_plan_refresh_failure (env : Env) (self : AutonomousPatcher)
    (plan : PatchPlan) (w : World) (install_id : string) :
  let refresh_error :=
    "Failed to update package list: "
    +:+ run_stderr env (log_at_refresh env plan w) apt_get_update in
  let l3 := install_events (packages_to_update plan) ++ log_at_installs env plan w in
  dry_run self = false ->
  packages_to_update plan <> [] ->
  history_opens env plan w install_id ->
  run_fails env (log_at_refresh env plan w) apt_get_update ->
  (forall msg, env_update_installation env l3 install_id FAILED msg = Ok tt) ->
  exists r w',
    apply_patch_plan env self plan w = (Ok r, w') /\
    hd_error (errors r) = Some refresh_error /\
    success r = false /\
    rollback_id r = Some install_id /\
    log w' = EvNow
             :: EvUpdateInstallation install_id FAILED
                  (Some (PyStr.join newline_str (errors r))) :: l3 /\
    (installs_all_ok env (log_at_installs env plan w) (packages_to_update plan) ->
     packages_updated r = dict_keys (packages_to_update plan) /\
     errors r = [refresh_error]).
Proof.
  intros refresh_error l3 Hreal Hne Hopen Hrefresh Hhistory.
  rewrite (apply_patch_plan_real env self plan w install_id Hreal Hne Hopen).
  unfold with_frame, try_except, apply_try. unfold bind at 1. unfold lift at 1.
  cbn [fst snd]. rewrite run_command_eq. cbn [log _apt_last_updated].
  unfold run_fails in Hrefresh. subst refresh_error. unfold run_stderr.
  destruct (command_result (env_subprocess env (log_at_refresh env plan w) apt_get_update))
    as [[ok out] err]. cbn in Hrefresh. subst ok. cbn [negb fst snd].
  unfold bind at 1. unfold errors_append at 1, modify_frame at 1. cbn [fst snd f_errors
    f_updated_packages app].
  unfold bind at 1.
  match goal with |- context [for_each ?items _ (?f1, ?w1)] =>
    destruct (install_loop env items f1 w1) as (errs & ups & Hloop & Hall) end.
  unfold dict_items in *. rewrite Hloop. clear Hloop.
  cbn [f_errors f_updated_packages log _apt_last_updated app] in *.
  unfold bind at 1, get_frame at 1. cbn [fst snd f_errors].
  unfold bind at 1. unfold bind at 1. unfold lift at 1, update_installation, perform.
  cbn [fst snd log _apt_last_updated].
  fold (log_at_installs env plan w). fold l3. rewrite Hhistory.
  unfold ret at 1. unfold bind at 1, lift at 1, datetime_now, perform. cbn.
  eexists _, _. split; [reflexivity|]. cbn.
  repeat (split; [reflexivity|]).
  intros Hok. destruct (Hall Hok) as [-> ->]. split; reflexivity.
Qed.

Lemma apply_patch_plan_refresh_failure_witness :
  exists r w',
    apply_patch_plan (sample_env false (Raise "no scanner") ConfigMissing)
      (sample_patcher false) (sample_plan [("a", "1")]) sample_world = (Ok r, w') /\
    errors r = ["Failed to update package list: E: offline"] /\
    success r = false /\
    packages_updated r = ["a"].
Proof.
  destruct (apply_patch_plan_refresh_failure
              (sample_env false (Raise "no scanner") ConfigMissing)
              (sample_patcher false) (sample_plan [("a", "1")]) sample_world "inst-1")
    as (r & w' & Hrun & _ & Hfailed & _ & _ & Hall).
  - reflexivity.
  - simpl. discriminate.
  - reflexivity.
  - reflexivity.
  - reflexivity.
  - exists r, w'. split; [exact Hrun|].
    destruct Hall as [Hupdated Herrors].
    + intros pre item post Hsplit.
      destruct pre as [|first pre].
      * injection Hsplit as <- _. reflexivity.
      * destruct pre; discriminate.
    + split; [exact Herrors|]. split; [exact Hfailed | exact Hupdated].
Defined.

Lemma commands_run_cons (ev : Event) (l : list Event) :
  commands_run (ev :: l) =
    commands_run l ++ match is_run ev with Some cmd => [cmd] | None => [] end.
Proof.
  unfold commands_run, chronological. cbn. rewrite omap_app. cbn.
  destruct (is_run ev); reflexivity.
Qed.

Lemma commands_run_install_events (items : list (string * string)) (l : list Event) :
  commands_run (install_events items ++ l) =
    commands_run l ++ map (fun item => install_cmd item.1 item.2) items.
Proof.
  revert l. induction items as [|item items IH]; intros l.
  - cbn. rewrite app_nil_r. reflexivity.
  - rewrite install_events_cons, IH, commands_run_cons. cbn.
    rewrite <- app_assoc. reflexivity.
Qed.

(** C1: (1) in a real execution of a plan that updates A and then B, when
    the refresh succeeds, the install of A succeeds and the install of B
    fails (and the history store answers), the result lists exactly A as
    updated, carries exactly one error (the failure of B), is unsuccessful
    and carries the id of the history record; (2) in every real execution
    the commands run are the refresh followed by the install of every
    package of the plan in iteration order, whatever each of them
    reports. *)
Theorem apply_patch_plan_partial_failure :
  (forall (env : Env) (self : AutonomousPatcher) (plan : PatchPlan) (w : World)
          (A vA B vB install_id : string),
     let at_A := log_at_installs env plan w in
     let at_B := EvRun (install_cmd A vA) :: at_A in
     let after := EvRun (install_cmd B vB) :: at_B in
     dry_run self = false ->
     packages_to_update plan = [(A, vA); (B, vB)] ->
     history_opens env plan w install_id ->
     run_ok env (log_at_refresh env plan w) apt_get_update ->
     run_ok env at_A (install_cmd A vA) ->
     run_fails env at_B (install_cmd B vB) ->
     (forall msg, env_update_installation env after install_id FAILED msg = Ok tt) ->
     exists r w',
       apply_patch_plan env self plan w = (Ok r, w') /\
       packages_updated r = [A] /\
       errors r = ["Failed to update " +:+ B +:+ ": "
                   +:+ run_stderr env at_B (install_cmd B vB)] /\
       length (errors r) = 1%nat /\
       success r = false /\
       rollback_id r = Some install_id /\
       rollback_id r <> None) /\
  (forall (env : Env) (self : AutonomousPatcher) (plan : PatchPlan) (w : World)
          (install_id : string),
     dry_run self = false ->
     packages_to_update plan <> [] ->
     history_opens env plan w install_id ->
     commands_run (log (apply_patch_plan env self plan w).2) =
       commands_run (log w)
       ++ apt_get_update
          :: map (fun item => install_cmd item.1 item.2) (packages_to_update plan)).
Proof.
  split.
  - intros env self plan w A vA B vB install_id at_A at_B after
      Hreal Hitems Hopen Hrefresh HA HB Hhistory.
    assert (Hne : packages_to_update plan <> []) by (rewrite Hitems; discriminate).
    rewrite (apply_patch_plan_real env self plan w install_id Hreal Hne Hopen).
    unfold with_frame, try_except, apply_try. unfold bind at 1. unfold lift at 1.
    cbn [fst snd]. rewrite run_command_eq. cbn [log _apt_last_updated].
    unfold run_ok in Hrefresh.
    destruct (command_result (env_subprocess env (log_at_refresh env plan w) apt_get_update))
      as [[ok out] err]. cbn in Hrefresh. subst ok. cbn [negb fst snd].
    unfold bind at 1, ret at 1. unfold bind at 1.
    unfold dict_items. rewrite Hitems. cbn [for_each].
    unfold bind at 1. fold (log_at_installs env plan w). fold at_A.
    rewrite install_one_ok by exact HA.
    unfold bind at 1. cbn [fst snd install_event]. fold at_B.
    rewrite install_one_fails by exact HB.
    cbn [fst snd f_errors f_updated_packages app install_event log _apt_last_updated].
    fold after. unfold ret at 1.
    unfold bind at 1, get_frame at 1. cbn [fst snd f_errors].
    unfold bind at 1. unfold bind at 1. unfold lift at 1, update_installation, perform.
    cbn [fst snd log _apt_last_updated]. rewrite Hhistory.
    unfold ret at 1. unfold bind at 1, lift at 1, datetime_now, perform. cbn.
    eexists _, _. split; [reflexivity|]. cbn.
    repeat (split; [reflexivity|]). discriminate.
  - intros env self plan w install_id Hreal Hne Hopen.
    rewrite (apply_patch_plan_real env self plan w install_id Hreal Hne Hopen).
    unfold with_frame, try_except, apply_try. unfold bind at 1. unfold lift at 1.
    cbn [fst snd]. rewrite run_command_eq. cbn [log _apt_last_updated].
    destruct (command_result (env_subprocess env (log_at_refresh env plan w) apt_get_update))
      as [[ok out] err].
    assert (Hfinal :
      commands_run (install_events (packages_to_update plan)
                    ++ EvRun apt_get_update :: log_at_refresh env plan w) =
        commands_run (log w)
        ++ apt_get_update
           :: map (fun item => install_cmd item.1 item.2) (packages_to_update plan)).
    { rewrite commands_run_install_events, commands_run_cons.
      unfold log_at_refresh, record_event. rewrite !commands_run_cons. cbn.
      rewrite !app_nil_r, <- app_assoc. reflexivity. }
    unfold bind at 1.
    assert (Hfirst : exists f1,
      (if negb ok
       then errors_append ("Failed to update package list: " +:+ err)
       else ret tt)
        ({| f_errors := []; f_updated_packages := [] |},
         {| log := EvRun apt_get_update :: log_at_refresh env plan w;
            _apt_last_updated := _apt_last_updated w |})
      = (Ok tt, (f1, {| log := EvRun apt_get_update :: log_at_refresh env plan w;
                        _apt_last_updated := _apt_last_updated w |}))).
    { destruct ok; cbn; eauto. }
    destruct Hfirst as (f1 & Hfirst).
    cbn [fst snd] in *. rewrite Hfirst. clear Hfirst.
    unfold bind at 1.
    match goal with |- context [for_each ?items _ (?f1, ?w1)] =>
      destruct (install_loop env items f1 w1) as (errs & ups & Hloop & _) end.
    unfold dict_items in *. rewrite Hloop. clear Hloop.
    cbn [log _apt_last_updated].
    unfold bind at 1, get_frame at 1. cbn [fst snd f_errors].
    unfold bind at 1. unfold bind at 1.
    destruct (f_errors f1 ++ errs) as [|e0 es];
      unfold lift, update_installation, apply_except, bind, errors_append, modify_frame,
        get_frame, datetime_now, ret, perform;
      cbn -[commands_run install_events];
      repeat match goal with
        | |- context [env_update_installation ?e ?l ?i ?s ?m] =>
            destruct (env_update_installation e l i s m) as [[]|?];
            cbn -[commands_run install_events]
        end;
      rewrite !commands_run_cons; cbn [is_run]; rewrite !app_nil_r; exact Hfinal.
Qed.

Lemma apply_patch_plan_partial_failure_witness :
  (exists r w',
     apply_patch_plan (sample_env true (Raise "no scanner") ConfigMissing)
       (sample_patcher false) (sample_plan [("a", "1"); ("b", "2")]) sample_world
     = (Ok r, w') /\
     packages_updated r = ["a"] /\
     errors r = ["Failed to update b: E: broken"] /\
     success r = false /\
     rollback_id r = Some "inst-1") /\
  commands_run
    (log (apply_patch_plan (sample_env true (Raise "no scanner") ConfigMissing)
            (sample_patcher false) (sample_plan [("b", "2"); ("a", "1")]) sample_world).2)
  = [apt_get_update; install_cmd "b" "2"; install_cmd "a" "1"].
Proof.
  destruct apply_patch_plan_partial_failure as [Hscenario Hattempts].
  split.
  - destruct (Hscenario (sample_env true (Raise "no scanner") ConfigMissing)
                (sample_patcher false) (sample_plan [("a", "1"); ("b", "2")]) sample_world
                "a" "1" "b" "2" "inst-1")
      as (r & w' & Hrun & Hupdated & Herrors & _ & Hfailed & Hid & _).
    + reflexivity.
    + reflexivity.
    + reflexivity.
    + reflexivity.
    + reflexivity.
    + reflexivity.
    + reflexivity.
    + exists r, w'. repeat split; assumption.
  - apply (Hattempts (sample_env true (Raise "no scanner") ConfigMissing)
             (sample_patcher false) (sample_plan [("b", "2"); ("a", "1")]) sample_world
             "inst-1").
    + reflexivity.
    + simpl. discriminate.
    + reflexivity.
Defined.

(** ** ScheduleManager: running a schedule *)

Lemma in_world_eq {A} (m : M World A) (res : RunResults.t)
    (self : SecurityScheduler) (w : World) :
  in_world m (res, (self, w)) = ((m w).1, (res, (self, (m w).2))).
Proof. unfold in_world, lift. cbn. destruct (m w). reflexivity. Qed.

(** What the scan and patch block does to the run state: it never touches
    the scheduler; when it raises, the summary has gained no error and is
    not marked failed by it; when it completes with a recorded patch
    result that reports failure, the summary is marked failed. *)
Lemma scan_patch_block_effect (env : Env) (schedule : SecuritySchedule.t)
    (res0 : RunResults.t) (self : SecurityScheduler) (w : World)
    (r : Result unit) (res1 : RunResults.t) (self1 : SecurityScheduler) (w1 : World) :
  scan_patch_block env schedule (res0, (self, w)) = (r, (res1, (self1, w1))) ->
  self1 = self /\
  match r with
  | Raise _ =>
      RunResults.errors res1 = RunResults.errors res0 /\
      RunResults.success res1 = RunResults.success res0 /\
      RunResults.patch_result res1 = RunResults.patch_result res0
  | Ok _ =>
      (RunResults.patch_result res1 = RunResults.patch_result res0 /\
       RunResults.success res1 = RunResults.success res0 /\
       RunResults.errors res1 = RunResults.errors res0) \/
      (exists ps,
         RunResults.patch_result res1 = Some ps /\
         (PatchSummary.success ps = false ->
          RunResults.success res1 = false /\
          RunResults.errors res1 = RunResults.errors res0 ++ PatchSummary.errors ps) /\
         (PatchSummary.success ps = true ->
          RunResults.success res1 = RunResults.success res0 /\
          RunResults.errors res1 = RunResults.errors res0))
  end.
Proof.
  unfold scan_patch_block. intros Hblock.
  destruct (SecuritySchedule.scan_enabled schedule);
    [|injection Hblock as <- <- <- <-; cbn; auto 10].
  unfold bind at 1 in Hblock. rewrite in_world_eq in Hblock.
  unfold scan_all_packages, perform in Hblock. cbn [fst snd log _apt_last_updated] in Hblock.
  destruct (env_scan env (log w)) as [scan_result|e];
    [|injection Hblock as <- <- <- <-; cbn; auto 10].
  unfold bind at 1, modify_frame at 1 in Hblock. cbn [fst snd] in Hblock.
  destruct (SecuritySchedule.patch_enabled schedule
            && (0 <? ScanResult.vulnerabilities_found scan_result));
    [|injection Hblock as <- <- <- <-; cbn; auto 10].
  unfold patch_block in Hblock. unfold bind at 1 in Hblock. rewrite in_world_eq in Hblock.
  unfold AutonomousPatcher_init, perform in Hblock. unfold bind at 1 in Hblock.
  cbn [fst snd log _apt_last_updated] in Hblock.
  destruct (env_new_patcher env _) as [file|e];
    [|injection Hblock as <- <- <- <-; cbn; auto 10].
  unfold ret at 1 in Hblock. cbn [fst snd] in Hblock.
  unfold bind at 1 in Hblock. rewrite in_world_eq in Hblock.
  destruct (patch_vulnerabilities env _ _ _) as [[patch_result|e] w2];
    [|injection Hblock as <- <- <- <-; cbn; auto 10].
  cbn [fst snd] in Hblock. unfold record_patch_result, bind, modify_frame in Hblock.
  destruct (success patch_result) eqn:Hsuccess; cbn in Hblock;
    injection Hblock as <- <- <- <-; (split; [reflexivity|]);
    right; eexists; (split; [reflexivity|]); cbn; rewrite Hsuccess;
    (split; [|split]); auto; discriminate.
Qed.

Lemma dict_get_set_same {V : Type} (d : dict V) (k : string) (v : V) :
  dict_get (dict_set d k v) k = Some v.
Proof.
  induction d as [|[k' v'] d IH]; cbn.
  - rewrite String.eqb_refl. reflexivity.
  - destruct (String.eqb k' k) eqn:Hk; cbn; rewrite Hk; [reflexivity | exact IH].
Qed.

Lemma dict_set_twice {V : Type} (d : dict V) (k : string) (v1 v2 : V) :
  dict_set (dict_set d k v1) k v2 = dict_set d k v2.
Proof.
  induction d as [|[k' v'] d IH]; cbn.
  - rewrite String.eqb_refl. reflexivity.
  - destruct (String.eqb k' k) eqn:Hk; cbn; rewrite Hk; [reflexivity | f_equal; exact IH].
Qed.

(** [_save_schedules] writes the document of the current schedules unless
    [mkdir] raises; a failed write is swallowed. *)
Lemma save_schedules_eq (env : Env) (self : SecurityScheduler) (w : World) :
  _save_schedules env (self, w) =
    match env_mkdir env (log w) with
    | Ok _ =>
        (Ok tt,
         (self,
          {| log := EvWriteSchedules
                      (map SecuritySchedule.to_json (dict_values (schedules self)))
                    :: EvMkdir :: log w;
             _apt_last_updated := _apt_last_updated w |}))
    | Raise e =>
        (Raise e,
         (self, {| log := EvMkdir :: log w; _apt_last_updated := _apt_last_updated w |}))
    end.
Proof.
  unfold _save_schedules, bind, lift, perform, try_except, get_frame. cbn.
  destruct (env_mkdir env (log w)) as [[]|e]; cbn; [|reflexivity].
  destruct (env_write_schedules env _ _) as [[]|e]; reflexivity.
Qed.

(** The update step advances the stored schedule and then saves. *)
Lemma update_schedule_eq (env : Env) (schedule_id : string) (schedule : SecuritySchedule.t)
    (res : RunResults.t) (self : SecurityScheduler) (w : World) :
  dict_get (schedules self) schedule_id = Some schedule ->
  update_schedule env schedule_id schedule (res, (self, w)) =
    lift (_save_schedules env)
      (res,
       ({| schedules := dict_set (schedules self) schedule_id
                          (advanced env schedule (log w)) |},
        {| log := log_at_save schedule (log w);
           _apt_last_updated := _apt_last_updated w |})).
Proof.
  intros Hstored.
  unfold update_schedule, advanced, log_at_save.
  unfold bind at 1. rewrite in_world_eq. unfold datetime_now at 1, perform at 1.
  cbn [fst snd log _apt_last_updated].
  unfold bind at 1. unfold lift at 1, schedule_assign at 1, modify_frame at 1.
  cbn [fst snd]. rewrite Hstored.
  unfold bind at 1. rewrite in_world_eq.
  unfold _calculate_next_run, datetime_now, perform, bind, ret, timedelta,
    microseconds_per_day.
  destruct (SecuritySchedule.frequency schedule); cbn;
    rewrite ?in_world_eq; cbn; rewrite dict_get_set_same, dict_set_twice;
    repeat f_equal; lia.
Qed.

(** The run of a stored schedule: the [try] block and its handler on a
    fresh summary, entered after one clock reading. *)
Lemma run_schedule_unfold (env : Env) (self : SecurityScheduler) (w : World)
    (schedule_id : string) (schedule : SecuritySchedule.t) :
  dict_get (schedules self) schedule_id = Some schedule ->
  run_schedule env schedule_id (self, w) =
    with_frame (initial_results env schedule_id w)
      (try_except
         (scan_patch_block env schedule ;; update_schedule env schedule_id schedule)
         (run_except) ;;
       get_frame) (self, world_at_try w).
Proof.
  intros Hstored.
  unfold run_schedule. unfold bind at 1, get_frame at 1. cbn [fst snd].
  rewrite Hstored. unfold bind at 1, lift at 1, datetime_now, perform. reflexivity.
Qed.

(** A run whose scan and patch block completed: the schedule is advanced
    in the scheduler, then the save step runs; a [mkdir] that raises is
    caught by the handler of the run. *)
Lemma run_schedule_completed (env : Env) (self : SecurityScheduler) (w : World)
    (schedule_id : string) (schedule : SecuritySchedule.t)
    (res1 : RunResults.t) (self1 : SecurityScheduler) (w1 : World) :
  dict_get (schedules self) schedule_id = Some schedule ->
  scan_patch_block env schedule
    (initial_results env schedule_id w, (self, world_at_try w))
  = (Ok tt, (res1, (self1, w1))) ->
  run_schedule env schedule_id (self, w) =
    match env_mkdir env (log_at_save schedule (log w1)) with
    | Ok _ =>
        (Ok res1,
         ({| schedules := dict_set (schedules self) schedule_id
                            (advanced env schedule (log w1)) |},
          {| log := EvWriteSchedules
                      (map SecuritySchedule.to_json
                         (dict_values
                            (dict_set (schedules self) schedule_id
                               (advanced env schedule (log w1)))))
                    :: EvMkdir :: log_at_save schedule (log w1);
             _apt_last_updated := _apt_last_updated w1 |}))
    | Raise e =>
        (Ok (failed_with e res1),
         ({| schedules := dict_set (schedules self) schedule_id
                            (advanced env schedule (log w1)) |},
          {| log := EvMkdir :: log_at_save schedule (log w1);
             _apt_last_updated := _apt_last_updated w1 |}))
    end.
Proof.
  intros Hstored Hblock.
  destruct (scan_patch_block_effect _ _ _ _ _ _ _ _ _ Hblock) as [-> _].
  rewrite (run_schedule_unfold env self w schedule_id schedule Hstored).
  unfold with_frame, try_except. unfold bind at 1. unfold bind at 1.
  cbv beta. unfold RunState, SelfWorld in *. rewrite Hblock.
  rewrite (update_schedule_eq env schedule_id schedule res1 self w1 Hstored).
  unfold lift at 1. cbn [fst snd]. rewrite save_schedules_eq. cbn [log schedules].
  destruct (env_mkdir env (log_at_save schedule (log w1))) as [[]|e]; reflexivity.
Qed.

(** The block of a run that scans, finds something and patches, up to the
    recording of the result the executor returned. *)
Lemma scan_patch_block_patches (env : Env) (schedule : SecuritySchedule.t)
    (res : RunResults.t) (self : SecurityScheduler) (w : World)
    (scan_result : ScanResult.t) (file : ConfigFile) (patch_result : PatchResult)
    (w2 : World) :
  SecuritySchedule.scan_enabled schedule = true ->
  SecuritySchedule.patch_enabled schedule = true ->
  env_scan env (log w) = Ok scan_result ->
  0 < ScanResult.vulnerabilities_found scan_result ->
  env_new_patcher env (EvScan :: log w) = Ok file ->
  patch_vulnerabilities env
    (_load_config
       {| strategy := SecuritySchedule.patch_strategy schedule;
          dry_run := SecuritySchedule.dry_run schedule;
          auto_approve := false;
          whitelist := ∅; blacklist := ∅; min_severity := MEDIUM |}
       file)
    (Some (List.filter critical_or_high (ScanResult.vulnerabilities scan_result)))
    {| log := EvNewPatcher :: EvScan :: log w; _apt_last_updated := _apt_last_updated w |}
  = (Ok patch_result, w2) ->
  scan_patch_block env schedule (res, (self, w)) =
    record_patch_result patch_result
      (RunResults.set_scan_result (Some (scan_summary scan_result)) res, (self, w2)).
Proof.
  intros Hscan Hpatch Hfound Hsome Hfile Hexec.
  unfold scan_patch_block. rewrite Hscan, Hpatch.
  unfold bind at 1. rewrite in_world_eq.
  unfold scan_all_packages, perform. cbn [fst snd log _apt_last_updated].
  rewrite Hfound. unfold bind at 1, modify_frame at 1. cbn [fst snd].
  apply Z.ltb_lt in Hsome. rewrite Hsome. cbn [andb].
  assert (Hinit :
    AutonomousPatcher_init env (SecuritySchedule.patch_strategy schedule)
      (SecuritySchedule.dry_run schedule) false
      {| log := EvScan :: log w; _apt_last_updated := _apt_last_updated w |}
    = (Ok (_load_config
             {| strategy := SecuritySchedule.patch_strategy schedule;
                dry_run := SecuritySchedule.dry_run schedule;
                auto_approve := false;
                whitelist := ∅; blacklist := ∅; min_severity := MEDIUM |}
             file),
       {| log := EvNewPatcher :: EvScan :: log w;
          _apt_last_updated := _apt_last_updated w |})).
  { unfold AutonomousPatcher_init, perform, bind, ret.
    cbn [fst snd log _apt_last_updated]. rewrite Hfile. reflexivity. }
  unfold patch_block. unfold bind at 1. rewrite in_world_eq, Hinit. cbn [fst snd].
  unfold bind at 1. rewrite in_world_eq, Hexec. reflexivity.
Qed.

Lemma saved_documents_at_save (env : Env) (schedule : SecuritySchedule.t)
    (l : list Event) :
  saved_documents env (log_at_save schedule l) = saved_documents env l.
Proof. unfold log_at_save. destruct (frequency_days _); reflexivity. Qed.

(** The scan and patch block can complete, and the schedule advance,
    without the schedules being persisted.  On a file system where [mkdir]
    raises, the run of a stored schedule whose block completed advances
    [last_run] and [next_run] in memory, is marked failed, and writes
    nothing; where the write of the file raises, the run is reported
    successful without an error, and no document reached the file. *)
Lemma run_schedule_completes_without_persisting :
  (exists res1 st1 res self' w' s,
     scan_patch_block (sample_env_storage (Raise "Permission denied") (Ok tt))
       (sample_schedule false)
       (initial_results (sample_env_storage (Raise "Permission denied") (Ok tt))
          "nightly" sample_world,
        (sample_scheduler false, world_at_try sample_world))
     = (Ok tt, (res1, st1)) /\
     run_schedule (sample_env_storage (Raise "Permission denied") (Ok tt)) "nightly"
       (sample_scheduler false, sample_world) = (Ok res, (self', w')) /\
     dict_get (schedules self') "nightly" = Some s /\
     SecuritySchedule.last_run (sample_schedule false) = None /\
     SecuritySchedule.last_run s = Some "2000000" /\
     SecuritySchedule.next_run s = Some "86404000000" /\
     saved_documents (sample_env_storage (Raise "Permission denied") (Ok tt)) (log w') = [] /\
     RunResults.success res = false /\
     RunResults.errors res = ["Schedule execution failed: Permission denied"]) /\
  (exists res1 st1 res self' w' s,
     scan_patch_block (sample_env_storage (Ok tt) (Raise "No space left on device"))
       (sample_schedule false)
       (initial_results (sample_env_storage (Ok tt) (Raise "No space left on device"))
          "nightly" sample_world,
        (sample_scheduler false, world_at_try sample_world))
     = (Ok tt, (res1, st1)) /\
     run_schedule (sample_env_storage (Ok tt) (Raise "No space left on device")) "nightly"
       (sample_scheduler false, sample_world) = (Ok res, (self', w')) /\
     dict_get (schedules self') "nightly" = Some s /\
     SecuritySchedule.last_run s = Some "2000000" /\
     saved_documents (sample_env_storage (Ok tt) (Raise "No space left on device"))
       (log w') = [] /\
     RunResults.success res = true /\
     RunResults.errors res = []).
Proof.
  split; eexists _, _, _, _, _, _; vm_compute; repeat split; reflexivity.
Qed.

(** C5 (amended): for a stored schedule, (1) whenever the scan and patch
    block completes, the run sets [last_run] of the stored schedule to the
    clock reading of the update step, recomputes [next_run] from the
    frequency, and then calls the save step on the updated schedules: the
    document is persisted when [mkdir] and the write both succeed; a write
    that raises is dropped, nothing is persisted and the result is that of
    the block; a [mkdir] that raises marks the run failed with that
    exception, nothing is written, and the schedule stays advanced in
    memory; (2) when the executor reports a patch failure, the block
    completes, the run is marked failed with the executor's errors, the
    summary of the executor's result is recorded, and the schedule still
    advances; (3) when an exception escapes the block, the run is marked
    failed with that exception as its only error, the scheduler keeps its
    schedules as they were, and nothing is written. *)
Theorem run_schedule_advances (env : Env) (self : SecurityScheduler) (w : World)
    (schedule_id : string) (schedule : SecuritySchedule.t) :
  dict_get (schedules self) schedule_id = Some schedule ->
  (forall (res1 : RunResults.t) (self1 : SecurityScheduler) (w1 : World),
     scan_patch_block env schedule
       (initial_results env schedule_id w, (self, world_at_try w))
     = (Ok tt, (res1, (self1, w1))) ->
     let schedule' := advanced env schedule (log w1) in
     let self' := {| schedules := dict_set (schedules self) schedule_id schedule' |} in
     let doc := map SecuritySchedule.to_json (dict_values (schedules self')) in
     let l_save := log_at_save schedule (log w1) in
     exists res w',
       run_schedule env schedule_id (self, w) = (Ok res, (self', w')) /\
       dict_get (schedules self') schedule_id = Some schedule' /\
       SecuritySchedule.last_run schedule'
         = Some (env_isoformat env (env_now env (log w1))) /\
       SecuritySchedule.next_run schedule'
         = match frequency_days (SecuritySchedule.frequency schedule) with
           | Some d =>
               Some (env_isoformat env
                       (env_now env (EvNow :: EvNow :: log w1) + d * microseconds_per_day))
           | None => None
           end /\
       match env_mkdir env l_save with
       | Ok _ =>
           res = res1 /\
           log w' = EvWriteSchedules doc :: EvMkdir :: l_save /\
           match env_write_schedules env (EvMkdir :: l_save) doc with
           | Ok _ => saved_documents env (log w') = doc :: saved_documents env (log w1)
           | Raise _ => saved_documents env (log w') = saved_documents env (log w1)
           end
       | Raise e =>
           res = failed_with e res1 /\
           log w' = EvMkdir :: l_save /\
           saved_documents env (log w') = saved_documents env (log w1)
       end) /\
  (forall (scan_result : ScanResult.t) (file : ConfigFile) (patch_result : PatchResult)
          (w2 : World),
     SecuritySchedule.scan_enabled schedule = true ->
     SecuritySchedule.patch_enabled schedule = true ->
     env_scan env (log (world_at_try w)) = Ok scan_result ->
     0 < ScanResult.vulnerabilities_found scan_result ->
     env_new_patcher env (EvScan :: log (world_at_try w)) = Ok file ->
     patch_vulnerabilities env
       (_load_config
          {| strategy := SecuritySchedule.patch_strategy schedule;
             dry_run := SecuritySchedule.dry_run schedule;
             auto_approve := false;
             whitelist := ∅; blacklist := ∅; min_severity := MEDIUM |}
          file)
       (Some (List.filter critical_or_high (ScanResult.vulnerabilities scan_result)))
       {| log := EvNewPatcher :: EvScan :: log (world_at_try w);
          _apt_last_updated := _apt_last_updated w |}
     = (Ok patch_result, w2) ->
     success patch_result = false ->
     exists res self' w',
       run_schedule env schedule_id (self, w) = (Ok res, (self', w')) /\
       RunResults.success res = false /\
       RunResults.patch_result res = Some (patch_summary patch_result) /\
       (forall e, In e (errors patch_result) -> In e (RunResults.errors res)) /\
       dict_get (schedules self') schedule_id = Some (advanced env schedule (log w2))) /\
  (forall (e : string) (res1 : RunResults.t) (self1 : SecurityScheduler) (w1 : World),
     scan_patch_block env schedule
       (initial_results env schedule_id w, (self, world_at_try w))
     = (Raise e, (res1, (self1, w1))) ->
     exists res,
       run_schedule env schedule_id (self, w) = (Ok res, (self, w1)) /\
       RunResults.success res = false /\
       RunResults.errors res = ["Schedule execution failed: " +:+ e] /\
       dict_get (schedules self) schedule_id = Some schedule).
Proof.
  intros Hstored. split; [|split].
  - intros res1 self1 w1 Hblock schedule' self' doc l_save.
    rewrite (run_schedule_completed env self w schedule_id schedule res1 self1 w1
               Hstored Hblock).
    fold schedule' self'. change (dict_set (schedules self) schedule_id schedule')
      with (schedules self'). fold doc l_save.
    destruct (env_mkdir env l_save) as [[]|e] eqn:Hmkdir.
    + eexists _, _. split; [reflexivity|].
      split; [apply dict_get_set_same|]. do 2 (split; [reflexivity|]).
      split; [reflexivity|]. split; [reflexivity|].
      cbn [log saved_documents].
      destruct (env_write_schedules env (EvMkdir :: l_save) doc) as [[]|e];
        subst l_save; rewrite saved_documents_at_save; reflexivity.
    + eexists _, _. split; [reflexivity|].
      split; [apply dict_get_set_same|]. do 2 (split; [reflexivity|]).
      split; [reflexivity|]. split; [reflexivity|].
      cbn [log saved_documents]. subst l_save. apply saved_documents_at_save.
  - intros scan_result file patch_result w2 Hscan Hpatch Hfound Hsome Hfile Hexec Hfailed.
    pose proof (scan_patch_block_patches env schedule
                  (initial_results env schedule_id w) self (world_at_try w)
                  scan_result file patch_result w2 Hscan Hpatch Hfound Hsome Hfile Hexec)
      as Hblock.
    unfold record_patch_result, bind, modify_frame in Hblock.
    rewrite Hfailed in Hblock. cbn [negb fst snd] in Hblock.
    rewrite (run_schedule_completed env self w schedule_id schedule _ self w2
               Hstored Hblock).
    destruct (env_mkdir env (log_at_save schedule (log w2))) as [[]|e];
      eexists _, _, _; (split; [reflexivity|]); cbn;
      (split; [reflexivity|]); (split; [reflexivity|]);
      (split; [|apply dict_get_set_same]); intros e' He'.
    + exact He'.
    + apply in_or_app. left. exact He'.
  - intros e res1 self1 w1 Hblock.
    destruct (scan_patch_block_effect _ _ _ _ _ _ _ _ _ Hblock) as [-> (Herrors & _)].
    rewrite (run_schedule_unfold env self w schedule_id schedule Hstored).
    unfold with_frame, try_except. unfold bind at 1. unfold bind at 1.
    cbv beta. unfold RunState, SelfWorld in *. rewrite Hblock. cbn.
    eexists. split; [reflexivity|]. cbn. rewrite Herrors. auto.
Qed.

Lemma run_schedule_advances_witness :
  (exists res self' w' s doc,
     run_schedule
       (sample_env true (Ok (sample_scan [{| package_name := "b"; severity := CRITICAL |}]))
          ConfigMissing)
       "nightly" (sample_scheduler false, sample_world) = (Ok res, (self', w')) /\
     RunResults.success res = false /\
     dict_get (schedules self') "nightly" = Some s /\
     SecuritySchedule.last_run s = Some "14000000" /\
     SecuritySchedule.next_run s = Some "86416000000" /\
     saved_documents
       (sample_env true (Ok (sample_scan [{| package_name := "b"; severity := CRITICAL |}]))
          ConfigMissing)
       (log w') = [doc]) /\
  (exists res self' w' ps s,
     run_schedule
       (sample_env true (Ok (sample_scan [{| package_name := "b"; severity := CRITICAL |}]))
          ConfigMissing)
       "nightly" (sample_scheduler false, sample_world) = (Ok res, (self', w')) /\
     RunResults.success res = false /\
     RunResults.patch_result res = Some ps /\
     PatchSummary.success ps = false /\
     dict_get (schedules self') "nightly" = Some s /\
     SecuritySchedule.last_run s = Some "14000000") /\
  (exists res w',
     run_schedule (sample_env true (Raise "scanner down") ConfigMissing)
       "nightly" (sample_scheduler false, sample_world)
     = (Ok res, (sample_scheduler false, w')) /\
     RunResults.success res = false /\
     RunResults.errors res = ["Schedule execution failed: scanner down"]).
Proof.
  split; [|split].
  - destruct (run_schedule_advances
                (sample_env true
                   (Ok (sample_scan [{| package_name := "b"; severity := CRITICAL |}]))
                   ConfigMissing)
                (sample_scheduler false) sample_world "nightly" (sample_schedule false)
                eq_refl) as (Hcompletes & _ & _).
    edestruct Hcompletes as (res & w' & Hrun & Hstored & Hlast & Hnext & Hsave).
    + vm_compute. reflexivity.
    + cbn in Hsave. destruct Hsave as (-> & _ & Hsaved).
      eexists _, _, w', _, _. split; [exact Hrun|].
      split; [reflexivity|].
      split; [exact Hstored|split; [exact Hlast | split; [exact Hnext | exact Hsaved]]].
  - destruct (run_schedule_advances
                (sample_env true
                   (Ok (sample_scan [{| package_name := "b"; severity := CRITICAL |}]))
                   ConfigMissing)
                (sample_scheduler false) sample_world "nightly" (sample_schedule false)
                eq_refl) as (_ & Hreports & _).
    edestruct (Hreports (sample_scan [{| package_name := "b"; severity := CRITICAL |}])
                 ConfigMissing)
      as (res & self' & w' & Hrun & Hfailed & Hsummary & _ & Hstored).
    + reflexivity.
    + reflexivity.
    + reflexivity.
    + reflexivity.
    + reflexivity.
    + vm_compute. reflexivity.
    + reflexivity.
    + eexists res, self', w', _, _. split; [exact Hrun|].
      split; [exact Hfailed|]. split; [exact Hsummary|]. split; [reflexivity|].
      split; [exact Hstored | reflexivity].
  - destruct (run_schedule_advances (sample_env true (Raise "scanner down") ConfigMissing)
                (sample_scheduler false) sample_world "nightly" (sample_schedule false)
                eq_refl) as (_ & _ & Hraises).
    edestruct Hraises as (res & Hrun & Hfailed & Herrors & _).
    + vm_compute. reflexivity.
    + exists res. eexists. split; [exact Hrun|]. split; [exact Hfailed | exact Herrors].
Defined.

(** ** ScheduleManager: what a scheduled run hands to the patcher *)

Lemma critical_or_high_iff (v : Vulnerability) :
  critical_or_high v = true <-> severity v = CRITICAL \/ severity v = HIGH.
Proof.
  unfold critical_or_high. destruct (severity v); cbn; split;
    intros H; try discriminate; try reflexivity; auto;
    destruct H as [H | H]; discriminate.
Qed.

Lemma load_config_keeps_arguments (self : AutonomousPatcher) (file : ConfigFile) :
  strategy (_load_config self file) = strategy self /\
  dry_run (_load_config self file) = dry_run self.
Proof. destruct file; split; reflexivity. Qed.

(** The cutoff of scheduled runs is wider than a floor of [CRITICAL]: with
    [min_severity] configured as [critical], a [HIGH] finding is handed to
    the patcher although it is below the floor of the policy engine. *)
Lemma scheduled_cutoff_wider_than_critical_floor :
  min_severity
    (_load_config (sample_patcher false) (ConfigJson None None (Some "critical")))
  = CRITICAL /\
  List.filter critical_or_high [{| package_name := "b"; severity := HIGH |}]
  = [{| package_name := "b"; severity := HIGH |}] /\
  passes_cutoff HIGH = true /\
  passes_floor
    (min_severity
       (_load_config (sample_patcher false) (ConfigJson None None (Some "critical"))))
    HIGH = false /\
  _should_patch
    (_load_config (sample_patcher false) (ConfigJson None None (Some "critical")))
    {| package_name := "b"; severity := HIGH |} = false.
Proof. vm_compute. repeat split; reflexivity. Qed.

(** C6 (amended): in a run whose scan reports at least one vulnerability,
    with patching enabled, the block continues as [patch_vulnerabilities]
    called on exactly the findings of severity Critical or High, by a
    patcher built with the schedule's strategy and dry-run flag whatever
    the configuration file holds; the cutoff does not depend on the
    configured floor, and it is narrower than the floor when the floor is
    Medium or lower. *)
Theorem scheduled_patch_input (env : Env) (schedule : SecuritySchedule.t)
    (res : RunResults.t) (self : SecurityScheduler) (w : World)
    (scan_result : ScanResult.t) (file : ConfigFile) :
  let patcher :=
    _load_config
      {| strategy := SecuritySchedule.patch_strategy schedule;
         dry_run := SecuritySchedule.dry_run schedule;
         auto_approve := false;
         whitelist := ∅; blacklist := ∅; min_severity := MEDIUM |}
      file in
  let to_patch := List.filter critical_or_high (ScanResult.vulnerabilities scan_result) in
  SecuritySchedule.scan_enabled schedule = true ->
  SecuritySchedule.patch_enabled schedule = true ->
  env_scan env (log w) = Ok scan_result ->
  0 < ScanResult.vulnerabilities_found scan_result ->
  env_new_patcher env (EvScan :: log w) = Ok file ->
  scan_patch_block env schedule (res, (self, w)) =
    (patch_result <- in_world (patch_vulnerabilities env patcher (Some to_patch)) ;;
     record_patch_result patch_result)
      (RunResults.set_scan_result (Some (scan_summary scan_result)) res,
       (self,
        {| log := EvNewPatcher :: EvScan :: log w;
           _apt_last_updated := _apt_last_updated w |})) /\
  (forall v, In v to_patch <->
             In v (ScanResult.vulnerabilities scan_result) /\
             (severity v = CRITICAL \/ severity v = HIGH)) /\
  strategy patcher = SecuritySchedule.patch_strategy schedule /\
  dry_run patcher = SecuritySchedule.dry_run schedule /\
  (severity_order (min_severity patcher) <= 2 ->
   (forall s, passes_cutoff s = true -> passes_floor (min_severity patcher) s = true) /\
   passes_floor (min_severity patcher) MEDIUM = true /\
   passes_cutoff MEDIUM = false).
Proof.
  intros patcher to_patch Hscan Hpatch Hfound Hsome Hfile.
  split; [|split; [|split; [|split]]].
  - unfold scan_patch_block. rewrite Hscan, Hpatch.
    unfold bind at 1. rewrite in_world_eq.
    unfold scan_all_packages, perform. cbn [fst snd log _apt_last_updated].
    rewrite Hfound. unfold bind at 1, modify_frame at 1. cbn [fst snd].
    apply Z.ltb_lt in Hsome. rewrite Hsome. cbn [andb].
    unfold patch_block. unfold bind at 1. rewrite in_world_eq.
    unfold AutonomousPatcher_init, perform, bind.
    cbn [fst snd log _apt_last_updated]. rewrite Hfile. reflexivity.
  - intros v. subst to_patch. rewrite filter_In, critical_or_high_iff. reflexivity.
  - apply load_config_keeps_arguments.
  - apply load_config_keeps_arguments.
  - intros Hfloor. unfold passes_floor, passes_cutoff, critical_or_high.
    destruct (min_severity patcher); cbn in Hfloor; try lia;
      (split; [intros []; cbn; congruence | split; reflexivity]).
Qed.

Lemma scheduled_patch_input_witness :
  strategy
    (_load_config
       {| strategy := AUTOMATIC; dry_run := false; auto_approve := false;
          whitelist := ∅; blacklist := ∅; min_severity := MEDIUM |}
       (ConfigJson None None (Some "low"))) = AUTOMATIC /\
  passes_floor
    (min_severity
       (_load_config
          {| strategy := AUTOMATIC; dry_run := false; auto_approve := false;
             whitelist := ∅; blacklist := ∅; min_severity := MEDIUM |}
          (ConfigJson None None (Some "low")))) MEDIUM = true.
Proof.
  destruct (scheduled_patch_input
              (sample_env true
                 (Ok (sample_scan [{| package_name := "b"; severity := CRITICAL |}]))
                 (ConfigJson None None (Some "low")))
              (sample_schedule false)
              (initial_results
                 (sample_env true
                    (Ok (sample_scan [{| package_name := "b"; severity := CRITICAL |}]))
                    (ConfigJson None None (Some "low")))
                 "nightly" sample_world)
              (sample_scheduler false) (world_at_try sample_world)
              (sample_scan [{| package_name := "b"; severity := CRITICAL |}])
              (ConfigJson None None (Some "low")))
    as (_ & _ & Hstrategy & _ & Hnarrow).
  - reflexivity.
  - reflexivity.
  - reflexivity.
  - reflexivity.
  - reflexivity.
  - split; [exact Hstrategy|].
    destruct Hnarrow as (_ & Hmedium & _).
    + vm_compute. discriminate.
    + exact Hmedium.
Defined.

(** * Further properties *)

(** ** PolicyEngine *)

(** What [_should_patch] computes, as a proposition. *)
Lemma should_patch_true_iff (self : AutonomousPatcher) (v : Vulnerability) :
  _should_patch self v = true <->
  (package_name v ∉ blacklist self) /\
  ((package_name v ∈ whitelist self) \/
   (severity_order (min_severity self) <= severity_order (severity v) /\
    match strategy self with
    | AUTOMATIC => True
    | CRITICAL_ONLY => severity v = CRITICAL
    | HIGH_AND_ABOVE => severity v = CRITICAL \/ severity v = HIGH
    | MANUAL => False
    end)).
Proof.
  unfold _should_patch.
  destruct (bool_decide_reflect (package_name v ∈ blacklist self)) as [Hbl | Hbl].
  { split; [discriminate | intros [Hn _]; contradiction]. }
  destruct (bool_decide_reflect (package_name v ∈ whitelist self)) as [Hwl | Hwl].
  { split; auto. }
  destruct (Z.ltb_spec (severity_order (severity v)) (severity_order (min_severity self)))
    as [Hlow | Hhigh].
  { split; [discriminate|]. intros [_ [Hin | [Hge _]]]; [contradiction | lia]. }
  destruct (strategy self), (severity v); cbn in *;
    intuition (try discriminate; try congruence; try lia).
Qed.

(** X1: a whitelisted package that is not blacklisted is patched whatever
    its severity, the floor and the strategy, [MANUAL] included. *)
Theorem should_patch_whitelist_overrides
    (st : PatchStrategy) (dr aa : bool) (wl bl : gset string) (floor : Severity)
    (v : Vulnerability) :
  package_name v ∉ bl ->
  package_name v ∈ wl ->
  _should_patch {| strategy := st; dry_run := dr; auto_approve := aa;
                   whitelist := wl; blacklist := bl; min_severity := floor |} v = true.
Proof.
  intros Hbl Hwl. apply should_patch_true_iff. cbn. auto.
Qed.

Lemma should_patch_whitelist_overrides_witness :
  _should_patch {| strategy := MANUAL; dry_run := true; auto_approve := false;
                   whitelist := {["curl"]}; blacklist := {["openssl"]};
                   min_severity := CRITICAL |}
                {| package_name := "curl"; severity := UNKNOWN |} = true.
Proof.
  apply (should_patch_whitelist_overrides MANUAL true false {["curl"]} {["openssl"]}
           CRITICAL {| package_name := "curl"; severity := UNKNOWN |}).
  - refine (bool_decide_unpack _ _). vm_compute. exact I.
  - refine (bool_decide_unpack _ _). vm_compute. exact I.
Defined.

(** X2: under the [MANUAL] strategy a vulnerability is patched exactly
    when its package is whitelisted and not blacklisted. *)
Theorem should_patch_manual (self : AutonomousPatcher) (v : Vulnerability) :
  strategy self = MANUAL ->
  (_should_patch self v = true <->
   package_name v ∈ whitelist self /\ package_name v ∉ blacklist self).
Proof.
  intros Hmanual. rewrite should_patch_true_iff, Hmanual. tauto.
Qed.

Lemma should_patch_manual_witness :
  _should_patch {| strategy := MANUAL; dry_run := true; auto_approve := false;
                   whitelist := ∅; blacklist := ∅; min_severity := UNKNOWN |}
                {| package_name := "curl"; severity := CRITICAL |} = true <->
  "curl" ∈ (∅ : gset string) /\ "curl" ∉ (∅ : gset string).
Proof.
  apply (should_patch_manual
           {| strategy := MANUAL; dry_run := true; auto_approve := false;
              whitelist := ∅; blacklist := ∅; min_severity := UNKNOWN |}
           {| package_name := "curl"; severity := CRITICAL |}).
  reflexivity.
Defined.

(** X3: the decision is monotone in the severity: if a vulnerability is
    patched, one of the same package with a severity ranked at least as
    high is patched too. *)
Theorem should_patch_monotone (self : AutonomousPatcher) (p : string) (s s' : Severity) :
  severity_order s <= severity_order s' ->
  _should_patch self {| package_name := p; severity := s |} = true ->
  _should_patch self {| package_name := p; severity := s' |} = true.
Proof.
  intros Hrank. rewrite !should_patch_true_iff. cbn.
  intros [Hbl [Hwl | [Hfloor Hst]]]; (split; [exact Hbl|]); [left; exact Hwl|].
  right. split; [lia|].
  destruct (strategy self); auto.
  - subst s. destruct s'; cbn in Hrank; try lia; reflexivity.
  - destruct Hst; subst s; destruct s'; cbn in Hrank; try lia; auto.
Qed.

Lemma should_patch_monotone_witness :
  _should_patch (sample_patcher false) {| package_name := "a"; severity := CRITICAL |} = true.
Proof.
  apply (should_patch_monotone (sample_patcher false) "a" MEDIUM CRITICAL).
  - vm_compute. discriminate.
  - vm_compute. reflexivity.
Defined.

(** X4: the strategies are nested: what [CRITICAL_ONLY] patches,
    [HIGH_AND_ABOVE] patches, and what [HIGH_AND_ABOVE] patches,
    [AUTOMATIC] patches, with the same lists and floor. *)
Theorem should_patch_strategies_nested
    (dr aa : bool) (wl bl : gset string) (floor : Severity) (v : Vulnerability) :
  let patcher st :=
    {| strategy := st; dry_run := dr; auto_approve := aa;
       whitelist := wl; blacklist := bl; min_severity := floor |} in
  (_should_patch (patcher CRITICAL_ONLY) v = true ->
   _should_patch (patcher HIGH_AND_ABOVE) v = true) /\
  (_should_patch (patcher HIGH_AND_ABOVE) v = true ->
   _should_patch (patcher AUTOMATIC) v = true) /\
  (_should_patch (patcher MANUAL) v = true ->
   _should_patch (patcher CRITICAL_ONLY) v = true).
Proof.
  intros patcher. subst patcher. cbv beta. rewrite !should_patch_true_iff. cbn.
  repeat split; try tauto.
Qed.

Lemma should_patch_strategies_nested_witness :
  _should_patch {| strategy := HIGH_AND_ABOVE; dry_run := true; auto_approve := false;
                   whitelist := ∅; blacklist := ∅; min_severity := MEDIUM |}
                {| package_name := "a"; severity := CRITICAL |} = true.
Proof.
  apply (proj1 (should_patch_strategies_nested true false ∅ ∅ MEDIUM
                  {| package_name := "a"; severity := CRITICAL |})).
  vm_compute. reflexivity.
Defined.

(** ** The candidate-version lookup *)

Lemma chars_rev_append (s acc : string) :
  list_ascii_of_string (PyStr.rev_append s acc)
  = rev (list_ascii_of_string s) ++ list_ascii_of_string acc.
Proof.
  revert acc. induction s as [|c s IH]; intros acc; cbn.
  - reflexivity.
  - rewrite IH. cbn. rewrite <- app_assoc. reflexivity.
Qed.

Lemma chars_rev (s : string) :
  list_ascii_of_string (PyStr.rev s) = rev (list_ascii_of_string s).
Proof. unfold PyStr.rev. rewrite chars_rev_append. cbn. apply app_nil_r. Qed.

Lemma string_eq_of_chars (s t : string) :
  list_ascii_of_string s = list_ascii_of_string t -> s = t.
Proof.
  intros H. rewrite <- (string_of_list_ascii_of_string s),
    <- (string_of_list_ascii_of_string t), H. reflexivity.
Qed.

Lemma rev_rev_string (s : string) : PyStr.rev (PyStr.rev s) = s.
Proof. apply string_eq_of_chars. rewrite !chars_rev. apply rev_involutive. Qed.

(** [lstrip] drops a prefix made of whitespace. *)
Lemma lstrip_suffix (s : string) :
  exists pre,
    list_ascii_of_string s = pre ++ list_ascii_of_string (PyStr.lstrip s) /\
    Forall (fun c => PyStr.isspace c = true) pre.
Proof.
  induction s as [|c s (pre & IH & Hpre)]; cbn.
  - exists []. split; [reflexivity | constructor].
  - destruct (PyStr.isspace c) eqn:Hc.
    + exists (c :: pre). cbn. rewrite <- IH. split; [reflexivity|].
      constructor; assumption.
    + exists []. split; [reflexivity | constructor].
Qed.

Lemma lstrip_head (s : string) :
  match PyStr.lstrip s with
  | EmptyString => True
  | String c _ => PyStr.isspace c = false
  end.
Proof.
  induction s as [|c s IH]; cbn; [exact I|].
  destruct (PyStr.isspace c) eqn:Hc; [exact IH | exact Hc].
Qed.


Lemma split_pieces_without_separator (sep : ascii) (s : string) :
  Forall (fun piece => ~ occurs sep piece) (PyStr.split sep s).
Proof.
  unfold occurs. induction s as [|c s IH]; cbn.
  - constructor; [intros [] | constructor].
  - destruct (Ascii.eqb c sep) eqn:Hc.
    + constructor; [intros [] | exact IH].
    + apply Ascii.eqb_neq in Hc.
      destruct (PyStr.split sep s) as [|h t].
      * constructor; [|constructor]. cbn. intros [H | []]. congruence.
      * inversion IH as [|? ? Hh Ht]; subst. constructor; [|exact Ht].
        cbn. intros [H | H]; [congruence | exact (Hh H)].
Qed.

Lemma strip_occurs (c : ascii) (s : string) :
  occurs c (PyStr.strip s) -> occurs c s.
Proof.
  unfold occurs, PyStr.strip. rewrite chars_rev, <- in_rev.
  intros H.
  destruct (lstrip_suffix (PyStr.rev (PyStr.lstrip s))) as (pre & Heq & _).
  assert (H1 : In c (list_ascii_of_string (PyStr.rev (PyStr.lstrip s)))).
  { rewrite Heq. apply in_or_app. right. exact H. }
  rewrite chars_rev, <- in_rev in H1.
  destruct (lstrip_suffix s) as (pre' & Heq' & _).
  rewrite Heq'. apply in_or_app. right. exact H1.
Qed.

Lemma strip_first_char (s : string) (c : ascii) :
  first_char (PyStr.strip s) = Some c -> PyStr.isspace c = false.
Proof.
  unfold PyStr.strip. intros Hfirst.
  destruct (lstrip_suffix (PyStr.rev (PyStr.lstrip s))) as (pre & Heq & _).
  rewrite chars_rev in Heq.
  apply (f_equal (@rev ascii)) in Heq. rewrite rev_involutive, rev_app_distr in Heq.
  rewrite <- chars_rev in Heq.
  destruct (PyStr.rev (PyStr.lstrip (PyStr.rev (PyStr.lstrip s)))) as [|c' rest];
    [discriminate|].
  injection Hfirst as ->.
  pose proof (lstrip_head s) as Hhead.
  destruct (PyStr.lstrip s) as [|c0 t]; [discriminate|].
  cbn in Heq. injection Heq as -> _. exact Hhead.
Qed.

Lemma strip_last_char (s : string) (c : ascii) :
  last_char (PyStr.strip s) = Some c -> PyStr.isspace c = false.
Proof.
  unfold last_char, PyStr.strip. rewrite rev_rev_string. intros Hfirst.
  pose proof (lstrip_head (PyStr.rev (PyStr.lstrip s))) as Hhead.
  destruct (PyStr.lstrip (PyStr.rev (PyStr.lstrip s))); [discriminate|].
  injection Hfirst as ->. exact Hhead.
Qed.

(** The shape of a version returned by the scan of the [apt-cache policy]
    output. *)
Lemma find_candidate_version (lines : list string) (v : string) :
  find_candidate lines = Some v ->
  PyStr.truthy v = true /\
  v <> "(none)" /\
  ~ occurs PyStr.colon v /\
  (forall c, first_char v = Some c -> PyStr.isspace c = false) /\
  (forall c, last_char v = Some c -> PyStr.isspace c = false).
Proof.
  induction lines as [|line rest IH]; cbn; [discriminate|].
  destruct (PyStr.contains "Candidate:" line); [|exact IH].
  pose proof (split_pieces_without_separator PyStr.colon line) as Hpieces.
  destruct (PyStr.split PyStr.colon line) as [|part0 [|part1 parts]]; try exact IH.
  destruct (PyStr.truthy (PyStr.strip part1)) eqn:Htruthy; [|exact IH].
  destruct (String.eqb (PyStr.strip part1) "(none)") eqn:Hnone; [exact IH|].
  cbn. intros [= <-].
  split; [exact Htruthy|]. split; [apply String.eqb_neq; exact Hnone|].
  split.
  - intros Hocc. apply strip_occurs in Hocc.
    inversion Hpieces as [|? ? _ Hrest]; subst.
    inversion Hrest as [|? ? Hpart _]; subst. exact (Hpart Hocc).
  - split; [apply strip_first_char | apply strip_last_char].
Qed.

(** X5: a candidate version found in the output of [apt-cache policy] is
    never empty and never the literal [(none)]; it contains no colon (an
    epoch is cut off at its colon) and neither starts nor ends with
    whitespace. *)
Theorem find_candidate_shape (lines : list string) (v : string) :
  find_candidate lines = Some v ->
  v <> "" /\
  v <> "(none)" /\
  ~ occurs PyStr.colon v /\
  (forall c, first_char v = Some c -> PyStr.isspace c = false) /\
  (forall c, last_char v = Some c -> PyStr.isspace c = false).
Proof.
  intros Hfound. destruct (find_candidate_version lines v Hfound) as (Ht & Hrest).
  split; [|exact Hrest].
  intros ->. discriminate.
Qed.

Lemma find_candidate_shape_witness :
  find_candidate ["  Installed: 1:1.0"; "  Candidate: 1:2.0 "] = Some "1" /\
  "1" <> "" /\ ~ occurs PyStr.colon "1".
Proof.
  split; [reflexivity|].
  destruct (find_candidate_shape ["  Installed: 1:1.0"; "  Candidate: 1:2.0 "] "1")
    as (Hne & _ & Hcolon & _).
  - reflexivity.
  - split; assumption.
Defined.

(** X6: the lookup of a candidate version runs exactly the command
    [apt-cache policy <package>], never raises and leaves the shared
    timestamp alone; whenever the command does not exit with status 0
    (non-zero exit, timeout, spawn failure) it reports no update, whatever
    the command printed. *)
Theorem check_package_update_available_effect (env : Env) (p : string) (w : World) :
  exists o,
    _check_package_update_available env p w =
      (Ok o, {| log := EvRun (policy_cmd p) :: log w;
                _apt_last_updated := _apt_last_updated w |}) /\
    match env_subprocess env (log w) (policy_cmd p) with
    | Exited returncode stdout _ =>
        if returncode =? 0
        then o = find_candidate (PyStr.split PyStr.newline stdout)
        else o = None
    | TimeoutExpired => o = None
    | SpawnError _ => o = None
    end.
Proof.
  unfold _check_package_update_available, bind, _run_command, perform, policy_cmd. cbn.
  destruct (env_subprocess env (log w) _) as [returncode out err| |e]; cbn.
  - destruct (returncode =? 0); cbn; eexists; split; reflexivity.
  - eexists; split; reflexivity.
  - eexists; split; reflexivity.
Qed.

(** ** PatchPlanner: the shape of a plan *)

Lemma check_package_update_available_eq (env : Env) (p : string) (w : World) :
  _check_package_update_available env p w =
    (Ok (lookup_result env (log w) p),
     {| log := EvRun (policy_cmd p) :: log w; _apt_last_updated := _apt_last_updated w |}).
Proof.
  unfold _check_package_update_available, bind, _run_command, perform, policy_cmd,
    lookup_result. cbn.
  destruct (env_subprocess env (log w) _) as [returncode out err| |e]; cbn;
    [destruct (returncode =? 0)|..]; reflexivity.
Qed.

Lemma lookup_result_usable (env : Env) (l : list Event) (p v : string) :
  lookup_result env l p = Some v -> usable_version v.
Proof.
  unfold lookup_result.
  destruct (env_subprocess env l (policy_cmd p)) as [returncode out err| |e];
    try discriminate.
  destruct (returncode =? 0); [|discriminate].
  intros H. destruct (find_candidate_version _ _ H) as (Ht & Hn & Hc & _).
  repeat split; assumption.
Qed.

Lemma dict_get_in_keys {V : Type} (d : dict V) (k : string) :
  dict_contains d k = true <-> In k (dict_keys d).
Proof.
  unfold dict_contains. induction d as [|[k' v'] d IH]; cbn.
  - split; [discriminate | intros []].
  - destruct (String.eqb_spec k' k) as [-> | Hne].
    + split; auto.
    + rewrite IH. split; [auto | intros [H | H]; [contradiction | exact H]].
Qed.

Lemma dict_set_keys_present {V : Type} (d : dict V) (k : string) (v : V) :
  In k (dict_keys d) -> dict_keys (dict_set d k v) = dict_keys d.
Proof.
  induction d as [|[k' v'] d IH]; cbn; [intros []|].
  destruct (String.eqb_spec k' k) as [-> | Hne]; [reflexivity|].
  intros [H | H]; [contradiction|]. cbn. f_equal. exact (IH H).
Qed.

Lemma dict_set_keys_absent {V : Type} (d : dict V) (k : string) (v : V) :
  ~ In k (dict_keys d) -> dict_keys (dict_set d k v) = dict_keys d ++ [k].
Proof.
  induction d as [|[k' v'] d IH]; cbn; [reflexivity|].
  destruct (String.eqb_spec k' k) as [-> | Hne]; [intros H; exfalso; auto|].
  intros H. cbn. f_equal. apply IH. auto.
Qed.

Lemma dict_set_keys_in {V : Type} (d : dict V) (k : string) (v : V) (x : string) :
  In x (dict_keys (dict_set d k v)) <-> x = k \/ In x (dict_keys d).
Proof.
  destruct (in_dec string_dec k (dict_keys d)) as [Hin | Hout].
  - rewrite (dict_set_keys_present d k v Hin). split; [auto|].
    intros [-> | H]; assumption.
  - rewrite (dict_set_keys_absent d k v Hout), in_app_iff. cbn. intuition.
Qed.

Lemma dict_set_keys_NoDup {V : Type} (d : dict V) (k : string) (v : V) :
  List.NoDup (dict_keys d) -> List.NoDup (dict_keys (dict_set d k v)).
Proof.
  intros Hd. destruct (in_dec string_dec k (dict_keys d)) as [Hin | Hout].
  - rewrite (dict_set_keys_present d k v Hin). exact Hd.
  - rewrite (dict_set_keys_absent d k v Hout).
    apply NoDup_ListNoDup, NoDup_app. repeat split.
    + apply NoDup_ListNoDup. exact Hd.
    + intros x Hx Hx'. apply list_elem_of_In in Hx, Hx'. cbn in Hx'.
      destruct Hx' as [<- | []]. exact (Hout Hx).
    + apply NoDup_singleton.
Qed.

Lemma dict_set_values {V : Type} (P : V -> Prop) (d : dict V) (k : string) (v : V) :
  List.Forall P (dict_values d) -> P v -> List.Forall P (dict_values (dict_set d k v)).
Proof.
  intros Hd Hv. induction d as [|[k' v'] d IH]; cbn.
  - constructor; [exact Hv | constructor].
  - inversion Hd as [|? ? Hv' Hd']; subst.
    destruct (String.eqb k' k); cbn; constructor; auto.
Qed.

(** The lookup loop: one lookup per item in order, nothing else; it keeps
    the keys distinct, only stores usable versions, and keeps the reboot
    flag in step with the keys. *)
Lemma check_updates_run (env : Env) (items : list (string * list Vulnerability)) :
  forall (acc : dict string * bool) (w : World),
  exists acc',
    check_updates env items acc w =
      (Ok acc',
       {| log := lookup_events (map fst items) ++ log w;
          _apt_last_updated := _apt_last_updated w |}) /\
    (List.NoDup (dict_keys acc.1) -> List.NoDup (dict_keys acc'.1)) /\
    (List.Forall usable_version (dict_values acc.1) ->
     List.Forall usable_version (dict_values acc'.1)) /\
    (reboot_agrees acc.2 (dict_keys acc.1) -> reboot_agrees acc'.2 (dict_keys acc'.1)) /\
    ((forall l p, lookup_result env l p = None) -> acc' = acc).
Proof.
  induction items as [|[p vulns] items IH]; intros acc w.
  - exists acc. cbn. destruct w. split; [reflexivity|]. tauto.
  - cbn [check_updates]. unfold bind at 1. rewrite check_package_update_available_eq.
    assert (Hlog : forall l : list Event,
               lookup_events (map fst items) ++ EvRun (policy_cmd p) :: l
               = lookup_events (map fst ((p, vulns) :: items)) ++ l).
    { intros l. unfold lookup_events. cbn. rewrite <- app_assoc. reflexivity. }
    destruct (lookup_result env (log w) p) as [v|] eqn:Hlookup.
    + pose proof (lookup_result_usable env (log w) p v Hlookup) as Husable.
      destruct Husable as (Htruthy & Husable). rewrite Htruthy.
      match goal with |- context [check_updates env items ?a ?w1] =>
        destruct (IH a w1) as (acc' & -> & Hnodup & Hvalues & Hreboot & Hnone) end.
      exists acc'. cbn [log _apt_last_updated fst snd] in *. rewrite Hlog.
      split; [reflexivity|]. refine (conj _ (conj _ (conj _ _))).
      * intros Hd. apply Hnodup, dict_set_keys_NoDup, Hd.
      * intros Hd. apply Hvalues, dict_set_values; [exact Hd|].
        split; [exact Htruthy | exact Husable].
      * intros Hd. apply Hreboot. unfold reboot_agrees in *.
        fold (kernel_package p).
        destruct (kernel_package p) eqn:Hkernel.
        -- split; [|reflexivity]. intros _. exists p. split; [|exact Hkernel].
           apply dict_set_keys_in. left. reflexivity.
        -- rewrite Hd. split.
           ++ intros (k & Hk & Hkk). exists k. split; [|exact Hkk].
              apply dict_set_keys_in. right. exact Hk.
           ++ intros (k & Hk & Hkk). apply dict_set_keys_in in Hk.
              destruct Hk as [-> | Hk]; [congruence|]. exists k. auto.
      * intros Hall. rewrite Hall in Hlookup. discriminate.
    + destruct (IH acc {| log := EvRun (policy_cmd p) :: log w;
                          _apt_last_updated := _apt_last_updated w |})
        as (acc' & -> & Hrest).
      exists acc'. cbn [log _apt_last_updated]. rewrite Hlog.
      split; [reflexivity | exact Hrest].
Qed.

Lemma group_step_keys_eq (d : dict (list Vulnerability)) (v : Vulnerability) :
  dict_keys (group_step d v) =
    if bool_decide (package_name v ∈ dict_keys d) then dict_keys d
    else dict_keys d ++ [package_name v].
Proof.
  unfold group_step.
  destruct (bool_decide_reflect (package_name v ∈ dict_keys d)) as [Hin | Hout].
  - apply list_elem_of_In in Hin.
    pose proof (proj2 (dict_get_in_keys d (package_name v)) Hin) as Hc.
    rewrite Hc. cbn [negb]. unfold dict_contains in Hc.
    destruct (dict_get d (package_name v)); [|discriminate].
    apply dict_set_keys_present. exact Hin.
  - rewrite list_elem_of_In in Hout.
    destruct (dict_contains d (package_name v)) eqn:Hc.
    { apply dict_get_in_keys in Hc. contradiction. }
    cbn [negb]. rewrite dict_get_set_same.
    rewrite dict_set_keys_present.
    + apply dict_set_keys_absent. exact Hout.
    + apply dict_set_keys_in. left. reflexivity.
Qed.

Lemma group_by_package_keys_from_eq (vulns : list Vulnerability) :
  forall d : dict (list Vulnerability),
    dict_keys (fold_left group_step vulns d) =
      fold_left (fun seen x => if bool_decide (x ∈ seen) then seen else seen ++ [x])
                (map package_name vulns) (dict_keys d).
Proof.
  induction vulns as [|v vulns IH]; intros d; cbn [fold_left map]; [reflexivity|].
  rewrite IH, group_step_keys_eq. reflexivity.
Qed.

(** The grouping visits each package once, in the order of first
    occurrence. *)
Lemma group_by_package_keys_eq (vulns : list Vulnerability) :
  dict_keys (group_by_package vulns) = distinct_in_order (map package_name vulns).
Proof. exact (group_by_package_keys_from_eq vulns []). Qed.

(** The world after the single entry into the refresh gate that planning
    makes. *)
Lemma ensure_apt_updated_log (env : Env) (w : World) :
  exists b w1,
    ensure_apt_updated env false w = (Ok b, w1) /\
    log w1 =
      (if cache_fresh false (_apt_last_updated w) (env_now env (log w))
       then [EvNow]
       else [EvSetAptLastUpdated (env_now env (log w)); EvRun apt_get_update; EvNow])
      ++ log w.
Proof.
  destruct (cache_fresh false (_apt_last_updated w) (env_now env (log w))) eqn:Hgate.
  - rewrite (ensure_apt_updated_skips env false w Hgate). eexists _, _.
    split; reflexivity.
  - rewrite (ensure_apt_updated_refreshes env false w Hgate). eexists _, _.
    split; reflexivity.
Qed.

(** Planning with something to patch: one entry into the gate, the lookup
    loop over the groups, and the plan built from its result. *)
Lemma create_patch_plan_run (env : Env) (self : AutonomousPatcher)
    (vulns : list Vulnerability) (w : World) :
  List.filter (_should_patch self) vulns <> [] ->
  exists b w1 acc,
    ensure_apt_updated env false w = (Ok b, w1) /\
    check_updates env (group_by_package (List.filter (_should_patch self) vulns))
      ([], false) w1
    = (Ok acc,
       {| log := lookup_events
                   (distinct_in_order
                      (map package_name (List.filter (_should_patch self) vulns)))
                 ++ log w1;
          _apt_last_updated := _apt_last_updated w1 |}) /\
    create_patch_plan env self (Some vulns) w =
      (Ok {| vulnerabilities := List.filter (_should_patch self) vulns;
             packages_to_update := acc.1;
             estimated_duration_minutes := Z.of_nat (length acc.1) * 1;
             requires_reboot := acc.2;
             rollback_available := true |},
       {| log := lookup_events
                   (distinct_in_order
                      (map package_name (List.filter (_should_patch self) vulns)))
                 ++ log w1;
          _apt_last_updated := _apt_last_updated w1 |}) /\
    List.NoDup (dict_keys acc.1) /\
    List.Forall usable_version (dict_values acc.1) /\
    reboot_agrees acc.2 (dict_keys acc.1) /\
    ((forall l p, lookup_result env l p = None) -> acc = ([], false)).
Proof.
  intros Hne.
  destruct (ensure_apt_updated_log env w) as (b & w1 & Hgate & _).
  destruct (check_updates_run env
              (group_by_package (List.filter (_should_patch self) vulns)) ([], false) w1)
    as (acc & Hloop & Hnodup & Hvalues & Hreboot & Hnone).
  fold (dict_keys (group_by_package (List.filter (_should_patch self) vulns))) in Hloop.
  rewrite group_by_package_keys_eq in Hloop.
  exists b, w1, acc. split; [exact Hgate|]. split; [exact Hloop|].
  split.
  - unfold create_patch_plan. unfold bind at 1, ret at 1.
    destruct (List.filter (_should_patch self) vulns) as [|v to_patch]; [congruence|].
    unfold bind at 1. rewrite Hgate. unfold bind at 1. unfold dict_items.
    rewrite Hloop. reflexivity.
  - split; [apply Hnodup; constructor|]. split; [apply Hvalues; constructor|].
    split; [|exact Hnone].
    apply Hreboot. cbn. split; [discriminate | intros (k & [] & _)].
Qed.

(** X7: in a plan built from a given list of vulnerabilities, the reboot
    flag is set exactly when a package of [packages_to_update] has
    [linux-image] or [linux-headers] in its name, the estimated duration is
    the number of packages to update, and rollback is reported
    available. *)
Theorem create_patch_plan_flags (env : Env) (self : AutonomousPatcher)
    (vulns : list Vulnerability) (w : World) :
  exists plan w',
    create_patch_plan env self (Some vulns) w = (Ok plan, w') /\
    (requires_reboot plan = true <->
     exists k, In k (dict_keys (packages_to_update plan)) /\ kernel_package k = true) /\
    estimated_duration_minutes plan = Z.of_nat (length (packages_to_update plan)) /\
    rollback_available plan = true.
Proof.
  destruct (List.filter (_should_patch self) vulns) as [|v to_patch] eqn:Hfilter.
  - exists empty_plan, w. unfold create_patch_plan, bind, ret. rewrite Hfilter.
    split; [reflexivity|]. cbn. repeat split; try discriminate.
    intros (k & [] & _).
  - destruct (create_patch_plan_run env self vulns w) as
      (b & w1 & acc & _ & _ & Hplan & _ & _ & Hreboot & _).
    { rewrite Hfilter. discriminate. }
    rewrite Hplan. eexists _, _. split; [reflexivity|]. cbn.
    split; [exact Hreboot|]. split; [lia | reflexivity].
Qed.

(** X8: the packages of a plan built by [create_patch_plan] are pairwise
    distinct, and every target version is non-empty, is not [(none)] and
    has no colon; so every install of such a plan is pinned to its
    version. *)
Theorem create_patch_plan_versions (env : Env) (self : AutonomousPatcher)
    (vulns : list Vulnerability) (w : World) :
  exists plan w',
    create_patch_plan env self (Some vulns) w = (Ok plan, w') /\
    List.NoDup (dict_keys (packages_to_update plan)) /\
    (forall k v, In (k, v) (packages_to_update plan) ->
       v <> "" /\ v <> "(none)" /\ ~ occurs PyStr.colon v /\
       install_cmd k v = ["apt-get"; "install"; "-y"; k +:+ "=" +:+ v]).
Proof.
  destruct (List.filter (_should_patch self) vulns) as [|v0 to_patch] eqn:Hfilter.
  - exists empty_plan, w. unfold create_patch_plan, bind, ret. rewrite Hfilter.
    split; [reflexivity|]. cbn. split; [constructor | intros k v []].
  - destruct (create_patch_plan_run env self vulns w) as
      (b & w1 & acc & _ & _ & Hplan & Hnodup & Hvalues & _).
    { rewrite Hfilter. discriminate. }
    rewrite Hplan. eexists _, _. split; [reflexivity|]. cbn.
    split; [exact Hnodup|].
    intros k v Hin.
    assert (Hv : usable_version v).
    { rewrite List.Forall_forall in Hvalues. apply Hvalues.
      unfold dict_values. apply in_map_iff. exists (k, v). auto. }
    destruct Hv as (Htruthy & Hnone & Hcolon).
    split; [intros ->; discriminate|]. split; [exact Hnone|]. split; [exact Hcolon|].
    unfold install_cmd. rewrite Htruthy. reflexivity.
Qed.

Lemma lookup_events_cons (p : string) (packages : list string) (l : list Event) :
  lookup_events (p :: packages) ++ l = lookup_events packages ++ EvRun (policy_cmd p) :: l.
Proof. unfold lookup_events. cbn. rewrite <- app_assoc. reflexivity. Qed.

Lemma commands_run_lookup_events (packages : list string) (l : list Event) :
  commands_run (lookup_events packages ++ l) = commands_run l ++ map policy_cmd packages.
Proof.
  revert l. induction packages as [|p packages IH]; intros l.
  - cbn. rewrite app_nil_r. reflexivity.
  - rewrite lookup_events_cons, IH, commands_run_cons. cbn.
    rewrite <- app_assoc. reflexivity.
Qed.

(** X9: planning with something to patch enters the refresh gate once and
    then looks up one candidate per distinct package, in the order in
    which the packages first occur among the vulnerabilities to patch; it
    runs no other command. *)
Theorem create_patch_plan_commands (env : Env) (self : AutonomousPatcher)
    (vulns : list Vulnerability) (w : World) :
  List.filter (_should_patch self) vulns <> [] ->
  commands_run (log (create_patch_plan env self (Some vulns) w).2) =
    commands_run (log w)
    ++ (if cache_fresh false (_apt_last_updated w) (env_now env (log w))
        then [] else [apt_get_update])
    ++ map policy_cmd
         (distinct_in_order (map package_name (List.filter (_should_patch self) vulns))).
Proof.
  intros Hne.
  destruct (create_patch_plan_run env self vulns w Hne) as
    (b & w1 & acc & Hgate & _ & Hplan & _).
  destruct (ensure_apt_updated_log env w) as (b' & w1' & Hgate' & Hlog).
  rewrite Hgate in Hgate'. injection Hgate' as _ <-.
  rewrite Hplan. cbn [snd log]. rewrite commands_run_lookup_events, Hlog.
  destruct (cache_fresh false (_apt_last_updated w) (env_now env (log w))); cbn [app].
  - rewrite commands_run_cons. cbn [is_run]. rewrite app_nil_r. reflexivity.
  - rewrite !commands_run_cons. cbn [is_run]. rewrite !app_nil_r, <- app_assoc.
    reflexivity.
Qed.

(** ** PatchExecutor: results of every execution *)

(** The install loop accounts for every package: the updated ones form a
    sublist of the packages in order, and every other package left one
    error. *)
Lemma install_loop_partition (env : Env) (items : list (string * string)) :
  forall (f : Frame) (w : World),
  exists errs ups,
    for_each items (install_one env) (f, w) =
      (Ok tt,
       ({| f_errors := f_errors f ++ errs;
           f_updated_packages := f_updated_packages f ++ ups |},
        {| log := install_events items ++ log w;
           _apt_last_updated := _apt_last_updated w |})) /\
    sublist ups (map fst items) /\
    (length errs + length ups = length items)%nat.
Proof.
  induction items as [|item items IH]; intros f w.
  - exists [], []. cbn. rewrite !app_nil_r. destruct f, w.
    split; [reflexivity|]. split; [constructor | reflexivity].
  - cbn [for_each]. unfold bind at 1.
    destruct ((command_result (env_subprocess env (log w) (install_cmd item.1 item.2))).1.1)
      eqn:Hrun.
    + rewrite (install_one_ok env item f w Hrun).
      match goal with |- context [for_each items _ (?f1, ?w1)] =>
        destruct (IH f1 w1) as (errs & ups & -> & Hsub & Hlen) end.
      exists errs, (item.1 :: ups).
      cbn [f_errors f_updated_packages log _apt_last_updated].
      rewrite install_events_cons, <- app_assoc.
      split; [reflexivity|]. split; [cbn; constructor; exact Hsub | cbn; lia].
    + rewrite (install_one_fails env item f w Hrun).
      match goal with |- context [for_each items _ (?f1, ?w1)] =>
        destruct (IH f1 w1) as (errs & ups & -> & Hsub & Hlen) end.
      eexists (_ :: errs), ups.
      cbn [f_errors f_updated_packages log _apt_last_updated].
      rewrite install_events_cons, <- app_assoc.
      split; [reflexivity|]. split; [cbn; constructor; exact Hsub | cbn; lia].
Qed.

(** Every way a real execution can end: it completes and reports what the
    loop collected; or an update of the history record raised and the
    handler reports that and nothing as updated; or the handler's own
    update raised too. *)
Lemma apply_real_outcome (env : Env) (self : AutonomousPatcher) (plan : PatchPlan)
    (w : World) (install_id : string) :
  dry_run self = false ->
  packages_to_update plan <> [] ->
  history_opens env plan w install_id ->
  exists (first errs ups : list string),
    (first = [] /\ run_ok env (log_at_refresh env plan w) apt_get_update \/
     first = ["Failed to update package list: "
              +:+ run_stderr env (log_at_refresh env plan w) apt_get_update] /\
     run_fails env (log_at_refresh env plan w) apt_get_update) /\
    sublist ups (dict_keys (packages_to_update plan)) /\
    (length errs + length ups = length (packages_to_update plan))%nat /\
    ((exists d w',
        apply_patch_plan env self plan w =
          (Ok {| patch_id := "patch_" +:+ PyStr.of_int (env_time env (log w));
                 timestamp := env_isoformat env (env_now env (EvTime :: log w));
                 vulnerabilities_patched := length (vulnerabilities plan);
                 packages_updated := ups;
                 success := match first ++ errs with [] => true | _ :: _ => false end;
                 errors := first ++ errs;
                 rollback_id := Some install_id;
                 duration_seconds := Some d |}, w')) \/
     (exists e l st msg w',
        env_update_installation env l install_id st msg = Raise e /\
        apply_patch_plan env self plan w =
          (Ok {| patch_id := "patch_" +:+ PyStr.of_int (env_time env (log w));
                 timestamp := env_isoformat env (env_now env (EvTime :: log w));
                 vulnerabilities_patched := 0;
                 packages_updated := [];
                 success := false;
                 errors := (first ++ errs) ++ ["Patch operation failed: " +:+ e];
                 rollback_id := Some install_id;
                 duration_seconds := None |}, w')) \/
     (exists e l st msg w',
        env_update_installation env l install_id st msg = Raise e /\
        apply_patch_plan env self plan w = (Raise e, w'))).
Proof.
  intros Hreal Hne Hopen.
  remember (apply_patch_plan env self plan w) as out eqn:Hout.
  rewrite (apply_patch_plan_real env self plan w install_id Hreal Hne Hopen) in Hout.
  unfold with_frame, try_except, apply_try in Hout. unfold bind at 1 in Hout.
  unfold lift at 1 in Hout. cbn [fst snd] in Hout. rewrite run_command_eq in Hout.
  cbn [log _apt_last_updated] in Hout.
  unfold run_ok, run_fails, run_stderr.
  destruct (command_result (env_subprocess env (log_at_refresh env plan w) apt_get_update))
    as [[ok out1] err].
  exists (if ok then [] else ["Failed to update package list: " +:+ err]).
  unfold bind at 1 in Hout.
  assert (Hfirst :
    (if negb ok
     then errors_append ("Failed to update package list: " +:+ err)
     else ret tt)
      ({| f_errors := []; f_updated_packages := [] |},
       {| log := EvRun apt_get_update :: log_at_refresh env plan w;
          _apt_last_updated := _apt_last_updated w |})
    = (Ok tt,
       ({| f_errors := if ok then [] else ["Failed to update package list: " +:+ err];
           f_updated_packages := [] |},
        {| log := EvRun apt_get_update :: log_at_refresh env plan w;
           _apt_last_updated := _apt_last_updated w |}))).
  { destruct ok; reflexivity. }
  cbn [fst snd] in *. rewrite Hfirst in Hout. clear Hfirst.
  unfold bind at 1 in Hout.
  match type of Hout with context [for_each ?items _ (?f1, ?w1)] =>
    destruct (install_loop_partition env items f1 w1) as (errs & ups & Hloop & Hsub & Hlen)
  end.
  unfold dict_items in *. rewrite Hloop in Hout. clear Hloop.
  cbn [f_errors f_updated_packages log _apt_last_updated app] in *.
  exists errs, ups.
  split; [destruct ok; cbn; auto|]. split; [exact Hsub|]. split; [exact Hlen|].
  unfold bind at 1, get_frame at 1 in Hout. cbn [fst snd f_errors] in Hout.
  unfold bind at 1 in Hout. unfold bind at 1 in Hout.
  set (all := (if ok then [] else ["Failed to update package list: " +:+ err]) ++ errs)
    in *.
  destruct all as [|e0 es];
    unfold lift, update_installation, apply_except, bind, errors_append, modify_frame,
      get_frame, datetime_now, ret, perform in Hout;
    cbn -[install_events] in Hout;
    match type of Hout with
    | context [env_update_installation ?e ?l ?i ?s ?m] =>
        destruct (env_update_installation e l i s m) as [[]|exn] eqn:Hupd;
        cbn -[install_events] in Hout
    end.
  1,3: left; subst out; eexists _, _; reflexivity.
  all: match type of Hout with
       | context [env_update_installation ?e ?l ?i ?s ?m] =>
           destruct (env_update_installation e l i s m) as [[]|exn'] eqn:Hupd';
           cbn -[install_events] in Hout
       end.
  1,3: right; left; subst out; eexists _, _, _, _, _; split; [exact Hupd | reflexivity].
  all: right; right; subst out; eexists _, _, _, _, _; split; [exact Hupd' | reflexivity].
Qed.

Lemma apply_patch_plan_empty (env : Env) (self : AutonomousPatcher) (plan : PatchPlan)
    (w : World) :
  packages_to_update plan = [] ->
  apply_patch_plan env self plan w =
    (Ok {| patch_id := "patch_" +:+ PyStr.of_int (env_time env (log w));
           timestamp := env_isoformat env (env_now env (EvTime :: log w));
           vulnerabilities_patched := 0;
           packages_updated := [];
           success := true;
           errors := [];
           rollback_id := None;
           duration_seconds := None |},
     {| log := EvNow :: EvTime :: log w; _apt_last_updated := _apt_last_updated w |}).
Proof.
  intros Hempty. unfold apply_patch_plan, bind, time_time, datetime_now, perform. cbn.
  rewrite Hempty. reflexivity.
Qed.

Lemma apply_patch_plan_dry (env : Env) (self : AutonomousPatcher) (plan : PatchPlan)
    (w : World) :
  packages_to_update plan <> [] ->
  dry_run self = true ->
  apply_patch_plan env self plan w =
    (Ok {| patch_id := "patch_" +:+ PyStr.of_int (env_time env (log w));
           timestamp := env_isoformat env (env_now env (EvTime :: log w));
           vulnerabilities_patched := length (vulnerabilities plan);
           packages_updated := dict_keys (packages_to_update plan);
           success := true;
           errors := [];
           rollback_id := None;
           duration_seconds := None |},
     {| log := EvNow :: EvTime :: log w; _apt_last_updated := _apt_last_updated w |}).
Proof.
  intros Hne Hdry. unfold apply_patch_plan, bind, time_time, datetime_now, perform. cbn.
  destruct (packages_to_update plan) as [|item items]; [congruence|].
  cbn. rewrite Hdry. reflexivity.
Qed.

Lemma apply_patch_plan_history_closed (env : Env) (self : AutonomousPatcher)
    (plan : PatchPlan) (w : World) (e : string) :
  dry_run self = false ->
  packages_to_update plan <> [] ->
  env_record_installation env (EvNow :: EvTime :: log w) UPGRADE
    (dict_keys (packages_to_update plan))
    (announced_commands (dict_keys (packages_to_update plan)))
    (env_now env (EvTime :: log w)) = Raise e ->
  apply_patch_plan env self plan w =
    (Raise e, {| log := log_at_refresh env plan w;
                 _apt_last_updated := _apt_last_updated w |}).
Proof.
  intros Hreal Hne Hclosed.
  unfold apply_patch_plan, bind, time_time, datetime_now, record_installation, perform.
  cbn. rewrite Hreal.
  destruct (packages_to_update plan) as [|item items] eqn:Hitems; [congruence|].
  cbn. unfold announced_commands in Hclosed. cbn in Hclosed. rewrite Hclosed.
  unfold log_at_refresh, record_event, announced_commands. rewrite Hitems. reflexivity.
Qed.

(** What every result of [apply_patch_plan] satisfies. *)
Lemma apply_patch_plan_result (env : Env) (self : AutonomousPatcher) (plan : PatchPlan)
    (w : World) (r : PatchResult) (w' : World) :
  apply_patch_plan env self plan w = (Ok r, w') ->
  (success r = true <-> errors r = []) /\
  (rollback_id r = None <-> packages_to_update plan = [] \/ dry_run self = true) /\
  sublist (packages_updated r) (dict_keys (packages_to_update plan)).
Proof.
  intros Hrun.
  destruct (packages_to_update plan) as [|item items] eqn:Hitems.
  { rewrite (apply_patch_plan_empty env self plan w Hitems) in Hrun.
    injection Hrun as <- _. cbn. split; [tauto|]. split; [tauto | apply sublist_nil_l]. }
  assert (Hne : packages_to_update plan <> []) by (rewrite Hitems; discriminate).
  destruct (dry_run self) eqn:Hdry.
  { rewrite (apply_patch_plan_dry env self plan w Hne Hdry) in Hrun.
    injection Hrun as <- _. cbn. rewrite Hitems.
    split; [tauto|]. split; [tauto | reflexivity]. }
  destruct (env_record_installation env (EvNow :: EvTime :: log w) UPGRADE
              (dict_keys (packages_to_update plan))
              (announced_commands (dict_keys (packages_to_update plan)))
              (env_now env (EvTime :: log w))) as [install_id|e] eqn:Hopen.
  2: { rewrite (apply_patch_plan_history_closed env self plan w e Hdry Hne Hopen) in Hrun.
       discriminate. }
  destruct (apply_real_outcome env self plan w install_id Hdry Hne Hopen)
    as (first & errs & ups & _ & Hsub & _ & Hcases).
  rewrite Hitems in *.
  destruct Hcases as [(d & w1 & Heq) | [(e & l & st & msg & w1 & _ & Heq)
                                       | (e & l & st & msg & w1 & _ & Heq)]];
    rewrite Heq in Hrun; try discriminate; injection Hrun as <- _; cbn.
  - split; [destruct (first ++ errs); split; auto; discriminate|].
    split; [|exact Hsub]. split; [discriminate | intros [H | H]; discriminate].
  - split; [split; [discriminate | intros H; destruct (first ++ errs); discriminate]|].
    split; [|apply sublist_nil_l]. split; [discriminate | intros [H | H]; discriminate].
Qed.

(** X11: a result returned by [apply_patch_plan] reports success exactly
    when it carries no error, and the packages it lists as updated are
    packages of the plan, in the order of the plan. *)
Theorem apply_patch_plan_success_iff_no_error (env : Env) (self : AutonomousPatcher)
    (plan : PatchPlan) (w : World) (r : PatchResult) (w' : World) :
  apply_patch_plan env self plan w = (Ok r, w') ->
  (success r = true <-> errors r = []) /\
  sublist (packages_updated r) (dict_keys (packages_to_update plan)).
Proof.
  intros Hrun. destruct (apply_patch_plan_result env self plan w r w' Hrun) as (H1 & _ & H3).
  split; assumption.
Qed.

(** X12: a returned result carries no rollback id exactly when the plan
    had no package to update or the patcher is in dry-run mode; and a plan
    without packages always gives the all-zero successful result after two
    clock reads, whatever the dry-run flag. *)
Theorem apply_patch_plan_rollback_id (env : Env) (self : AutonomousPatcher)
    (plan : PatchPlan) (w : World) :
  (forall r w',
     apply_patch_plan env self plan w = (Ok r, w') ->
     (rollback_id r = None <-> packages_to_update plan = [] \/ dry_run self = true)) /\
  (packages_to_update plan = [] ->
   exists r,
     apply_patch_plan env self plan w =
       (Ok r, {| log := EvNow :: EvTime :: log w;
                 _apt_last_updated := _apt_last_updated w |}) /\
     success r = true /\ errors r = [] /\ vulnerabilities_patched r = 0%nat /\
     packages_updated r = [] /\ rollback_id r = None).
Proof.
  split.
  - intros r w' Hrun. apply (apply_patch_plan_result env self plan w r w' Hrun).
  - intros Hempty. rewrite (apply_patch_plan_empty env self plan w Hempty).
    eexists. split; [reflexivity|]. cbn. auto.
Qed.

(** X13: [apply_patch_plan] raises only when the installation history
    raises: with a history store that answers, every call returns a
    result, whatever the commands do. *)
Theorem apply_patch_plan_returns (env : Env) (self : AutonomousPatcher) (plan : PatchPlan)
    (w : World) :
  history_answers env ->
  exists r w', apply_patch_plan env self plan w = (Ok r, w').
Proof.
  intros [Hrecord Hupdate].
  destruct (packages_to_update plan) as [|item items] eqn:Hitems.
  { rewrite (apply_patch_plan_empty env self plan w Hitems). eauto. }
  assert (Hne : packages_to_update plan <> []) by (rewrite Hitems; discriminate).
  destruct (dry_run self) eqn:Hdry.
  { rewrite (apply_patch_plan_dry env self plan w Hne Hdry). eauto. }
  destruct (Hrecord (EvNow :: EvTime :: log w) UPGRADE
              (dict_keys (packages_to_update plan))
              (announced_commands (dict_keys (packages_to_update plan)))
              (env_now env (EvTime :: log w))) as (install_id & Hopen).
  destruct (apply_real_outcome env self plan w install_id Hdry Hne Hopen)
    as (first & errs & ups & _ & _ & _ & Hcases).
  destruct Hcases as [(d & w1 & Heq) | [(e & l & st & msg & w1 & Hraise & _)
                                       | (e & l & st & msg & w1 & Hraise & _)]].
  - rewrite Heq. eauto.
  - rewrite Hupdate in Hraise. discriminate.
  - rewrite Hupdate in Hraise. discriminate.
Qed.

(** X14: in a real execution with a history store that answers, every
    package of the plan is accounted for: the number of packages updated
    plus the number of errors is the number of packages, plus one when the
    initial refresh failed. *)
Theorem apply_patch_plan_accounts_for_all (env : Env) (self : AutonomousPatcher)
    (plan : PatchPlan) (w : World) :
  history_answers env ->
  dry_run self = false ->
  packages_to_update plan <> [] ->
  exists r w',
    apply_patch_plan env self plan w = (Ok r, w') /\
    (run_ok env (log_at_refresh env plan w) apt_get_update ->
     (length (packages_updated r) + length (errors r)
      = length (packages_to_update plan))%nat) /\
    (run_fails env (log_at_refresh env plan w) apt_get_update ->
     (length (packages_updated r) + length (errors r)
      = S (length (packages_to_update plan)))%nat).
Proof.
  intros [Hrecord Hupdate] Hreal Hne.
  destruct (Hrecord (EvNow :: EvTime :: log w) UPGRADE
              (dict_keys (packages_to_update plan))
              (announced_commands (dict_keys (packages_to_update plan)))
              (env_now env (EvTime :: log w))) as (install_id & Hopen).
  destruct (apply_real_outcome env self plan w install_id Hreal Hne Hopen)
    as (first & errs & ups & Hfirst & _ & Hlen & Hcases).
  destruct Hcases as [(d & w1 & Heq) | [(e & l & st & msg & w1 & Hraise & _)
                                       | (e & l & st & msg & w1 & Hraise & _)]].
  - rewrite Heq. eexists _, _. split; [reflexivity|]. cbn.
    rewrite length_app. unfold run_ok, run_fails in *.
    destruct Hfirst as [[-> Hok] | [-> Hfail]]; cbn; split; intros H; try lia;
      congruence.
  - rewrite Hupdate in Hraise. discriminate.
  - rewrite Hupdate in Hraise. discriminate.
Qed.

(** ** Planning and executing in one call: [patch_vulnerabilities] *)

Lemma lookup_events_planning (packages : list string) :
  List.Forall planning_event (lookup_events packages).
Proof.
  unfold lookup_events. apply List.Forall_rev, List.Forall_forall.
  intros ev Hev. apply in_map_iff in Hev. destruct Hev as (p & <- & _).
  cbn. right. exists p. reflexivity.
Qed.

(** Planning on a given list only reads the clock, enters the gate and
    looks up candidates. *)
Lemma create_patch_plan_events (env : Env) (self : AutonomousPatcher)
    (vulns : list Vulnerability) (w : World) :
  exists plan new w',
    create_patch_plan env self (Some vulns) w = (Ok plan, w') /\
    log w' = new ++ log w /\
    List.Forall planning_event new /\
    (List.filter (_should_patch self) vulns <> [] ->
     cache_fresh false (_apt_last_updated w) (env_now env (log w)) = false ->
     In (EvRun apt_get_update) new) /\
    ((forall l p, lookup_result env l p = None) -> packages_to_update plan = []).
Proof.
  destruct (List.filter (_should_patch self) vulns) as [|v to_patch] eqn:Hfilter.
  - exists empty_plan, [], w. unfold create_patch_plan, bind, ret. rewrite Hfilter.
    split; [reflexivity|]. split; [reflexivity|]. split; [constructor|].
    split; [congruence | reflexivity].
  - destruct (create_patch_plan_run env self vulns w) as
      (b & w1 & acc & Hgate & _ & Hplan & _ & _ & _ & Hnone).
    { rewrite Hfilter. discriminate. }
    destruct (ensure_apt_updated_log env w) as (b' & w1' & Hgate' & Hlog).
    rewrite Hgate in Hgate'. injection Hgate' as _ <-.
    rewrite Hfilter in *. rewrite Hplan.
    eexists _, _, _. split; [reflexivity|]. cbn [log packages_to_update].
    rewrite Hlog, app_assoc. split; [reflexivity|].
    split; [|split].
    + apply List.Forall_app. split; [apply lookup_events_planning|].
      destruct (cache_fresh _ _ _); repeat constructor.
    + intros _ ->. apply in_or_app. right. cbn. auto.
    + intros Hall. rewrite (Hnone Hall). reflexivity.
Qed.

Lemma patch_vulnerabilities_eq (env : Env) (self : AutonomousPatcher)
    (vulns : option (list Vulnerability)) (w : World) (plan : PatchPlan) (w1 : World) :
  create_patch_plan env self vulns w = (Ok plan, w1) ->
  patch_vulnerabilities env self vulns w =
    match packages_to_update plan with
    | [] =>
        (Ok {| patch_id := "patch_" +:+ PyStr.of_int (env_time env (log w1));
               timestamp := env_isoformat env (env_now env (EvTime :: log w1));
               vulnerabilities_patched := 0;
               packages_updated := [];
               success := true;
               errors := [];
               rollback_id := None;
               duration_seconds := None |},
         {| log := EvNow :: EvTime :: log w1; _apt_last_updated := _apt_last_updated w1 |})
    | _ :: _ => apply_patch_plan env self plan w1
    end.
Proof.
  intros Hplan. unfold patch_vulnerabilities. unfold bind at 1. rewrite Hplan.
  destruct (packages_to_update plan); reflexivity.
Qed.

(** What every result of [patch_vulnerabilities] satisfies. *)
Lemma patch_vulnerabilities_result (env : Env) (self : AutonomousPatcher)
    (vulns : option (list Vulnerability)) (w : World) (r : PatchResult) (w' : World) :
  patch_vulnerabilities env self vulns w = (Ok r, w') ->
  (success r = true <-> errors r = []).
Proof.
  intros Hrun.
  destruct (create_patch_plan env self vulns w) as [[plan|e] w1] eqn:Hplan.
  - rewrite (patch_vulnerabilities_eq env self vulns w plan w1 Hplan) in Hrun.
    destruct (packages_to_update plan) eqn:Hitems.
    + injection Hrun as <- _. cbn. tauto.
    + apply (apply_patch_plan_result env self plan w1 r w' Hrun).
  - unfold patch_vulnerabilities in Hrun. unfold bind at 1 in Hrun.
    rewrite Hplan in Hrun. discriminate.
Qed.

(** X15: when no candidate lookup yields a version, [patch_vulnerabilities]
    on a given list installs nothing and opens no history record (it only
    reads the clock, enters the gate and looks up candidates), and still
    returns a successful result with zero counts and no rollback id,
    however many vulnerabilities passed the policy. *)
Theorem patch_vulnerabilities_without_candidates (env : Env) (self : AutonomousPatcher)
    (vulns : list Vulnerability) (w : World) :
  (forall l p, lookup_result env l p = None) ->
  exists r new w',
    patch_vulnerabilities env self (Some vulns) w = (Ok r, w') /\
    log w' = new ++ log w /\
    List.Forall planning_event new /\
    success r = true /\ errors r = [] /\
    vulnerabilities_patched r = 0%nat /\ packages_updated r = [] /\
    rollback_id r = None.
Proof.
  intros Hnone.
  destruct (create_patch_plan_events env self vulns w) as
    (plan & new & w1 & Hplan & Hlog & Hnew & _ & Hempty).
  rewrite (patch_vulnerabilities_eq env self (Some vulns) w plan w1 Hplan).
  rewrite (Hempty Hnone).
  eexists _, (EvNow :: EvTime :: new), _. split; [reflexivity|]. cbn.
  rewrite Hlog. split; [reflexivity|].
  split; [repeat constructor; exact Hnew | auto 10].
Qed.

(** X16: in dry-run mode [patch_vulnerabilities] on a given list never
    installs and never touches the installation history, and always
    returns a successful result without rollback id; but it is not free of
    external effects: when something is to patch and the index cache is
    not fresh, it does refresh the package index. *)
Theorem patch_vulnerabilities_dry_run (env : Env) (self : AutonomousPatcher)
    (vulns : list Vulnerability) (w : World) :
  dry_run self = true ->
  exists r new w',
    patch_vulnerabilities env self (Some vulns) w = (Ok r, w') /\
    log w' = new ++ log w /\
    List.Forall planning_event new /\
    success r = true /\ errors r = [] /\ rollback_id r = None /\
    (List.filter (_should_patch self) vulns <> [] ->
     cache_fresh false (_apt_last_updated w) (env_now env (log w)) = false ->
     In (EvRun apt_get_update) new).
Proof.
  intros Hdry.
  destruct (create_patch_plan_events env self vulns w) as
    (plan & new & w1 & Hplan & Hlog & Hnew & Hrefresh & _).
  rewrite (patch_vulnerabilities_eq env self (Some vulns) w plan w1 Hplan).
  destruct (packages_to_update plan) as [|item items] eqn:Hitems.
  - eexists _, (EvNow :: EvTime :: new), _. split; [reflexivity|]. cbn.
    rewrite Hlog. split; [reflexivity|].
    split; [repeat constructor; exact Hnew|].
    repeat (split; [reflexivity|]). intros H1 H2. right. right. auto.
  - assert (Hne : packages_to_update plan <> []) by (rewrite Hitems; discriminate).
    rewrite (apply_patch_plan_dry env self plan w1 Hne Hdry).
    eexists _, (EvNow :: EvTime :: new), _. split; [reflexivity|]. cbn.
    rewrite Hlog. split; [reflexivity|].
    split; [repeat constructor; exact Hnew|].
    repeat (split; [reflexivity|]). intros H1 H2. right. right. auto.
Qed.

(** ** The patcher configuration *)

Lemma save_config_eq (io : ConfigIO) (self : AutonomousPatcher) (disk : ConfigFile) :
  _save_config io (self, disk) =
    match cfg_mkdir io with
    | Raise e => (Raise e, (self, disk))
    | Ok _ =>
        (Ok tt,
         (self,
          match cfg_write io with
          | Ok _ => config_document self
          | Raise _ => cfg_after_failed_write io
          end))
    end.
Proof.
  unfold _save_config, bind, lift, try_except, get_frame, ret. cbn.
  destruct (cfg_mkdir io) as [[]|e]; [|reflexivity].
  destruct (cfg_write io) as [[]|e]; reflexivity.
Qed.

Lemma severity_value_round_trip (s : Severity) :
  Severity_of_value (PyStr.lower (Severity_value s)) = Some s.
Proof. destruct s; reflexivity. Qed.

(** Loading the document written for [self] restores its three settings
    and keeps the constructor arguments of the loading patcher. *)
Lemma load_config_document (fresh self : AutonomousPatcher) :
  _load_config fresh (config_document self) =
    {| strategy := strategy fresh; dry_run := dry_run fresh;
       auto_approve := auto_approve fresh;
       whitelist := whitelist self; blacklist := blacklist self;
       min_severity := min_severity self |}.
Proof.
  unfold _load_config, config_document, get_default.
  rewrite severity_value_round_trip, !list_to_set_elements_L. reflexivity.
Qed.

(** X17: when the file system cooperates, each of [add_to_whitelist],
    [add_to_blacklist] and [set_min_severity] leaves a configuration file
    from which any newly constructed patcher loads exactly the settings
    the mutated patcher has in memory. *)
Theorem config_survives_reload (io : ConfigIO) (self fresh : AutonomousPatcher)
    (disk : ConfigFile) (p : string) (s : Severity) :
  cfg_mkdir io = Ok tt ->
  cfg_write io = Ok tt ->
  let reload (out : Result unit * PatcherDisk) := _load_config fresh out.2.2 in
  let same (a b : AutonomousPatcher) :=
    whitelist a = whitelist b /\ blacklist a = blacklist b /\
    min_severity a = min_severity b in
  (let out := add_to_whitelist io p (self, disk) in
   out.1 = Ok tt /\ same (reload out) out.2.1 /\
   whitelist out.2.1 = whitelist self ∪ {[p]} /\
   blacklist out.2.1 = blacklist self /\ min_severity out.2.1 = min_severity self) /\
  (let out := add_to_blacklist io p (self, disk) in
   out.1 = Ok tt /\ same (reload out) out.2.1 /\
   blacklist out.2.1 = blacklist self ∪ {[p]} /\
   whitelist out.2.1 = whitelist self /\ min_severity out.2.1 = min_severity self) /\
  (let out := set_min_severity io s (self, disk) in
   out.1 = Ok tt /\ same (reload out) out.2.1 /\
   min_severity out.2.1 = s /\
   whitelist out.2.1 = whitelist self /\ blacklist out.2.1 = blacklist self).
Proof.
  intros Hmkdir Hwrite reload same. subst reload same. cbv beta zeta.
  unfold add_to_whitelist, add_to_blacklist, set_min_severity, bind, modify_frame.
  cbn [fst snd]. rewrite !save_config_eq, Hmkdir, Hwrite. cbn [fst snd].
  rewrite !load_config_document. cbn. auto 20.
Qed.

Lemma config_survives_reload_witness :
  whitelist
    (_load_config (sample_patcher true)
       (add_to_whitelist
          {| cfg_mkdir := Ok tt; cfg_write := Ok tt;
             cfg_after_failed_write := ConfigMissing |}
          "curl" (sample_patcher false, ConfigMissing)).2.2)
  = whitelist (sample_patcher false) ∪ {["curl"]}.
Proof.
  destruct (config_survives_reload
              {| cfg_mkdir := Ok tt; cfg_write := Ok tt;
                 cfg_after_failed_write := ConfigMissing |}
              (sample_patcher false) (sample_patcher true) ConfigMissing "curl" HIGH
              eq_refl eq_refl) as ((_ & (Hsame & _) & Hadded & _) & _).
  rewrite Hsame. exact Hadded.
Defined.

(** X18: after [add_to_blacklist p] the patcher object never patches [p],
    whatever the file system did, even when the save raised, and whether
    or not [p] is whitelisted; [add_to_whitelist p] does not take [p] off
    the blacklist, so a blacklisted package stays unpatched; and when
    [mkdir] raises, the object is changed although the file is not. *)
Theorem blacklist_wins_in_memory (io : ConfigIO) (self : AutonomousPatcher)
    (disk : ConfigFile) (v : Vulnerability) :
  _should_patch (add_to_blacklist io (package_name v) (self, disk)).2.1 v = false /\
  (package_name v ∈ blacklist self ->
   _should_patch (add_to_whitelist io (package_name v) (self, disk)).2.1 v = false) /\
  (package_name v ∉ blacklist self ->
   _should_patch (add_to_whitelist io (package_name v) (self, disk)).2.1 v = true) /\
  (forall e, cfg_mkdir io = Raise e ->
     add_to_blacklist io (package_name v) (self, disk)
     = (Raise e, (set_blacklist (blacklist self ∪ {[package_name v]}) self, disk))).
Proof.
  unfold add_to_whitelist, add_to_blacklist, bind, modify_frame.
  cbn [fst snd]. rewrite !save_config_eq.
  assert (Hbl : forall self' : AutonomousPatcher,
             package_name v ∈ blacklist self' -> _should_patch self' v = false).
  { intros self' H. unfold _should_patch. rewrite bool_decide_eq_true_2 by exact H.
    reflexivity. }
  repeat split.
  - destruct (cfg_mkdir io); cbn [fst snd]; apply Hbl; cbn; set_solver.
  - intros Hin. destruct (cfg_mkdir io); cbn [fst snd]; apply Hbl; exact Hin.
  - intros Hout. destruct (cfg_mkdir io); cbn [fst snd];
      apply should_patch_true_iff; cbn; (split; [exact Hout | left; set_solver]).
  - intros e ->. reflexivity.
Qed.

Lemma blacklist_wins_in_memory_witness :
  _should_patch
    (add_to_whitelist
       {| cfg_mkdir := Raise "read-only file system"; cfg_write := Ok tt;
          cfg_after_failed_write := ConfigMissing |}
       "curl" (sample_patcher false, ConfigMissing)).2.1
    {| package_name := "curl"; severity := UNKNOWN |} = true.
Proof.
  destruct (blacklist_wins_in_memory
              {| cfg_mkdir := Raise "read-only file system"; cfg_write := Ok tt;
                 cfg_after_failed_write := ConfigMissing |}
              (sample_patcher false) ConfigMissing
              {| package_name := "curl"; severity := UNKNOWN |})
    as (_ & _ & Hwhitelisted & _).
  apply Hwhitelisted. refine (bool_decide_unpack _ _). vm_compute. exact I.
Defined.

(** X19: an unknown [min_severity] in the configuration file does not
    discard the file: the whitelist and the blacklist of the file are
    taken over and only the floor stays as it was; a known value is
    accepted in any letter case; a missing or unreadable file changes
    nothing. *)
Theorem load_config_partial (self : AutonomousPatcher)
    (wl bl : option (list string)) (ms : string) :
  (Severity_of_value (PyStr.lower ms) = None ->
   whitelist (_load_config self (ConfigJson wl bl (Some ms)))
     = list_to_set (get_default wl []) /\
   blacklist (_load_config self (ConfigJson wl bl (Some ms)))
     = list_to_set (get_default bl []) /\
   min_severity (_load_config self (ConfigJson wl bl (Some ms))) = min_severity self) /\
  (forall s, PyStr.lower ms = Severity_value s ->
     min_severity (_load_config self (ConfigJson wl bl (Some ms))) = s) /\
  _load_config self ConfigMissing = self /\
  (forall e, _load_config self (ConfigUnreadable e) = self).
Proof.
  split; [|split; [|split]]; cbn.
  - intros ->. auto.
  - intros s ->. destruct s; reflexivity.
  - reflexivity.
  - reflexivity.
Qed.

Lemma load_config_partial_witness :
  whitelist (_load_config (sample_patcher true)
               (ConfigJson (Some ["curl"]) None (Some "severe")))
  = list_to_set ["curl"] /\
  min_severity (_load_config (sample_patcher true)
                  (ConfigJson (Some ["curl"]) None (Some "severe"))) = MEDIUM /\
  min_severity (_load_config (sample_patcher true)
                  (ConfigJson (Some ["curl"]) None (Some "High"))) = HIGH.
Proof.
  destruct (load_config_partial (sample_patcher true) (Some ["curl"]) None "severe")
    as (Hinvalid & _).
  destruct (load_config_partial (sample_patcher true) (Some ["curl"]) None "High")
    as (_ & Hcase & _).
  destruct Hinvalid as (Hwl & _ & Hfloor); [reflexivity|].
  split; [exact Hwl|]. split; [exact Hfloor|].
  apply Hcase. reflexivity.
Defined.


(** A guarded body whose handler returns, followed by a read of the
    frame, returns. *)
Lemma guarded_frame_returns {L S : Type} (l0 : L) (body : M (L * S) unit)
    (handler : string -> M (L * S) unit) (s : S) :
  (forall e st, exists st', handler e st = (Ok tt, st')) ->
  exists res st, with_frame l0 (try_except body handler ;; get_frame) s = (Ok res, st).
Proof.
  intros Hhandler. unfold with_frame, try_except, bind, get_frame.
  destruct (body (l0, s)) as [[[]|e] st].
  - eexists _, _. reflexivity.
  - destruct (Hhandler e st) as (st' & ->). eexists _, _. reflexivity.
Qed.

(** X20: [run_schedule] raises exactly for an unknown schedule id, and
    then with the not-found message, leaving the scheduler and the log
    untouched; for a stored id every exception inside the run is caught
    and a result is returned. *)
Theorem run_schedule_raises_iff_unknown (env : Env) (self : SecurityScheduler) (w : World)
    (schedule_id : string) :
  (dict_get (schedules self) schedule_id = None ->
   run_schedule env schedule_id (self, w)
   = (Raise ("Schedule " +:+ schedule_id +:+ " not found"), (self, w))) /\
  (forall schedule,
     dict_get (schedules self) schedule_id = Some schedule ->
     exists res st, run_schedule env schedule_id (self, w) = (Ok res, st)).
Proof.
  split.
  - intros Hunknown. unfold run_schedule, bind, get_frame. cbn. rewrite Hunknown.
    reflexivity.
  - intros schedule Hstored. rewrite (run_schedule_unfold env self w _ _ Hstored).
    apply guarded_frame_returns. intros e st. eexists. reflexivity.
Qed.

(** X22: a schedule with scanning disabled never scans and never patches,
    even with patching enabled: its run only reads the clock and keeps the
    schedule file, records neither a scan nor a patch result, and still
    advances the schedule. *)
Theorem run_schedule_without_scan (env : Env) (self : SecurityScheduler) (w : World)
    (schedule_id : string) (schedule : SecuritySchedule.t) :
  dict_get (schedules self) schedule_id = Some schedule ->
  SecuritySchedule.scan_enabled schedule = false ->
  exists res self' w' new,
    run_schedule env schedule_id (self, w) = (Ok res, (self', w')) /\
    RunResults.scan_result res = None /\
    RunResults.patch_result res = None /\
    log w' = new ++ log w /\
    List.Forall bookkeeping_event new /\
    dict_get (schedules self') schedule_id
      = Some (advanced env schedule (EvNow :: log w)).
Proof.
  intros Hstored Hscan. rewrite (run_schedule_unfold env self w _ _ Hstored).
  unfold with_frame, try_except. unfold bind at 1. unfold bind at 1. cbv beta.
  unfold scan_patch_block. rewrite Hscan. unfold ret at 1. cbv beta.
  rewrite (update_schedule_eq env schedule_id schedule _ self _ Hstored).
  unfold lift at 1. cbn [fst snd]. rewrite save_schedules_eq. cbn [log world_at_try].
  assert (Hsave : exists pre, log_at_save schedule (EvNow :: log w) = pre ++ log w /\
                              List.Forall bookkeeping_event pre).
  { unfold log_at_save. destruct (frequency_days _).
    - exists [EvNow; EvNow; EvNow; EvNow]. split; [reflexivity | repeat constructor].
    - exists [EvNow; EvNow; EvNow]. split; [reflexivity | repeat constructor]. }
  destruct Hsave as (pre & Hpre & Hbook).
  destruct (env_mkdir env _) as [[]|e]; cbn.
  - eexists _, _, _, (_ :: _ :: pre). split; [reflexivity|]. cbn. rewrite Hpre.
    repeat (split; [reflexivity|]). split; [repeat constructor; exact Hbook|].
    apply dict_get_set_same.
  - eexists _, _, _, (_ :: pre). split; [reflexivity|]. cbn. rewrite Hpre.
    repeat (split; [reflexivity|]). split; [repeat constructor; exact Hbook|].
    apply dict_get_set_same.
Qed.

Lemma run_schedule_without_scan_witness :
  exists res st,
    run_schedule (sample_env true (Raise "scanner down") ConfigMissing) "weekly"
      ({| schedules := [("weekly", sample_schedule_no_scan)] |}, sample_world)
    = (Ok res, st) /\
    RunResults.patch_result res = None.
Proof.
  destruct (run_schedule_without_scan
              (sample_env true (Raise "scanner down") ConfigMissing)
              {| schedules := [("weekly", sample_schedule_no_scan)] |} sample_world
              "weekly" sample_schedule_no_scan)
    as (res & self' & w' & new & Hrun & _ & Hpatch & _).
  - reflexivity.
  - reflexivity.
  - exists res. eexists. split; [exact Hrun | exact Hpatch].
Defined.

(** The scan and patch block keeps the summary consistent: when it
    completes, the summary is marked successful exactly when it carries no
    error. *)
Lemma scan_patch_block_consistent (env : Env) (schedule : SecuritySchedule.t)
    (res0 : RunResults.t) (self : SecurityScheduler) (w : World)
    (res1 : RunResults.t) (st1 : SecurityScheduler * World) :
  scan_patch_block env schedule (res0, (self, w)) = (Ok tt, (res1, st1)) ->
  RunResults.success res0 = true ->
  RunResults.errors res0 = [] ->
  (RunResults.success res1 = true <-> RunResults.errors res1 = []).
Proof.
  unfold scan_patch_block. intros Hblock Hsuccess Herrors.
  destruct (SecuritySchedule.scan_enabled schedule);
    [|injection Hblock as <- <-; tauto].
  unfold bind at 1 in Hblock. rewrite in_world_eq in Hblock.
  unfold scan_all_packages, perform in Hblock. cbn [fst snd log _apt_last_updated] in Hblock.
  destruct (env_scan env (log w)) as [scan_result|e]; [|discriminate].
  unfold bind at 1, modify_frame at 1 in Hblock. cbn [fst snd] in Hblock.
  destruct (SecuritySchedule.patch_enabled schedule
            && (0 <? ScanResult.vulnerabilities_found scan_result));
    [|injection Hblock as <- <-; cbn; tauto].
  unfold patch_block in Hblock. unfold bind at 1 in Hblock. rewrite in_world_eq in Hblock.
  unfold AutonomousPatcher_init, perform in Hblock. unfold bind at 1 in Hblock.
  cbn [fst snd log _apt_last_updated] in Hblock.
  destruct (env_new_patcher env _) as [file|e]; [|discriminate].
  unfold ret at 1 in Hblock. cbn [fst snd] in Hblock.
  unfold bind at 1 in Hblock. rewrite in_world_eq in Hblock.
  destruct (patch_vulnerabilities env _ _ _) as [[patch_result|e] w2] eqn:Hpatch;
    [|discriminate].
  pose proof (patch_vulnerabilities_result _ _ _ _ _ _ Hpatch) as Hresult.
  cbn [fst snd] in Hblock. unfold record_patch_result, bind, modify_frame in Hblock.
  destruct (success patch_result) eqn:Hok; cbn in Hblock;
    injection Hblock as <- <-; cbn.
  - tauto.
  - rewrite Herrors. cbn. split; [discriminate|].
    intros Hnil. apply Hresult in Hnil. discriminate.
Qed.

(** X23: the summary returned for a stored schedule is marked successful
    exactly when it carries no error. *)
Theorem run_schedule_success_iff_no_error (env : Env) (self : SecurityScheduler)
    (w : World) (schedule_id : string) (schedule : SecuritySchedule.t) :
  dict_get (schedules self) schedule_id = Some schedule ->
  exists res st,
    run_schedule env schedule_id (self, w) = (Ok res, st) /\
    (RunResults.success res = true <-> RunResults.errors res = []).
Proof.
  intros Hstored. rewrite (run_schedule_unfold env self w _ _ Hstored).
  unfold with_frame, try_except. unfold bind at 1. unfold bind at 1. cbv beta.
  unfold RunState, SelfWorld in *.
  destruct (scan_patch_block env schedule
              (initial_results env schedule_id w, (self, world_at_try w)))
    as [[[]|e] [res1 [self1 w1]]] eqn:Hblock.
  - pose proof (scan_patch_block_consistent _ _ _ _ _ _ _ Hblock eq_refl eq_refl) as Hinv.
    destruct (scan_patch_block_effect _ _ _ _ _ _ _ _ _ Hblock) as [-> _].
    pose proof (update_schedule_eq env schedule_id schedule res1 self w1 Hstored) as Hupd.
    unfold RunState, SelfWorld in *. rewrite Hupd. clear Hupd.
    unfold lift at 1. cbn [fst snd]. rewrite save_schedules_eq.
    destruct (env_mkdir env _) as [[]|e]; cbn.
    + eexists _, _. split; [reflexivity | exact Hinv].
    + eexists _, _. split; [reflexivity|]. cbn.
      split; [discriminate | intros H; destruct (RunResults.errors res1); discriminate].
  - cbn. eexists _, _. split; [reflexivity|]. cbn.
    split; [discriminate | intros H; destruct (RunResults.errors res1); discriminate].
Qed.

Lemma run_schedule_raises_iff_unknown_witness :
  run_schedule (sample_env true (Raise "scanner down") ConfigMissing) "hourly"
    (sample_scheduler true, sample_world)
  = (Raise "Schedule hourly not found", (sample_scheduler true, sample_world)) /\
  exists res st,
    run_schedule (sample_env true (Raise "scanner down") ConfigMissing) "nightly"
      (sample_scheduler true, sample_world) = (Ok res, st).
Proof.
  destruct (run_schedule_raises_iff_unknown
              (sample_env true (Raise "scanner down") ConfigMissing)
              (sample_scheduler true) sample_world "hourly") as [Hunknown _].
  destruct (run_schedule_raises_iff_unknown
              (sample_env true (Raise "scanner down") ConfigMissing)
              (sample_scheduler true) sample_world "nightly") as [_ Hstored].
  split.
  - apply Hunknown. reflexivity.
  - apply (Hstored (sample_schedule true)). reflexivity.
Defined.

Lemma run_schedule_success_iff_no_error_witness :
  exists res st,
    run_schedule
      (sample_env true (Ok (sample_scan [{| package_name := "b"; severity := CRITICAL |}]))
         ConfigMissing)
      "nightly" (sample_scheduler false, sample_world) = (Ok res, st) /\
    (RunResults.success res = true <-> RunResults.errors res = []).
Proof.
  apply (run_schedule_success_iff_no_error
           (sample_env true
              (Ok (sample_scan [{| package_name := "b"; severity := CRITICAL |}]))
              ConfigMissing)
           (sample_scheduler false) sample_world "nightly" (sample_schedule false)).
  reflexivity.
Defined.

(** ** ScheduleManager: the schedule store *)

Lemma dict_get_set_other {V : Type} (d : dict V) (k k' : string) (v : V) :
  k <> k' -> dict_get (dict_set d k v) k' = dict_get d k'.
Proof.
  intros Hne. induction d as [|[k0 v0] d IH]; cbn.
  - destruct (String.eqb_spec k k'); [contradiction | reflexivity].
  - destruct (String.eqb_spec k0 k) as [-> | Hk0]; cbn.
    + destruct (String.eqb_spec k k'); [contradiction | reflexivity].
    + rewrite IH. reflexivity.
Qed.

Lemma dict_get_none_keys {V : Type} (d : dict V) (k : string) :
  dict_get d k = None <-> ~ In k (dict_keys d).
Proof.
  rewrite <- dict_get_in_keys. unfold dict_contains.
  destruct (dict_get d k); split; intros H; try discriminate; try reflexivity.
  exfalso. apply H. reflexivity.
Qed.

Lemma dict_get_del_same {V : Type} (d : dict V) (k : string) :
  List.NoDup (dict_keys d) -> dict_get (dict_del d k) k = None.
Proof.
  induction d as [|[k0 v0] d IH]; cbn; [reflexivity|].
  intros Hnodup. inversion Hnodup as [|? ? Hnotin Hrest]; subst.
  destruct (String.eqb_spec k0 k) as [-> | Hne].
  - apply dict_get_none_keys. exact Hnotin.
  - cbn. destruct (String.eqb_spec k0 k); [contradiction|]. exact (IH Hrest).
Qed.

Lemma dict_get_del_other {V : Type} (d : dict V) (k k' : string) :
  k <> k' -> dict_get (dict_del d k) k' = dict_get d k'.
Proof.
  intros Hne. induction d as [|[k0 v0] d IH]; cbn; [reflexivity|].
  destruct (String.eqb_spec k0 k) as [-> | Hk0]; cbn.
  - destruct (String.eqb_spec k k'); [contradiction | reflexivity].
  - rewrite IH. reflexivity.
Qed.

(** X24: [create_schedule] stores the new schedule under its id before it
    saves: afterwards the id looks up a schedule with the given settings,
    no [last_run], and a [next_run] one, seven or thirty days after the
    clock reading (none for [CUSTOM]); a schedule already stored under the
    id is replaced in place; every other id looks up what it did; the
    call returns the schedule unless [mkdir] raises, and then the schedule
    is stored in memory all the same. *)
Theorem create_schedule_stores (env : Env) (self : SecurityScheduler) (w : World)
    (schedule_id : string) (frequency : ScheduleFrequency) (scan_enabled patch_enabled : bool)
    (patch_strategy : PatchStrategy) (dry_run : bool) (custom_cron : option string) :
  let schedule :=
    {| SecuritySchedule.schedule_id := schedule_id;
       SecuritySchedule.frequency := frequency;
       SecuritySchedule.scan_enabled := scan_enabled;
       SecuritySchedule.patch_enabled := patch_enabled;
       SecuritySchedule.patch_strategy := patch_strategy;
       SecuritySchedule.dry_run := dry_run;
       SecuritySchedule.last_run := None;
       SecuritySchedule.next_run :=
         match frequency_days frequency with
         | Some d => Some (env_isoformat env (env_now env (log w) + d * microseconds_per_day))
         | None => None
         end;
       SecuritySchedule.custom_cron := custom_cron |} in
  let out := create_schedule env schedule_id frequency scan_enabled patch_enabled
               patch_strategy dry_run custom_cron (self, w) in
  (get_schedule schedule_id out.2).1 = Ok (Some schedule) /\
  (forall other, other <> schedule_id ->
     (get_schedule other out.2).1 = (get_schedule other (self, w)).1) /\
  (In schedule_id (dict_keys (schedules self)) ->
   dict_keys (schedules out.2.1) = dict_keys (schedules self)) /\
  (~ In schedule_id (dict_keys (schedules self)) ->
   dict_keys (schedules out.2.1) = dict_keys (schedules self) ++ [schedule_id]) /\
  match env_mkdir env (EvNow :: log w) with
  | Ok _ =>
      out.1 = Ok schedule /\
      log out.2.2 =
        EvWriteSchedules (map SecuritySchedule.to_json (dict_values (schedules out.2.1)))
        :: EvMkdir :: EvNow :: log w
  | Raise e => out.1 = Raise e /\ log out.2.2 = EvMkdir :: EvNow :: log w
  end.
Proof.
  intros schedule out.
  assert (Hout : out =
    match env_mkdir env (EvNow :: log w) with
    | Ok _ =>
        (Ok schedule,
         ({| schedules := dict_set (schedules self) schedule_id schedule |},
          {| log := EvWriteSchedules
                      (map SecuritySchedule.to_json
                         (dict_values (dict_set (schedules self) schedule_id schedule)))
                    :: EvMkdir :: EvNow :: log w;
             _apt_last_updated := _apt_last_updated w |}))
    | Raise e =>
        (Raise e,
         ({| schedules := dict_set (schedules self) schedule_id schedule |},
          {| log := EvMkdir :: EvNow :: log w;
             _apt_last_updated := _apt_last_updated w |}))
    end).
  { subst out schedule. unfold create_schedule. unfold bind at 1, lift at 1.
    cbn [fst snd].
    assert (Hnext : _calculate_next_run env frequency custom_cron w =
              (Ok match frequency_days frequency with
                  | Some d => Some (env_now env (log w) + d * microseconds_per_day)
                  | None => None
                  end,
               {| log := EvNow :: log w; _apt_last_updated := _apt_last_updated w |})).
    { unfold _calculate_next_run, bind, datetime_now, perform, ret, timedelta,
        microseconds_per_day.
      destruct frequency; cbn; repeat f_equal; lia. }
    rewrite Hnext. unfold bind at 1, modify_frame at 1. cbn [fst snd].
    unfold bind at 1. rewrite save_schedules_eq. cbn [log _apt_last_updated schedules].
    destruct (frequency_days frequency); destruct (env_mkdir env _) as [[]|e]; reflexivity. }
  rewrite Hout. unfold get_schedule, bind, get_frame, ret.
  destruct (env_mkdir env (EvNow :: log w)) as [[]|e]; cbn [fst snd schedules log].
  - split; [rewrite dict_get_set_same; reflexivity|].
    split; [intros other Hne; rewrite dict_get_set_other by congruence; reflexivity|].
    split; [apply dict_set_keys_present|]. split; [apply dict_set_keys_absent | auto].
  - split; [rewrite dict_get_set_same; reflexivity|].
    split; [intros other Hne; rewrite dict_get_set_other by congruence; reflexivity|].
    split; [apply dict_set_keys_present|]. split; [apply dict_set_keys_absent | auto].
Qed.

(** X25: [delete_schedule] on an unknown id returns false and does
    nothing, not even a save; on a stored id it removes that schedule and
    no other, saves what remains, and returns true unless [mkdir]
    raises. *)
Theorem delete_schedule_removes (env : Env) (self : SecurityScheduler) (w : World)
    (schedule_id : string) :
  (dict_get (schedules self) schedule_id = None ->
   delete_schedule env schedule_id (self, w) = (Ok false, (self, w))) /\
  (forall schedule,
     dict_get (schedules self) schedule_id = Some schedule ->
     List.NoDup (dict_keys (schedules self)) ->
     let out := delete_schedule env schedule_id (self, w) in
     (get_schedule schedule_id out.2).1 = Ok None /\
     (forall other, other <> schedule_id ->
        (get_schedule other out.2).1 = (get_schedule other (self, w)).1) /\
     match env_mkdir env (log w) with
     | Ok _ =>
         out.1 = Ok true /\
         log out.2.2 =
           EvWriteSchedules
             (map SecuritySchedule.to_json
                (dict_values (dict_del (schedules self) schedule_id)))
           :: EvMkdir :: log w
     | Raise e => out.1 = Raise e /\ log out.2.2 = EvMkdir :: log w
     end).
Proof.
  split.
  - intros Hunknown. unfold delete_schedule, bind, get_frame, dict_contains. cbn.
    rewrite Hunknown. reflexivity.
  - intros schedule Hstored Hnodup out.
    assert (Hout : out =
      match env_mkdir env (log w) with
      | Ok _ =>
          (Ok true,
           ({| schedules := dict_del (schedules self) schedule_id |},
            {| log := EvWriteSchedules
                        (map SecuritySchedule.to_json
                           (dict_values (dict_del (schedules self) schedule_id)))
                      :: EvMkdir :: log w;
               _apt_last_updated := _apt_last_updated w |}))
      | Raise e =>
          (Raise e,
           ({| schedules := dict_del (schedules self) schedule_id |},
            {| log := EvMkdir :: log w; _apt_last_updated := _apt_last_updated w |}))
      end).
    { subst out. unfold delete_schedule. unfold bind at 1, get_frame at 1. cbn [fst snd].
      unfold dict_contains. rewrite Hstored.
      unfold bind at 1, modify_frame at 1. cbn [fst snd].
      unfold bind at 1. rewrite save_schedules_eq. cbn [log _apt_last_updated schedules].
      destruct (env_mkdir env (log w)) as [[]|e]; reflexivity. }
    rewrite Hout. unfold get_schedule, bind, get_frame, ret.
    destruct (env_mkdir env (log w)) as [[]|e]; cbn [fst snd schedules log].
    + split; [rewrite dict_get_del_same by exact Hnodup; reflexivity|].
      split; [|auto].
      intros other Hne. rewrite dict_get_del_other by congruence. reflexivity.
    + split; [rewrite dict_get_del_same by exact Hnodup; reflexivity|].
      split; [|auto].
      intros other Hne. rewrite dict_get_del_other by congruence. reflexivity.
Qed.

Lemma create_schedule_stores_witness :
  (get_schedule "weekly"
     (create_schedule (sample_env true (Raise "scanner down") ConfigMissing)
        "weekly" WEEKLY true false CRITICAL_ONLY true None
        (sample_scheduler true, sample_world)).2).1
  = Ok (Some {| SecuritySchedule.schedule_id := "weekly";
                SecuritySchedule.frequency := WEEKLY;
                SecuritySchedule.scan_enabled := true;
                SecuritySchedule.patch_enabled := false;
                SecuritySchedule.patch_strategy := CRITICAL_ONLY;
                SecuritySchedule.dry_run := true;
                SecuritySchedule.last_run := None;
                SecuritySchedule.next_run := Some "604800000000";
                SecuritySchedule.custom_cron := None |}) /\
  dict_keys (schedules
               (create_schedule (sample_env true (Raise "scanner down") ConfigMissing)
                  "weekly" WEEKLY true false CRITICAL_ONLY true None
                  (sample_scheduler true, sample_world)).2.1)
  = ["nightly"; "weekly"].
Proof.
  destruct (create_schedule_stores (sample_env true (Raise "scanner down") ConfigMissing)
              (sample_scheduler true) sample_world "weekly" WEEKLY true false
              CRITICAL_ONLY true None) as (Hlookup & _ & _ & Hnew & _).
  split; [exact Hlookup|].
  apply Hnew. cbn. intros [H | []]. discriminate.
Defined.

Lemma delete_schedule_removes_witness :
  delete_schedule (sample_env true (Raise "scanner down") ConfigMissing) "hourly"
    (sample_scheduler true, sample_world)
  = (Ok false, (sample_scheduler true, sample_world)) /\
  (get_schedule "nightly"
     (delete_schedule (sample_env true (Raise "scanner down") ConfigMissing) "nightly"
        (sample_scheduler true, sample_world)).2).1 = Ok None.
Proof.
  destruct (delete_schedule_removes (sample_env true (Raise "scanner down") ConfigMissing)
              (sample_scheduler true) sample_world "hourly") as [Hunknown _].
  destruct (delete_schedule_removes (sample_env true (Raise "scanner down") ConfigMissing)
              (sample_scheduler true) sample_world "nightly") as [_ Hstored].
  split; [apply Hunknown; reflexivity|].
  apply (Hstored (sample_schedule true)).
  - reflexivity.
  - cbn. constructor; [intros [] | constructor].
Defined.

Lemma parse_written (s : SecuritySchedule.t) :
  parse_schedule (ScheduleData.of_json (SecuritySchedule.to_json s)) = Some s.
Proof.
  destruct s as [sid freq se pe ps dr lr nr cron].
  destruct freq, ps; reflexivity.
Qed.

Lemma dict_set_absent {V : Type} (d : dict V) (k : string) (v : V) :
  ~ In k (dict_keys d) -> dict_set d k v = d ++ [(k, v)].
Proof.
  induction d as [|[k0 v0] d IH]; cbn; [reflexivity|].
  intros Hout. destruct (String.eqb_spec k0 k) as [-> | Hne]; [exfalso; auto|].
  f_equal. apply IH. auto.
Qed.

Lemma load_loop_written (d2 : dict SecuritySchedule.t) :
  forall d1 : dict SecuritySchedule.t,
    List.NoDup (dict_keys (d1 ++ d2)) ->
    List.Forall (fun item => item.1 = SecuritySchedule.schedule_id item.2) d2 ->
    load_loop (map ScheduleData.of_json (map SecuritySchedule.to_json (dict_values d2))) d1
    = d1 ++ d2.
Proof.
  induction d2 as [|[k s] d2 IH]; intros d1 Hnodup Hkeyed;
    unfold dict_values; cbn [map snd load_loop].
  - rewrite app_nil_r. reflexivity.
  - fold (dict_values d2). rewrite parse_written.
    inversion Hkeyed as [|? ? Hk Hrest]; subst. cbn in Hk. rewrite <- Hk.
    assert (Hout : ~ In k (dict_keys d1)).
    { unfold dict_keys in Hnodup. rewrite map_app in Hnodup. cbn in Hnodup.
      apply List.NoDup_remove_2 in Hnodup. intros Hin. apply Hnodup.
      apply in_or_app. left. exact Hin. }
    rewrite (dict_set_absent d1 k s Hout).
    rewrite IH; [rewrite <- app_assoc; reflexivity | | exact Hrest].
    rewrite <- app_assoc. exact Hnodup.
Qed.

(** X26: what [_save_schedules] writes, a later scheduler loads back: for
    a store in which every schedule sits under its own id, constructing a
    scheduler from the written document gives the same schedules in the
    same order. *)
Theorem schedules_survive_reload (env : Env) (self : SecurityScheduler) (w : World) :
  well_keyed (schedules self) ->
  SecurityScheduler_init
    (written_schedules (map SecuritySchedule.to_json (dict_values (schedules self))))
  = self /\
  (env_mkdir env (log w) = Ok tt ->
   exists doc,
     log (_save_schedules env (self, w)).2.2 = EvWriteSchedules doc :: EvMkdir :: log w /\
     SecurityScheduler_init (written_schedules doc) = self).
Proof.
  intros [Hnodup Hkeyed].
  assert (Hload : SecurityScheduler_init
            (written_schedules (map SecuritySchedule.to_json (dict_values (schedules self))))
          = self).
  { unfold SecurityScheduler_init, written_schedules, _load_schedules, get_default.
    cbn [schedules]. rewrite (load_loop_written (schedules self) [] Hnodup Hkeyed).
    destruct self. reflexivity. }
  split; [exact Hload|].
  intros Hmkdir. rewrite save_schedules_eq, Hmkdir. cbn.
  eexists. split; [reflexivity | exact Hload].
Qed.

Lemma schedules_survive_reload_witness :
  SecurityScheduler_init
    (written_schedules
       (map SecuritySchedule.to_json (dict_values (schedules (sample_scheduler true)))))
  = sample_scheduler true.
Proof.
  apply (schedules_survive_reload (sample_env true (Raise "scanner down") ConfigMissing)
           (sample_scheduler true) sample_world).
  split; cbn.
  - constructor; [intros [] | constructor].
  - constructor; [reflexivity | constructor].
Defined.

Lemma load_loop_stops (records1 records2 : list ScheduleData.t) (bad : ScheduleData.t) :
  parse_schedule bad = None ->
  forall d, load_loop (records1 ++ bad :: records2) d = load_loop records1 d.
Proof.
  intros Hbad. induction records1 as [|r records1 IH]; intros d; cbn.
  - rewrite Hbad. reflexivity.
  - destruct (parse_schedule r); [apply IH | reflexivity].
Qed.

(** X27: loading stops at the first record it cannot build (no
    [schedule_id], no [frequency], an unknown frequency or strategy): the
    schedules before it are loaded, every record after it is ignored,
    valid or not; and a record without [patch_strategy], [scan_enabled],
    [patch_enabled] or [dry_run] is loaded with the defaults
    critical-only, scan on, patch off, dry run on. *)
Theorem load_schedules_stops_at_bad_record (self : SecurityScheduler)
    (records1 records2 : list ScheduleData.t) (bad : ScheduleData.t) :
  (ScheduleData.schedule_id bad = None \/
   ScheduleData.frequency bad = None \/
   (exists f, ScheduleData.frequency bad = Some f /\ ScheduleFrequency_of_value f = None) \/
   (exists p, ScheduleData.patch_strategy bad = Some p /\
              PatchStrategy_of_value p = None)) ->
  _load_schedules self (SchedulesJson (Some (records1 ++ bad :: records2)))
  = _load_schedules self (SchedulesJson (Some records1)) /\
  (forall sid f freq,
     ScheduleFrequency_of_value f = Some freq ->
     parse_schedule
       {| ScheduleData.schedule_id := Some sid; ScheduleData.frequency := Some f;
          ScheduleData.scan_enabled := None; ScheduleData.patch_enabled := None;
          ScheduleData.patch_strategy := None; ScheduleData.dry_run := None;
          ScheduleData.last_run := None; ScheduleData.next_run := None;
          ScheduleData.custom_cron := None |}
     = Some {| SecuritySchedule.schedule_id := sid;
               SecuritySchedule.frequency := freq;
               SecuritySchedule.scan_enabled := true;
               SecuritySchedule.patch_enabled := false;
               SecuritySchedule.patch_strategy := CRITICAL_ONLY;
               SecuritySchedule.dry_run := true;
               SecuritySchedule.last_run := None;
               SecuritySchedule.next_run := None;
               SecuritySchedule.custom_cron := None |}).
Proof.
  intros Hbad.
  assert (Hnone : parse_schedule bad = None).
  { unfold parse_schedule.
    destruct (ScheduleData.schedule_id bad) as [sid|]; [|reflexivity].
    destruct (ScheduleData.frequency bad) as [f|]; [|reflexivity].
    destruct (ScheduleFrequency_of_value f) as [freq|] eqn:Hf; [|reflexivity].
    destruct Hbad as [H | [H | [(f' & H & Hf') | (p & Hp & Hp')]]]; try discriminate.
    - injection H as <-. congruence.
    - rewrite Hp. unfold get_default. rewrite Hp'. reflexivity. }
  split.
  - cbn. rewrite (load_loop_stops records1 records2 bad Hnone). reflexivity.
  - intros sid f freq Hf. unfold parse_schedule.
    cbn [ScheduleData.schedule_id ScheduleData.frequency]. rewrite Hf. reflexivity.
Qed.

Lemma load_schedules_stops_at_bad_record_witness :
  _load_schedules {| schedules := [] |}
    (SchedulesJson
       (Some [ScheduleData.of_json (SecuritySchedule.to_json (sample_schedule true));
              {| ScheduleData.schedule_id := Some "broken";
                 ScheduleData.frequency := Some "hourly";
                 ScheduleData.scan_enabled := None; ScheduleData.patch_enabled := None;
                 ScheduleData.patch_strategy := None; ScheduleData.dry_run := None;
                 ScheduleData.last_run := None; ScheduleData.next_run := None;
                 ScheduleData.custom_cron := None |};
              ScheduleData.of_json
                (SecuritySchedule.to_json sample_schedule_no_scan)]))
  = sample_scheduler true.
Proof.
  destruct (load_schedules_stops_at_bad_record {| schedules := [] |}
              [ScheduleData.of_json (SecuritySchedule.to_json (sample_schedule true))]
              [ScheduleData.of_json (SecuritySchedule.to_json sample_schedule_no_scan)]
              {| ScheduleData.schedule_id := Some "broken";
                 ScheduleData.frequency := Some "hourly";
                 ScheduleData.scan_enabled := None; ScheduleData.patch_enabled := None;
                 ScheduleData.patch_strategy := None; ScheduleData.dry_run := None;
                 ScheduleData.last_run := None; ScheduleData.next_run := None;
                 ScheduleData.custom_cron := None |}) as [Hstops _].
  - right. right. left. exists "hourly". split; reflexivity.
  - cbn [app] in Hstops. rewrite Hstops. reflexivity.
Defined.

(** ** ScheduleManager: the invariant of the store *)

Lemma dict_set_Forall {V : Type} (P : string * V -> Prop) (d : dict V) (k : string) (v : V) :
  List.Forall P d -> P (k, v) -> List.Forall P (dict_set d k v).
Proof.
  intros Hd Hv. induction d as [|[k0 v0] d IH]; cbn.
  - constructor; [exact Hv | constructor].
  - inversion Hd as [|? ? H0 Hrest]; subst.
    destruct (String.eqb_spec k0 k) as [-> | Hne]; constructor; auto.
Qed.

Lemma dict_set_well_keyed (d : dict SecuritySchedule.t) (s : SecuritySchedule.t) :
  well_keyed d -> well_keyed (dict_set d (SecuritySchedule.schedule_id s) s).
Proof.
  intros [Hnodup Hkeyed]. split.
  - apply dict_set_keys_NoDup. exact Hnodup.
  - apply dict_set_Forall; [exact Hkeyed | reflexivity].
Qed.

Lemma dict_del_well_keyed (d : dict SecuritySchedule.t) (k : string) :
  well_keyed d -> well_keyed (dict_del d k).
Proof.
  intros [Hnodup Hkeyed]. induction d as [|[k0 v0] d IH]; cbn.
  - split; constructor.
  - cbn in Hnodup. inversion Hnodup as [|? ? Hnotin Hrest]; subst.
    inversion Hkeyed as [|? ? H0 Hkrest]; subst.
    destruct (String.eqb_spec k0 k) as [-> | Hne]; [split; assumption|].
    destruct (IH Hrest Hkrest) as [IH1 IH2]. split.
    + cbn. constructor; [|exact IH1].
      intros Hin. apply Hnotin.
      clear -Hin. induction d as [|[k1 v1] d IHd]; cbn in *; [contradiction|].
      destruct (String.eqb k1 k); cbn in *; [right; exact Hin|].
      destruct Hin as [H | H]; [left; exact H | right; exact (IHd H)].
    + constructor; assumption.
Qed.

Lemma load_loop_well_keyed (records : list ScheduleData.t) :
  forall d, well_keyed d -> well_keyed (load_loop records d).
Proof.
  induction records as [|r records IH]; intros d Hd; cbn; [exact Hd|].
  destruct (parse_schedule r) as [s|]; [|exact Hd].
  apply IH, dict_set_well_keyed, Hd.
Qed.

Lemma create_schedule_frame (env : Env) (self : SecurityScheduler) (w : World)
    (schedule_id : string) (frequency : ScheduleFrequency) (scan_enabled patch_enabled : bool)
    (patch_strategy : PatchStrategy) (dry_run : bool) (custom_cron : option string) :
  exists schedule,
    SecuritySchedule.schedule_id schedule = schedule_id /\
    (create_schedule env schedule_id frequency scan_enabled patch_enabled patch_strategy
       dry_run custom_cron (self, w)).2.1 =
    {| schedules := dict_set (schedules self) schedule_id schedule |}.
Proof.
  exists {| SecuritySchedule.schedule_id := schedule_id;
            SecuritySchedule.frequency := frequency;
            SecuritySchedule.scan_enabled := scan_enabled;
            SecuritySchedule.patch_enabled := patch_enabled;
            SecuritySchedule.patch_strategy := patch_strategy;
            SecuritySchedule.dry_run := dry_run;
            SecuritySchedule.last_run := None;
            SecuritySchedule.next_run :=
              match frequency_days frequency with
              | Some d =>
                  Some (env_isoformat env (env_now env (log w) + d * microseconds_per_day))
              | None => None
              end;
            SecuritySchedule.custom_cron := custom_cron |}.
  split; [reflexivity|].
  match goal with |- ?lhs.2.1 = _ => remember lhs as out eqn:Hout end.
  unfold create_schedule in Hout. unfold bind at 1, lift at 1 in Hout. cbn [fst snd] in Hout.
  assert (Hnext : _calculate_next_run env frequency custom_cron w =
            (Ok match frequency_days frequency with
                | Some d => Some (env_now env (log w) + d * microseconds_per_day)
                | None => None
                end,
             {| log := EvNow :: log w; _apt_last_updated := _apt_last_updated w |})).
  { unfold _calculate_next_run, bind, datetime_now, perform, ret, timedelta,
      microseconds_per_day.
    destruct frequency; cbn; repeat f_equal; lia. }
  rewrite Hnext in Hout. unfold bind at 1, modify_frame at 1 in Hout. cbn [fst snd] in Hout.
  unfold bind at 1 in Hout. rewrite save_schedules_eq in Hout.
  cbn [log _apt_last_updated schedules] in Hout.
  destruct (frequency_days frequency);
    destruct (env_mkdir env _) as [[]|e]; subst out; reflexivity.
Qed.

Lemma delete_schedule_frame (env : Env) (self : SecurityScheduler) (w : World)
    (schedule_id : string) :
  (delete_schedule env schedule_id (self, w)).2.1 = self \/
  (delete_schedule env schedule_id (self, w)).2.1 =
  {| schedules := dict_del (schedules self) schedule_id |}.
Proof.
  remember (delete_schedule env schedule_id (self, w)) as out eqn:Hout.
  unfold delete_schedule in Hout. unfold bind at 1, get_frame at 1 in Hout.
  cbn [fst snd] in Hout.
  destruct (dict_contains (schedules self) schedule_id); [|left; subst out; reflexivity].
  right. unfold bind at 1, modify_frame at 1 in Hout. cbn [fst snd] in Hout.
  unfold bind at 1 in Hout. rewrite save_schedules_eq in Hout.
  cbn [log _apt_last_updated schedules] in Hout.
  destruct (env_mkdir env (log w)) as [[]|e]; subst out; reflexivity.
Qed.

(** X21: every schedule is stored under its own [schedule_id] and no id
    is stored twice: a newly constructed scheduler satisfies this whatever
    the schedule file holds, and [create_schedule] and [delete_schedule]
    keep it. *)
Theorem store_stays_well_keyed (env : Env) :
  (forall file, well_keyed (schedules (SecurityScheduler_init file))) /\
  (forall self w schedule_id frequency scan_enabled patch_enabled patch_strategy dry_run
          custom_cron,
     well_keyed (schedules self) ->
     well_keyed
       (schedules
          (create_schedule env schedule_id frequency scan_enabled patch_enabled
             patch_strategy dry_run custom_cron (self, w)).2.1)) /\
  (forall self w schedule_id,
     well_keyed (schedules self) ->
     well_keyed (schedules (delete_schedule env schedule_id (self, w)).2.1)).
Proof.
  split; [|split].
  - intros file. unfold SecurityScheduler_init, _load_schedules.
    destruct file; cbn [schedules]; try (split; constructor).
    apply load_loop_well_keyed. split; constructor.
  - intros self w schedule_id frequency scan_enabled patch_enabled patch_strategy dry_run
      custom_cron Hkeyed.
    destruct (create_schedule_frame env self w schedule_id frequency scan_enabled
                patch_enabled patch_strategy dry_run custom_cron) as (schedule & Hid & ->).
    cbn [schedules]. rewrite <- Hid at 1. apply dict_set_well_keyed, Hkeyed.
  - intros self w schedule_id Hkeyed.
    destruct (delete_schedule_frame env self w schedule_id) as [-> | ->];
      [exact Hkeyed | apply dict_del_well_keyed, Hkeyed].
Qed.

Lemma store_stays_well_keyed_witness :
  well_keyed
    (schedules
       (delete_schedule (sample_env true (Raise "scanner down") ConfigMissing) "nightly"
          (sample_scheduler true, sample_world)).2.1).
Proof.
  destruct (store_stays_well_keyed (sample_env true (Raise "scanner down") ConfigMissing))
    as (_ & _ & Hdelete).
  apply Hdelete. split; cbn.
  - constructor; [intros [] | constructor].
  - constructor; [reflexivity | constructor].
Defined.

(** ** SecurityScheduler: installing the systemd timer *)

Ltac timer_cases :=
  repeat (cbn [fst snd negb Z.eqb];
          match goal with
          | |- context [tenv_geteuid ?t ?l =? 0] => destruct (tenv_geteuid t l =? 0)
          | |- context [tenv_write ?t ?l ?p ?c] => destruct (tenv_write t l p c) as [[]|?]
          | |- context [tenv_subprocess ?t ?l ?c] =>
              destruct (tenv_subprocess t l c) as [[|?|?] ? ?| |?]
          end).

(** X28: [install_systemd_timer] touches nothing for an unknown schedule,
    and for a known one it stops after the privilege check, writing no file
    and calling no [systemctl], when the process is not root and
    [sudo -n true] does not exit with status 0. *)
Theorem install_systemd_timer_requires_privileges (tenv : TimerEnv)
    (self : SecurityScheduler) (schedule_id : string) (l : list TimerEvent) :
  (dict_get (schedules self) schedule_id = None ->
   install_systemd_timer tenv self schedule_id l = (Ok false, l)) /\
  (dict_get (schedules self) schedule_id <> None ->
   tenv_geteuid tenv l <> 0 ->
   (forall out err,
      tenv_subprocess tenv (TvGetEuid :: l) ["sudo"; "-n"; "true"] <> Exited 0 out err) ->
   install_systemd_timer tenv self schedule_id l =
   (Ok false, TvRun ["sudo"; "-n"; "true"] :: TvGetEuid :: l)).
Proof.
  split.
  - intros Hunknown. unfold install_systemd_timer. rewrite Hunknown. reflexivity.
  - intros Hstored Heuid Hsudo. unfold install_systemd_timer.
    destruct (dict_get (schedules self) schedule_id) as [schedule|]; [|congruence].
    unfold try_except, bind, _has_root_privileges, bind, timer_perform, sudo_check,
      timer_perform, ret.
    cbn [fst snd].
    destruct (Z.eqb_spec (tenv_geteuid tenv l) 0) as [Heq | _]; [contradiction|].
    cbn [fst snd].
    destruct (tenv_subprocess tenv (TvGetEuid :: l) ["sudo"; "-n"; "true"])
      as [returncode out err | | e] eqn:Hrun; cbn [negb fst snd]; try reflexivity.
    destruct (Z.eqb_spec returncode 0) as [-> | _]; [|reflexivity].
    exfalso. exact (Hsudo out err eq_refl).
Qed.

Lemma install_systemd_timer_requires_privileges_witness :
  install_systemd_timer (sample_timer_env false) (sample_scheduler true) "nightly" [] =
  (Ok false, [TvRun ["sudo"; "-n"; "true"]; TvGetEuid]).
Proof.
  apply (install_systemd_timer_requires_privileges (sample_timer_env false)
           (sample_scheduler true) "nightly" []).
  - cbn. discriminate.
  - cbn. lia.
  - intros out err. cbn. discriminate.
Defined.

Lemma has_root_privileges_eq (tenv : TimerEnv) (l : list TimerEvent) :
  exists (privileged : bool) (check : list TimerEvent),
    _has_root_privileges tenv l = (Ok privileged, check ++ l) /\
    (check = [TvGetEuid] \/ check = [TvRun ["sudo"; "-n"; "true"]; TvGetEuid]).
Proof.
  unfold _has_root_privileges, bind, timer_perform, sudo_check, timer_perform, ret.
  cbn [fst snd].
  destruct (tenv_geteuid tenv l =? 0).
  - exists true, [TvGetEuid]. split; [reflexivity | left; reflexivity].
  - eexists _, [TvRun ["sudo"; "-n"; "true"]; TvGetEuid].
    split; [reflexivity | right; reflexivity].
Qed.

(** After a successful privilege check the installation is the attempt of
    the five steps, and its answer is whether all of them succeeded. *)
Lemma install_systemd_timer_attempt (tenv : TimerEnv) (self : SecurityScheduler)
    (schedule_id : string) (schedule : SecuritySchedule.t) (l l0 : list TimerEvent)
    (privileged : bool) :
  dict_get (schedules self) schedule_id = Some schedule ->
  _has_root_privileges tenv l = (Ok privileged, l0) ->
  install_systemd_timer tenv self schedule_id l =
    if privileged
    then
      (Ok (attempt tenv (timer_steps schedule_id (SecuritySchedule.frequency schedule))
             l0).1,
       (attempt tenv (timer_steps schedule_id (SecuritySchedule.frequency schedule))
          l0).2)
    else (Ok false, l0).
Proof.
  intros Hstored Hcheck. unfold install_systemd_timer. rewrite Hstored.
  unfold try_except. unfold bind at 1. rewrite Hcheck.
  destruct privileged; cbn [negb fst snd]; [|reflexivity].
  unfold bind, write_file, run_checked, timer_perform, ret, timer_steps, attempt, step_ok.
  timer_cases; reflexivity.
Qed.

(** An attempt either runs through all the steps, each of which succeeded
    when it was made, or ends with the first step that fails. *)
Lemma attempt_outcome (tenv : TimerEnv) (steps : list TimerEvent) :
  forall l,
    ((attempt tenv steps l).1 = true /\
     (attempt tenv steps l).2 = rev steps ++ l /\
     forall j ev, steps !! j = Some ev ->
       step_ok tenv (rev (take j steps) ++ l) ev = true)
    \/
    ((attempt tenv steps l).1 = false /\
     exists k ev,
       steps !! k = Some ev /\
       step_ok tenv (rev (take k steps) ++ l) ev = false /\
       (attempt tenv steps l).2 = ev :: rev (take k steps) ++ l /\
       forall j ev', (j < k)%nat -> steps !! j = Some ev' ->
         step_ok tenv (rev (take j steps) ++ l) ev' = true).
Proof.
  induction steps as [|ev0 steps IH]; intros l.
  - left. split; [reflexivity|]. split; [reflexivity|]. intros j ev Hj. destruct j; discriminate.
  - cbn [attempt]. destruct (step_ok tenv l ev0) eqn:Hok.
    + destruct (IH (ev0 :: l)) as [(Hb & Hlog & Hall) | (Hb & k & ev & Hk & Hfail & Hlog & Hbefore)].
      * left. split; [exact Hb|]. split.
        { rewrite Hlog. cbn [rev]. rewrite <- app_assoc. reflexivity. }
        intros j ev Hj. destruct j as [|j].
        { injection Hj as <-. exact Hok. }
        cbn [take rev]. rewrite <- app_assoc. apply Hall. exact Hj.
      * right. split; [exact Hb|]. exists (S k), ev.
        split; [exact Hk|]. cbn [take rev]. rewrite <- !app_assoc.
        split; [exact Hfail|]. split; [exact Hlog|].
        intros j ev' Hlt Hj. destruct j as [|j].
        { injection Hj as <-. exact Hok. }
        cbn [take rev]. rewrite <- app_assoc. apply Hbefore; [lia | exact Hj].
    + right. split; [reflexivity|]. exists 0%nat, ev0.
      split; [reflexivity|]. split; [exact Hok|]. split; [reflexivity|].
      intros j ev' Hlt. lia.
Qed.

(** X29: for a stored schedule [install_systemd_timer] never raises.  When
    the privilege check fails it answers [False] and does nothing more.
    When it succeeds, the write of the service unit, the write of the timer
    unit, [systemctl daemon-reload], [systemctl enable] and
    [systemctl start] of the timer are attempted in this order: either all
    five succeed, each at the moment it is attempted, and the answer is
    [True]; or the answer is [False], the last thing done is the first step
    that fails, every step before it succeeded, no later step is attempted
    and nothing is undone. *)
Theorem install_systemd_timer_steps (tenv : TimerEnv) (self : SecurityScheduler)
    (schedule_id : string) (schedule : SecuritySchedule.t) (l : list TimerEvent) :
  dict_get (schedules self) schedule_id = Some schedule ->
  let steps := timer_steps schedule_id (SecuritySchedule.frequency schedule) in
  exists (privileged b : bool) (check l' : list TimerEvent),
    _has_root_privileges tenv l = (Ok privileged, check ++ l) /\
    (check = [TvGetEuid] \/ check = [TvRun ["sudo"; "-n"; "true"]; TvGetEuid]) /\
    install_systemd_timer tenv self schedule_id l = (Ok b, l') /\
    if privileged then
      (b = true /\
       l' = rev steps ++ check ++ l /\
       forall j ev, steps !! j = Some ev ->
         step_ok tenv (rev (take j steps) ++ check ++ l) ev = true)
      \/
      (b = false /\
       exists k ev,
         steps !! k = Some ev /\
         step_ok tenv (rev (take k steps) ++ check ++ l) ev = false /\
         l' = ev :: rev (take k steps) ++ check ++ l /\
         forall j ev', (j < k)%nat -> steps !! j = Some ev' ->
           step_ok tenv (rev (take j steps) ++ check ++ l) ev' = true)
    else b = false /\ l' = check ++ l.
Proof.
  intros Hstored steps.
  destruct (has_root_privileges_eq tenv l) as (privileged & check & Hcheck & Hshape).
  exists privileged.
  pose proof (install_systemd_timer_attempt tenv self schedule_id schedule l (check ++ l)
                privileged Hstored Hcheck) as Hrun.
  fold steps in Hrun.
  destruct privileged.
  - exists (attempt tenv steps (check ++ l)).1, check, (attempt tenv steps (check ++ l)).2.
    split; [exact Hcheck|]. split; [exact Hshape|]. split; [exact Hrun|].
    exact (attempt_outcome tenv steps (check ++ l)).
  - exists false, check, (check ++ l).
    split; [exact Hcheck|]. split; [exact Hshape|]. split; [exact Hrun|].
    split; reflexivity.
Qed.

Lemma install_systemd_timer_steps_witness :
  install_systemd_timer (sample_timer_env true) (sample_scheduler true) "nightly" [] =
  (Ok true, rev (timer_steps "nightly" DAILY) ++ [TvGetEuid]).
Proof.
  destruct (install_systemd_timer_steps (sample_timer_env true) (sample_scheduler true)
              "nightly" (sample_schedule true) [] eq_refl)
    as (privileged & b & check & l' & Hcheck & _ & Hrun & Hcase).
  rewrite Hrun. vm_compute in Hcheck.
  destruct privileged; [|discriminate].
  destruct check as [|ev [|ev' check]]; try discriminate.
  injection Hcheck as ->.
  destruct Hcase as [(-> & -> & _) | (_ & k & failed & Hk & Hfail & _)]; [reflexivity|].
  exfalso. destruct k as [|[|[|[|[|k]]]]]; cbn in Hk; try discriminate;
    injection Hk as <-; vm_compute in Hfail; discriminate.
Defined.

(** ** DependencyResolver *)

Lemma lstrip_chars_prefix (chars : list ascii) (pre s : string) :
  made_of chars pre ->
  Resolver.lstrip_chars chars (pre +:+ s) = Resolver.lstrip_chars chars s.
Proof.
  unfold made_of. induction pre as [|c pre IH]; intros Hpre; [reflexivity|].
  cbn [list_ascii_of_string] in Hpre. inversion Hpre as [|? ? Hc Hrest]; subst.
  change (String c pre +:+ s) with (String c (pre +:+ s)).
  cbn [Resolver.lstrip_chars].
  rewrite bool_decide_eq_true_2 by exact Hc. exact (IH Hrest).
Qed.

Section ResolverProperties.
Variable Version : Type.
Variable coerce : string -> Resolver.Outcome Version.
Variable major : Version -> Z.
Variable Version_str : Version -> string.

(** X30: [resolve] never lets a [ValueError] escape, and what it returns
    is either the single strategy 0 of type Error with risk High, or exactly
    the strategies 1 (Recommended) and 2 (Alternative), in this order, the
    first with the Medium risk when the major version required by package_b
    is below the one required by package_a and the Low risk otherwise. *)
Theorem resolve_outcomes (conflict_data : Resolver.Conflict) :
  match Resolver.resolve Version coerce major Version_str conflict_data with
  | Resolver.Raises (Resolver.ValueError _) => False
  | Resolver.Raises (Resolver.KeyError _) => True
  | Resolver.Returns strategies =>
      (exists e, strategies = [Resolver.error_strategy e]) \/
      (exists recommended alternative ver_a ver_b,
         strategies = [recommended; alternative] /\
         Resolver.id recommended = 1 /\ Resolver.type recommended = "Recommended" /\
         Resolver.id alternative = 2 /\ Resolver.type alternative = "Alternative" /\
         (major ver_b < major ver_a ->
          Resolver.risk recommended = "Medium (breaking changes detected)") /\
         (major ver_a <= major ver_b ->
          Resolver.risk recommended = "Low (no breaking changes detected)") /\
         exists requires_a requires_b pkg_a pkg_b,
           Resolver.package_a conflict_data = Some pkg_a /\
           Resolver.package_b conflict_data = Some pkg_b /\
           dict_get pkg_a "requires" = Some requires_a /\
           dict_get pkg_b "requires" = Some requires_b /\
           coerce (Resolver.lstrip_chars Resolver.operator_chars requires_a)
             = Resolver.Returns ver_a /\
           coerce (Resolver.lstrip_chars Resolver.operator_chars requires_b)
             = Resolver.Returns ver_b)
  end.
Proof.
  unfold Resolver.resolve.
  destruct (Resolver.package_a conflict_data) as [pkg_a|]; [|exact I].
  destruct (Resolver.package_b conflict_data) as [pkg_b|]; [|exact I].
  destruct (Resolver.dependency conflict_data) as [dep|]; [|exact I].
  unfold Resolver.resolve_packages, Resolver.getitem.
  destruct (dict_get pkg_a "requires") as [requires_a|] eqn:Ha; [|exact I].
  destruct (dict_get pkg_b "requires") as [requires_b|] eqn:Hb; [|exact I].
  destruct (coerce (Resolver.lstrip_chars Resolver.operator_chars requires_a))
    as [ver_a|[k|e]] eqn:Hva; [|exact I|left; eexists; reflexivity].
  destruct (coerce (Resolver.lstrip_chars Resolver.operator_chars requires_b))
    as [ver_b|[k|e]] eqn:Hvb; [|exact I|left; eexists; reflexivity].
  destruct (dict_get pkg_b "name") as [name_b|]; [|exact I].
  destruct (dict_get pkg_a "name") as [name_a|]; [|exact I].
  right. eexists _, _, ver_a, ver_b.
  split; [reflexivity|]. cbn [Resolver.id Resolver.type Resolver.risk].
  do 4 (split; [reflexivity|]).
  split; [|split].
  - intros Hlt. apply Z.ltb_lt in Hlt. rewrite Hlt. reflexivity.
  - intros Hle. apply Z.ltb_ge in Hle. rewrite Hle. reflexivity.
  - exists requires_a, requires_b, pkg_a, pkg_b. repeat split; assumption.
Qed.

(** X10: the constraint operators are discarded.  Putting any run of the
    characters [^~>=<] in front of the version requirement of either
    package does not change what [resolve] answers. *)
Theorem resolve_ignores_operators (pkg_a pkg_b : dict string) (dep : option string)
    (requires_a requires_b prefix_a prefix_b : string) :
  dict_get pkg_a "requires" = Some requires_a ->
  dict_get pkg_b "requires" = Some requires_b ->
  made_of Resolver.operator_chars prefix_a ->
  made_of Resolver.operator_chars prefix_b ->
  Resolver.resolve Version coerce major Version_str
    {| Resolver.package_a := Some (with_requires pkg_a (prefix_a +:+ requires_a));
       Resolver.package_b := Some (with_requires pkg_b (prefix_b +:+ requires_b));
       Resolver.dependency := dep |} =
  Resolver.resolve Version coerce major Version_str
    {| Resolver.package_a := Some pkg_a;
       Resolver.package_b := Some pkg_b;
       Resolver.dependency := dep |}.
Proof.
  intros Ha Hb Hpa Hpb. unfold Resolver.resolve.
  cbn [Resolver.package_a Resolver.package_b Resolver.dependency].
  destruct dep as [dep|]; [|reflexivity].
  unfold Resolver.resolve_packages, Resolver.getitem, with_requires.
  rewrite !dict_get_set_same, Ha, Hb.
  rewrite !lstrip_chars_prefix by assumption.
  rewrite !dict_get_set_other by discriminate.
  reflexivity.
Qed.

End ResolverProperties.

Lemma resolve_ignores_operators_witness :
  Resolver.resolve Z sample_coerce (fun v => v) PyStr.of_int (sample_conflict "^2" ">=1") =
  Resolver.resolve Z sample_coerce (fun v => v) PyStr.of_int (sample_conflict "2" "1").
Proof.
  refine (resolve_ignores_operators Z sample_coerce (fun v => v) PyStr.of_int
            [("name", "pkg-a"); ("requires", "2")] [("name", "pkg-b"); ("requires", "1")]
            (Some "lib-x") "2" "1" "^" ">=" eq_refl eq_refl _ _).
  - unfold made_of. cbn. repeat constructor; refine (bool_decide_unpack _ _); vm_compute; exact I.
  - unfold made_of. cbn. repeat constructor; refine (bool_decide_unpack _ _); vm_compute; exact I.
Defined.

(** ** Instances of the statements on planning and applying *)

Lemma sample_history_answers (refresh_ok : bool) (scan : Result ScanResult.t)
    (config : ConfigFile) :
  history_answers (sample_env refresh_ok scan config).
Proof.
  split; [intros; eexists; reflexivity | intros; reflexivity].
Qed.

Lemma create_patch_plan_commands_witness :
  commands_run
    (log (create_patch_plan (sample_env true (Raise "scanner down") ConfigMissing)
            (sample_patcher false) (Some sample_vulnerabilities) sample_world).2) =
  [apt_get_update; policy_cmd "a"; policy_cmd "linux-image-generic"].
Proof.
  rewrite (create_patch_plan_commands (sample_env true (Raise "scanner down") ConfigMissing)
             (sample_patcher false) sample_vulnerabilities sample_world).
  - vm_compute. reflexivity.
  - vm_compute. discriminate.
Defined.

Lemma apply_patch_plan_success_iff_no_error_witness :
  exists r w',
    apply_patch_plan (sample_env true (Raise "scanner down") ConfigMissing)
      (sample_patcher false) (sample_plan [("a", "2"); ("b", "2"); ("c", "2")]) sample_world
    = (Ok r, w') /\
    (success r = true <-> errors r = []) /\
    sublist (packages_updated r) ["a"; "b"; "c"].
Proof.
  destruct (apply_patch_plan (sample_env true (Raise "scanner down") ConfigMissing)
              (sample_patcher false) (sample_plan [("a", "2"); ("b", "2"); ("c", "2")])
              sample_world) as [[r|e] w'] eqn:Hrun.
  - exists r, w'. split; [reflexivity|].
    exact (apply_patch_plan_success_iff_no_error _ _ _ _ r w' Hrun).
  - vm_compute in Hrun. discriminate.
Defined.

Lemma apply_patch_plan_rollback_id_witness :
  exists r,
    apply_patch_plan (sample_env true (Raise "scanner down") ConfigMissing)
      (sample_patcher false) (sample_plan []) sample_world
    = (Ok r, {| log := [EvNow; EvTime]; _apt_last_updated := None |}) /\
    success r = true /\ errors r = [] /\ vulnerabilities_patched r = 0%nat /\
    packages_updated r = [] /\ rollback_id r = None.
Proof.
  exact (proj2 (apply_patch_plan_rollback_id
                  (sample_env true (Raise "scanner down") ConfigMissing)
                  (sample_patcher false) (sample_plan []) sample_world) eq_refl).
Defined.

Lemma apply_patch_plan_returns_witness :
  exists r w',
    apply_patch_plan (sample_env false (Raise "scanner down") ConfigMissing)
      (sample_patcher false) (sample_plan [("a", "2"); ("b", "2")]) sample_world
    = (Ok r, w').
Proof.
  apply apply_patch_plan_returns, sample_history_answers.
Defined.

Lemma apply_patch_plan_accounts_for_all_witness :
  exists r w',
    apply_patch_plan (sample_env true (Raise "scanner down") ConfigMissing)
      (sample_patcher false) (sample_plan [("a", "2"); ("b", "2"); ("c", "2")]) sample_world
    = (Ok r, w') /\
    (length (packages_updated r) + length (errors r) = 3)%nat.
Proof.
  destruct (apply_patch_plan_accounts_for_all
              (sample_env true (Raise "scanner down") ConfigMissing) (sample_patcher false)
              (sample_plan [("a", "2"); ("b", "2"); ("c", "2")]) sample_world)
    as (r & w' & Hrun & Hok & _).
  - apply sample_history_answers.
  - reflexivity.
  - discriminate.
  - exists r, w'. split; [exact Hrun|]. apply Hok. vm_compute. reflexivity.
Defined.

Lemma patch_vulnerabilities_without_candidates_witness :
  exists r new w',
    patch_vulnerabilities sample_env_without_candidates (sample_patcher false)
      (Some sample_vulnerabilities) sample_world = (Ok r, w') /\
    log w' = new ++ [] /\
    List.Forall planning_event new /\
    success r = true /\ errors r = [] /\
    vulnerabilities_patched r = 0%nat /\ packages_updated r = [] /\
    rollback_id r = None.
Proof.
  apply (patch_vulnerabilities_without_candidates sample_env_without_candidates
           (sample_patcher false) sample_vulnerabilities sample_world).
  intros l p. reflexivity.
Defined.

Lemma patch_vulnerabilities_dry_run_witness :
  exists r new w',
    patch_vulnerabilities (sample_env true (Raise "scanner down") ConfigMissing)
      (sample_patcher true) (Some sample_vulnerabilities) sample_world = (Ok r, w') /\
    log w' = new ++ [] /\
    List.Forall planning_event new /\
    success r = true /\ errors r = [] /\ rollback_id r = None /\
    In (EvRun apt_get_update) new.
Proof.
  destruct (patch_vulnerabilities_dry_run
              (sample_env true (Raise "scanner down") ConfigMissing) (sample_patcher true)
              sample_vulnerabilities sample_world eq_refl)
    as (r & new & w' & Hrun & Hlog & Hplanning & Hsuccess & Herrors & Hrollback & Hrefresh).
  exists r, new, w'. repeat (split; [assumption|]).
  apply Hrefresh; vm_compute; [discriminate | reflexivity].
Defined.

Lemma create_patch_plan_flags_witness :
  exists plan w',
    create_patch_plan (sample_env true (Raise "scanner down") ConfigMissing)
      (sample_patcher false) (Some sample_vulnerabilities) sample_world = (Ok plan, w') /\
    requires_reboot plan = true /\
    estimated_duration_minutes plan = 2.
Proof.
  destruct (create_patch_plan_flags (sample_env true (Raise "scanner down") ConfigMissing)
              (sample_patcher false) sample_vulnerabilities sample_world)
    as (plan & w' & Hrun & Hreboot & Hduration & _).
  exists plan, w'. split; [exact Hrun|].
  vm_compute in Hrun. injection Hrun as <- <-.
  split; [reflexivity|]. reflexivity.
Defined.

Lemma create_patch_plan_versions_witness :
  exists plan w',
    create_patch_plan (sample_env true (Raise "scanner down") ConfigMissing)
      (sample_patcher false) (Some sample_vulnerabilities) sample_world = (Ok plan, w') /\
    List.NoDup (dict_keys (packages_to_update plan)).
Proof.
  destruct (create_patch_plan_versions (sample_env true (Raise "scanner down") ConfigMissing)
              (sample_patcher false) sample_vulnerabilities sample_world)
    as (plan & w' & Hrun & Hnodup & _).
  exists plan, w'. split; [exact Hrun | exact Hnodup].
Defined.

Lemma resolve_outcomes_witness :
  exists recommended alternative,
    Resolver.resolve Z sample_coerce (fun v => v) PyStr.of_int (sample_conflict "^2" "~1") =
    Resolver.Returns [recommended; alternative] /\
    Resolver.risk recommended = "Medium (breaking changes detected)".
Proof.
  pose proof (resolve_outcomes Z sample_coerce (fun v => v) PyStr.of_int
                (sample_conflict "^2" "~1")) as Hshape.
  destruct (Resolver.resolve Z sample_coerce (fun v => v) PyStr.of_int
              (sample_conflict "^2" "~1")) as [strategies|e] eqn:Hrun.
  - destruct Hshape as [[e He] | Hshape]; [subst; vm_compute in Hrun; discriminate|].
    destruct Hshape as (recommended & alternative & ver_a & ver_b & -> & _ & _ & _ & _
                        & Hmedium & _ & requires_a & requires_b & pkg_a & pkg_b
                        & Hpkg_a & Hpkg_b & Hrequires_a & Hrequires_b & Hver_a & Hver_b).
    exists recommended, alternative. split; [reflexivity|]. apply Hmedium.
    injection Hpkg_a as <-. injection Hpkg_b as <-.
    vm_compute in Hrequires_a. injection Hrequires_a as <-.
    vm_compute in Hrequires_b. injection Hrequires_b as <-.
    vm_compute in Hver_a. injection Hver_a as <-.
    vm_compute in Hver_b. injection Hver_b as <-.
    lia.
  - vm_compute in Hrun. discriminate.
Defined.
